(** * generator-teams: the scaffold flow and the editor trigger command

    A shallow embedding of [GeneratorTeamsApp] (the Yeoman generator in
    [packages/generator-teams/src/app/GeneratorTeamsApp.ts]) and of
    [Scaffolder] (the editor command that shells out to it).

    The generator is stateful JavaScript: it mutates [this.options], the
    project-local configuration store and an in-memory file system, talks
    to the [applicationinsights] client, may call [process.exit] and may
    throw.  All of this is threaded through one state-and-outcome monad. *)

From stdpp Require Import base strings gmap list.
From Stdlib Require Import ZArith Ascii String Bool Lia.

Local Open Scope string_scope.
Local Open Scope Z_scope.

(* ===================================================================== *)
(** ** JavaScript string primitives *)
(* ===================================================================== *)

(** Strings are byte strings; the generator only inspects ASCII
    delimiters ([/], [.], [://]).  Indices are [Z] because [indexOf]
    answers [-1] and the code does arithmetic on the answer. *)
Module Js.

Definition len (s : string) : Z := Z.of_nat (String.length s).

(** [s.indexOf(pat)] *)
Definition indexOf (s pat : string) : Z :=
  match String.index 0 pat s with
  | Some i => Z.of_nat i
  | None => -1
  end.

Definition clampIndex (s : string) (i : Z) : nat :=
  Z.to_nat (Z.max 0 (Z.min i (len s))).

(** [s.substring(a, b)]: both ends clamped to [0, length], swapped when
    out of order. *)
Definition substring2 (s : string) (a b : Z) : string :=
  let a' := clampIndex s a in
  let b' := clampIndex s b in
  String.substring (Nat.min a' b') (Nat.max a' b' - Nat.min a' b') s.

(** [s.substring(a)] *)
Definition substring1 (s : string) (a : Z) : string :=
  substring2 s a (len s).

(** [s.substr(start, count)] *)
Definition substr (s : string) (start count : Z) : string :=
  let st := if start <? 0 then Z.max 0 (len s + start) else Z.min start (len s) in
  let n := Z.max 0 (Z.min count (len s - st)) in
  String.substring (Z.to_nat st) (Z.to_nat n) s.

(** [s.endsWith(suffix)] *)
Definition endsWith (s suffix : string) : bool :=
  (String.length suffix <=? String.length s)%nat
  && String.eqb
       (String.substring (String.length s - String.length suffix)
          (String.length suffix) s)
       suffix.

Definition lowerAscii (c : ascii) : ascii :=
  let n := nat_of_ascii c in
  if ((65 <=? n) && (n <=? 90))%nat then ascii_of_nat (n + 32) else c.

(** [s.toLocaleLowerCase()], on the ASCII letters (the host locale is
    taken to map [A-Z] to [a-z]; other bytes are unchanged). *)
Fixpoint toLocaleLowerCase (s : string) : string :=
  match s with
  | EmptyString => EmptyString
  | String c rest => String (lowerAscii c) (toLocaleLowerCase rest)
  end.

(** [s.split(sep)] for a one-character separator. *)
Fixpoint split (sep : ascii) (s : string) : list string :=
  match s with
  | EmptyString => [EmptyString]
  | String c rest =>
      if Ascii.eqb c sep then EmptyString :: split sep rest
      else match split sep rest with
           | [] => [String c EmptyString]
           | w :: ws => String c w :: ws
           end
  end.

(** [arr.join(sep)] *)
Definition join (sep : string) (arr : list string) : string :=
  String.concat sep arr.

(** [arr.indexOf(x) != -1] *)
Definition includes (arr : list string) (x : string) : bool :=
  existsb (String.eqb x) arr.

End Js.

(* ===================================================================== *)
(** ** Values, the options object and the world *)
(* ===================================================================== *)

(** The existing [src/manifest/manifest.json], with the members the flow
    reads. *)
Record ExistingManifest := {
  schema : string;                (* manifest["$schema"] *)
  manifestVersion : string;
  name_short : string;            (* manifest.name.short *)
  developer_name : string;        (* manifest.developer.name *)
  developer_websiteUrl : string   (* manifest.developer.websiteUrl *)
}.

(** The JavaScript values that are stored in [this.options] and in the
    configuration store. *)
Inductive JsVal :=
| JUndefined
| JBool (b : bool)
| JStr (s : string)
| JArr (items : list string)
| JManifest (m : ExistingManifest).

(** Truthiness, as [if (v)], [!v], [a && b] and [a || b] see it: the
    empty string is falsy, every object and array is truthy. *)
Definition truthy (v : JsVal) : bool :=
  match v with
  | JUndefined => false
  | JBool b => b
  | JStr s => negb (String.eqb s "")
  | JArr _ => true
  | JManifest _ => true
  end.

(** [a || b] *)
Definition jsOr (a b : JsVal) : JsVal := if truthy a then a else b.

(** [a === "literal"] *)
Definition strictEqStr (a : JsVal) (lit : string) : bool :=
  match a with
  | JStr s => String.eqb s lit
  | _ => false
  end.

(** lodash's [toString], which [camelCase] applies to its argument. *)
Definition lodashToString (v : JsVal) : string :=
  match v with
  | JUndefined => ""
  | JBool true => "true"
  | JBool false => "false"
  | JStr s => s
  | JArr items => Js.join "," items
  | JManifest _ => "[object Object]"
  end.

Definition ofStr (o : option string) : JsVal :=
  match o with Some s => JStr s | None => JUndefined end.

Definition ofBool (o : option bool) : JsVal :=
  match o with Some b => JBool b | None => JUndefined end.

(** [this.options]: a JavaScript object, keyed by property name.  A
    property that was never assigned reads as [undefined]. *)
Abbreviation Options := (gmap string JsVal).

Definition getO (o : Options) (k : string) : JsVal :=
  default JUndefined (o !! k).

Definition setO (k : string) (v : JsVal) (o : Options) : Options :=
  <[k := v]> o.

(** The answers object handed back by the prompt series ([IAnswers]); a
    question whose [when] was false leaves its member undefined. *)
Module IAnswers.
Record t := {
  confirmedAdd : option bool;
  solutionName : option string;
  whichFolder : option string;
  name : option string;
  developer : option string;
  updateManifestVersion : option bool;
  manifestVersion : option string;
  mpnId : option string;
  parts : option (list string);
  host : option string;
  unitTestsEnabled : option bool;
  lintingSupport : option bool;
  useAzureAppInsights : option bool;
  azureAppInsightsKey : option string;
  updateBuildSystem : option bool;
  showLoadingIndicator : option bool;
  isFullScreen : option bool;
  quickScaffolding : option bool
}.
End IAnswers.

(** What the in-memory file system was asked to do; templates and
    generated manifests are kept symbolic. *)
Inductive JsonDoc :=
| GeneratedManifest (version : JsVal) (opts : Options)
| UpdatedManifest (version : JsVal) (existing : JsVal).

Inductive FsOp :=
| WriteJSON (path : string) (doc : JsonDoc)
| CopyTpl (from to : string) (context : Options)
| Copy (from to : string)
| AddAdditionalDevDeps (deps : list (string * string))
| AddAdditionalDeps (deps : list (string * string))
| AddScript (name command : string)
| AddNode (name : string) (projects : list string).

(** The [applicationinsights] module.  Its exported [defaultClient] is
    undefined until [setup] has been called. *)
Record TelemetryClient := {
  instrumentationKey : string;
  commonProperties : list (string * string)
}.

Inductive TelemetryItem :=
| Event (name : string) (properties : list (string * JsVal))
| Exception (name : string) (message : string).

Record AppInsights := {
  defaultClient : option TelemetryClient;
  tracked : list TelemetryItem;      (* items handed to the client, oldest first *)
  flushes : nat
}.

(** What the generator finds on disk and in its process environment. *)
Record Disk := {
  manifestJson : option ExistingManifest;   (* ./src/manifest/manifest.json *)
  webpackLibraryName : JsVal;               (* Yotilities.getLibraryNameFromWebpackConfig() *)
  packageJsonName : option JsVal;           (* ./package.json, its [name] *)
  YOTEAMS_TELEMETRY_OPTOUT : option string;
  nodeVersion : string
}.

Record World := {
  options : Options;
  config : Options;                 (* this.config, the .yo-rc.json store *)
  fsOps : list FsOp;                (* this.fs, oldest first *)
  logged : list string;             (* this.log *)
  appInsights : AppInsights;
  destinationRoot : list string;    (* sub folders entered below the start folder *)
  uuidCalls : nat                   (* identifiers drawn from uuid() so far *)
}.

Definition withOptions (f : Options -> Options) (w : World) : World :=
  {| options := f (options w); config := config w; fsOps := fsOps w;
     logged := logged w; appInsights := appInsights w;
     destinationRoot := destinationRoot w; uuidCalls := uuidCalls w |}.

Definition withConfig (f : Options -> Options) (w : World) : World :=
  {| options := options w; config := f (config w); fsOps := fsOps w;
     logged := logged w; appInsights := appInsights w;
     destinationRoot := destinationRoot w; uuidCalls := uuidCalls w |}.

Definition withFsOps (f : list FsOp -> list FsOp) (w : World) : World :=
  {| options := options w; config := config w; fsOps := f (fsOps w);
     logged := logged w; appInsights := appInsights w;
     destinationRoot := destinationRoot w; uuidCalls := uuidCalls w |}.

Definition withLogged (f : list string -> list string) (w : World) : World :=
  {| options := options w; config := config w; fsOps := fsOps w;
     logged := f (logged w); appInsights := appInsights w;
     destinationRoot := destinationRoot w; uuidCalls := uuidCalls w |}.

Definition withAppInsights (f : AppInsights -> AppInsights) (w : World) : World :=
  {| options := options w; config := config w; fsOps := fsOps w;
     logged := logged w; appInsights := f (appInsights w);
     destinationRoot := destinationRoot w; uuidCalls := uuidCalls w |}.

Definition withDestinationRoot (f : list string -> list string) (w : World) : World :=
  {| options := options w; config := config w; fsOps := fsOps w;
     logged := logged w; appInsights := appInsights w;
     destinationRoot := f (destinationRoot w); uuidCalls := uuidCalls w |}.

Definition withUuidCalls (f : nat -> nat) (w : World) : World :=
  {| options := options w; config := config w; fsOps := fsOps w;
     logged := logged w; appInsights := appInsights w;
     destinationRoot := destinationRoot w; uuidCalls := f (uuidCalls w) |}.

(* ===================================================================== *)
(** ** The outcome monad *)
(* ===================================================================== *)

Inductive JsError :=
| TypeError (what : string).

(** A step either returns, ends the process through [process.exit], or
    throws.  The world reached so far is kept in every case. *)
Inductive Outcome (A : Type) :=
| Returned (a : A)
| Exited (code : Z)
| Threw (e : JsError).

Arguments Returned {A} a.
Arguments Exited {A} code.
Arguments Threw {A} e.

Definition Run (A : Type) : Type := World -> Outcome A * World.

Definition ret {A} (a : A) : Run A := fun w => (Returned a, w).

Definition bind {A B} (m : Run A) (k : A -> Run B) : Run B :=
  fun w =>
    match m w with
    | (Returned a, w') => k a w'
    | (Exited c, w') => (Exited c, w')
    | (Threw e, w') => (Threw e, w')
    end.

#[global] Instance Run_ret : MRet Run := @ret.
#[global] Instance Run_bind : MBind Run := fun A B k m => bind m k.

Definition process_exit {A} (code : Z) : Run A := fun w => (Exited code, w).
Definition throw {A} (e : JsError) : Run A := fun w => (Threw e, w).
Definition get : Run World := fun w => (Returned w, w).
Definition modify (f : World -> World) : Run unit := fun w => (Returned tt, f w).

Definition when_ (b : bool) (m : Run unit) : Run unit :=
  if b then m else ret tt.

Fixpoint forEach {A} (l : list A) (f : A -> Run unit) : Run unit :=
  match l with
  | [] => ret tt
  | x :: rest => f x;; forEach rest f
  end.

(** The exit status the operating system sees: the argument of
    [process.exit], or 0 when the run loop simply finishes.  After an
    uncaught exception the status is chosen by the host, not by this
    code. *)
Definition exitCode {A} (o : Outcome A) : option Z :=
  match o with
  | Returned _ => Some 0
  | Exited c => Some c
  | Threw _ => None
  end.

(** [this.options.k = v], [this.config.set(k, v)], [this.log(msg)] *)
Definition setOption (k : string) (v : JsVal) : Run unit :=
  modify (withOptions (setO k v)).

Definition option_ (k : string) : Run JsVal :=
  w ← get; ret (getO (options w) k).

Definition config_set (k : string) (v : JsVal) : Run unit :=
  modify (withConfig (setO k v)).

Definition config_get (k : string) : Run JsVal :=
  w ← get; ret (getO (config w) k).

Definition log (msg : string) : Run unit :=
  modify (withLogged (fun l => (l ++ [msg])%list)).

Definition fsDo (op : FsOp) : Run unit :=
  modify (withFsOps (fun l => (l ++ [op])%list)).

(** [AppInsights.setup(key)] creates the default client. *)
Definition AppInsights_setup (key : string) (props : list (string * string)) : Run unit :=
  modify (withAppInsights (fun ai =>
    {| defaultClient := Some {| instrumentationKey := key; commonProperties := props |};
       tracked := tracked ai; flushes := flushes ai |})).

(** [AppInsights.defaultClient.m(...)]: a member access on the client,
    which is a [TypeError] while the client is undefined. *)
Definition onDefaultClient (member : string) (f : AppInsights -> AppInsights) : Run unit :=
  w ← get;
  match defaultClient (appInsights w) with
  | Some _ => modify (withAppInsights f)
  | None => throw (TypeError ("Cannot read properties of undefined (reading '" +:+ member +:+ "')"))
  end.

Definition track (item : TelemetryItem) (ai : AppInsights) : AppInsights :=
  {| defaultClient := defaultClient ai; tracked := (tracked ai ++ [item])%list;
     flushes := flushes ai |}.

Definition trackEvent (name : string) (properties : list (string * JsVal)) : Run unit :=
  onDefaultClient "trackEvent" (track (Event name properties)).

Definition trackException (name message : string) : Run unit :=
  onDefaultClient "trackException" (track (Exception name message)).

Definition flush : Run unit :=
  onDefaultClient "flush" (fun ai =>
    {| defaultClient := defaultClient ai; tracked := tracked ai;
       flushes := S (flushes ai) |}).

(* ===================================================================== *)
(** ** Collaborators outside this file *)
(* ===================================================================== *)

(** [ManifestGeneratorFactory.supportedManifestVersions] *)
Record ManifestVersionEntry := {
  mv_manifestVersion : string;
  mv_hide : bool;
  mv_default : bool;
  mv_comment : option string
}.

(** A core-files updater: its result, the file operations it performs
    and what it logs. *)
Record CoreFilesUpdater := {
  updateCoreFiles : Options -> bool * list FsOp * list string
}.

(** Libraries and sibling modules the generator calls into. *)
Record Collaborators := {
  pkgVersion : string;                                  (* the generator's own package.json version *)
  camelCase : string -> string;                         (* lodash.camelCase *)
  uuid : nat -> string;                                 (* uuid v1: the n-th identifier handed out *)
  isSchemaVersionValid : JsVal -> bool;                 (* ManifestGeneratorFactory *)
  getManifestVersionFromValue : string -> JsVal;        (* ManifestGeneratorFactory *)
  supportedManifestVersions : list ManifestVersionEntry;
  supportsUpdateManifest : string -> string -> bool;    (* generator of a version, from a version *)
  createCoreFilesUpdater : JsVal -> option CoreFilesUpdater;
  fixFileNames : string -> Options -> string;           (* Yotilities *)
  templatePath : string -> string
}.

(* ===================================================================== *)
(** ** GeneratorTeamsApp *)
(* ===================================================================== *)

Module GeneratorTeamsApp.
Section Generator.

Variable X : Collaborators.
Variable disk : Disk.

(** [this.desc(...)] in the constructor fixes [this.description]. *)
Definition description : string := "Generate a Microsoft Teams application.".

Definition telemetryOptOut : bool :=
  match YOTEAMS_TELEMETRY_OPTOUT disk with
  | Some v => String.eqb v "1" || String.eqb v "true"
  | None => false
  end.

(** The constructor.  [args] are the positional arguments as Yeoman
    parsed them onto [this.options]; [telemetry] is the [--telemetry]
    option (default true, false after [--no-telemetry]). *)
Definition constructor (args : Options) (telemetry : bool) : Run unit :=
  modify (withOptions (fun _ =>
    setO "telemetry" (JBool telemetry) (args ∪ {["namespace" := JStr "teams"]})));;
  tel ← option_ "telemetry";
  when_ (truthy tel && negb telemetryOptOut)
    (AppInsights_setup "6d773b93-ff70-45c5-907c-8edae9bf90eb"
       [("version", pkgVersion X); ("node", nodeVersion disk)];;
     trackEvent "start-generator" []);;
  setOption "existingManifest"
    (match manifestJson disk with
     | Some m => JManifest m
     | None => JUndefined
     end).

(** [existingManifest["$schema"]] *)
Definition readSchema (em : JsVal) : Run JsVal :=
  match em with
  | JManifest m => ret (JStr (schema m))
  | JUndefined => throw (TypeError "Cannot read properties of undefined (reading '$schema')")
  | _ => ret JUndefined
  end.

Definition initializing : Run unit :=
  log ("Welcome to the Microsoft Teams App generator (" +:+ pkgVersion X +:+ ")");;
  (* composeWith('teams:tab' ... 'teams:localization'): the sub
     generators run their own phases and are not part of this class *)
  em ← option_ "existingManifest";
  if negb (isSchemaVersionValid X em) then
    log "You are running the generator on an already existing project, but on a non supported-schema.";;
    tel ← option_ "telemetry";
    when_ (truthy tel)
      (trackEvent "rerun-generator" [];;
       s ← readSchema em;
       trackException "Invalid schema" (lodashToString s);;
       flush);;
    process_exit 1
  else ret tt.

(** *** The question series: which questions are asked *)

(** The manifest versions offered, as [value]s. *)
Definition versions (o : Options) : list ManifestVersionEntry :=
  filter (fun version =>
            match getO o "existingManifest" with
            | JManifest m =>
                supportsUpdateManifest X (mv_manifestVersion version) (manifestVersion m)
            | em => if truthy em then false else negb (mv_hide version)
            end = true)
         (supportedManifestVersions X).

(** [generatorVersion], with its fallback. *)
Definition generatorVersion (cfg : Options) : JsVal :=
  let v := getO cfg "generator-version" in
  if truthy v then v else JStr "3.0.0".

Definition when_confirmedAdd (o : Options) : bool :=
  truthy (getO o "existingManifest").

Definition when_updateBuildSystem (o cfg : Options) (answers : IAnswers.t) : bool :=
  truthy (getO o "existingManifest")
  && truthy (generatorVersion cfg)
  && negb (strictEqStr (generatorVersion cfg) (pkgVersion X))
  && match IAnswers.confirmedAdd answers with Some true => true | _ => false end.

Definition when_solutionName (o : Options) : bool :=
  negb (truthy (jsOr (getO o "solutionName") (getO o "existingManifest"))).

Definition when_quickScaffolding (o : Options) : bool :=
  negb (truthy (jsOr (getO o "quickScaffolding") (getO o "existingManifest"))).

Definition when_mpnId (o : Options) (answers : IAnswers.t) : bool :=
  negb (truthy (ofBool (IAnswers.quickScaffolding answers)))
  && negb (truthy (getO o "existingManifest")).

Definition when_host (o : Options) : bool :=
  negb (truthy (getO o "existingManifest")) || negb (truthy (getO o "host")).

Definition when_lintingSupport (o : Options) (answers : IAnswers.t) : bool :=
  negb (truthy (getO o "existingManifest"))
  && negb (truthy (ofBool (IAnswers.quickScaffolding answers))).

(** *** The [then] callback: answers to options *)

(** [this.options.mpnId && this.options.mpnId.length == 0] *)
Definition mpnIdIsBlank (mpn : JsVal) : bool :=
  truthy mpn
  && match mpn with
     | JStr s => Js.len s =? 0
     | JArr items => Z.of_nat (List.length items) =? 0
     | _ => false
     end.

(** [host.endsWith('/') ? host.substr(0, host.length - 1) : host] *)
Definition stripTrailingSlash (host : string) : string :=
  if Js.endsWith host "/" then Js.substr host 0 (Js.len host - 1) else host.

(** [host.substring(host.indexOf('://') + 3)], the local [tmp] *)
Definition afterScheme (host : string) : string :=
  Js.substring1 host (Js.indexOf host "://" + 3).

(** [lodash.reverse(tmp.split('.')).join('.').toLocaleLowerCase()] *)
Definition reverseDomain (tmp : string) : string :=
  Js.toLocaleLowerCase (Js.join "." (rev (Js.split "." tmp))).

(** The two branches that set [websitePrefix]. *)
Definition websitePrefixOf (host : string) : string :=
  if 0 <=? Js.indexOf host "azurewebsites.net"
  then Js.substring2 host (Js.indexOf host "://" + 3) (Js.indexOf host ".")
  else "[your Azure web app name]".

Definition newProject (answers : IAnswers.t) : Run unit :=
  match IAnswers.host answers with
  | None => throw (TypeError "Cannot read properties of undefined (reading 'endsWith')")
  | Some answered =>
    let host := stripTrailingSlash answered in
    setOption "title" (ofStr (IAnswers.name answers));;
    setOption "description" (JStr description);;
    given ← option_ "solutionName";
    let solutionName := jsOr given (ofStr (IAnswers.solutionName answers)) in
    setOption "solutionName" solutionName;;
    let shouldUseSubDir := strictEqStr (ofStr (IAnswers.whichFolder answers)) "subdir" in
    setOption "shouldUseSubDir" (JBool shouldUseSubDir);;
    let libraryName := camelCase X (lodashToString solutionName) in
    setOption "libraryName" (JStr libraryName);;
    config_set "libraryName" (JStr libraryName);;
    setOption "packageName" (JStr (Js.toLocaleLowerCase libraryName));;
    setOption "developer" (ofStr (IAnswers.developer answers));;
    setOption "host" (JStr host);;
    let tmp := afterScheme host in
    setOption "hostname" (JStr (Js.toLocaleLowerCase (afterScheme host)));;
    setOption "manifestVersion" (ofStr (IAnswers.manifestVersion answers));;
    setOption "mpnId" (ofStr (IAnswers.mpnId answers));;
    mpn ← option_ "mpnId";
    when_ (mpnIdIsBlank mpn) (setOption "mpnId" JUndefined);;
    setOption "namespace" (JStr (reverseDomain tmp));;
    w ← get;
    modify (withUuidCalls S);;
    setOption "id" (JStr (uuid X (uuidCalls w)));;
    setOption "websitePrefix" (JStr (websitePrefixOf host));;
    when_ shouldUseSubDir
      (match solutionName with
       | JStr folder => modify (withDestinationRoot (fun l => (l ++ [folder])%list))
       | _ => throw (TypeError "The path argument must be of type string")
       end);;
    setOption "showLoadingIndicator" (ofBool (IAnswers.showLoadingIndicator answers));;
    setOption "isFullScreen" (ofBool (IAnswers.isFullScreen answers));;
    setOption "unitTestsEnabled" (ofBool (IAnswers.unitTestsEnabled answers));;
    setOption "lintingSupport"
      (jsOr (ofBool (IAnswers.quickScaffolding answers))
            (ofBool (IAnswers.lintingSupport answers)));;
    setOption "useAzureAppInsights" (ofBool (IAnswers.useAzureAppInsights answers));;
    setOption "azureAppInsightsKey" (ofStr (IAnswers.azureAppInsightsKey answers))
  end.

(** The library name of an existing project: webpack config, then the
    stored entry, then package.json. *)
Definition probeLibraryName : Run unit :=
  let fromWebpack := webpackLibraryName disk in
  if truthy fromWebpack then setOption "libraryName" fromWebpack
  else
    stored ← config_get "libraryName";
    if truthy stored then setOption "libraryName" stored
    else
      match packageJsonName disk with
      | None => throw (TypeError "Cannot read properties of undefined (reading 'name')")
      | Some pkgName =>
          log ("Unable to locate the library name in webpack.config.js, will use the package name instead ("
               +:+ lodashToString pkgName +:+ ")");;
          setOption "libraryName" pkgName
      end.

Definition existingProject (m : ExistingManifest) (answers : IAnswers.t) : Run unit :=
  setOption "developer" (JStr (developer_name m));;
  setOption "title" (JStr (name_short m));;
  setOption "hostname" (JStr "");;
  a ← config_get "useAzureAppInsights";
  setOption "useAzureAppInsights" (jsOr a (JBool false));;
  u ← config_get "unitTestsEnabled";
  setOption "unitTestsEnabled" (jsOr u (JBool false));;
  probeLibraryName;;
  setOption "host" (JStr (developer_websiteUrl m));;
  setOption "updateManifestVersion" (ofBool (IAnswers.updateManifestVersion answers));;
  setOption "manifestVersion"
    (if truthy (ofStr (IAnswers.manifestVersion answers))
     then ofStr (IAnswers.manifestVersion answers)
     else getManifestVersionFromValue X (manifestVersion m));;
  setOption "updateBuildSystem" (ofBool (IAnswers.updateBuildSystem answers)).

Definition projectParts (answers : IAnswers.t) : Run unit :=
  match IAnswers.parts answers with
  | Some parts =>
      setOption "bot" (JBool (Js.includes parts "bot"));;
      setOption "tab" (JBool (Js.includes parts "tab"));;
      setOption "connector" (JBool (Js.includes parts "connector"));;
      setOption "customBot" (JBool (Js.includes parts "custombot"));;
      setOption "messageExtension" (JBool (Js.includes parts "messageextension"));;
      setOption "localization" (JBool (Js.includes parts "localization"))
  | None => ret tt
  end.

(** [prompting], from the point where the prompt series has produced
    [answers]. *)
Definition prompting (answers : IAnswers.t) : Run unit :=
  match IAnswers.confirmedAdd answers with
  | Some false => process_exit 0
  | _ =>
    em ← option_ "existingManifest";
    (if negb (truthy em) then newProject answers
     else match em with
          | JManifest m => existingProject m answers
          | _ => throw (TypeError "Cannot read properties of undefined (reading 'name')")
          end);;
    projectParts answers;;
    setOption "reactComponents" (JBool false)
  end.

(** *** The write phase *)

Definition staticFiles : list string :=
  [ "_gitignore"; "_vscode/launch.json"; "src/server/tsconfig.json";
    "src/client/tsconfig.json"; "src/manifest/icon-outline.png";
    "src/manifest/icon-color.png"; "src/public/assets/icon.png";
    "src/public/styles/main.scss"; "src/server/TeamsAppsComponents.ts";
    "Dockerfile" ].

Definition templateFiles : list string :=
  [ "README.md"; "gulpfile.js"; "package.json"; ".env";
    "src/server/server.ts"; "webpack.config.js"; "src/client/client.ts";
    "src/public/index.html"; "src/public/tou.html"; "src/public/privacy.html" ].

Definition unitTestFiles : list string :=
  [ "src/test/test-setup.js"; "src/test/test-shim.js";
    "src/client/jest.config.js"; "src/server/jest.config.js" ].

Definition unitTestDevDeps : list (string * string) :=
  [ ("enzyme", "^3.9.0"); ("@types/enzyme", "^3.9.1"); ("@types/jest", "^27.5.0");
    ("@types/enzyme-to-json", "^1.5.3"); ("enzyme-adapter-react-16", "^1.11.2");
    ("enzyme-to-json", "^3.3.5"); ("jest", "^28.1.0"); ("ts-jest", "^28.0.2");
    ("jest-environment-jsdom", "^28.1.0"); ("cheerio", "1.0.0-rc.10") ].

Definition lintFiles : list string :=
  [ "_eslintignore"; "_eslintrc.json"; "src/server/.eslintrc.json";
    "src/client/.eslintrc.json" ].

Definition lintDevDeps : list (string * string) :=
  [ ("@typescript-eslint/eslint-plugin", "^5.22.0"); ("@typescript-eslint/parser", "^5.22.0");
    ("eslint", "^8.15.0"); ("eslint-config-standard", "^17.0.0");
    ("eslint-plugin-import", "^2.22.1"); ("eslint-plugin-node", "^11.1.0");
    ("eslint-plugin-promise", "^6.0.0"); ("eslint-plugin-react", "^7.22.0");
    ("eslint-plugin-react-hooks", "^4.2.0"); ("eslint-webpack-plugin", "^3.0.1") ].

Definition writeNewProject : Run unit :=
  w ← get;
  let o := options w in
  let unitTests := truthy (getO o "unitTestsEnabled") in
  let linting := truthy (getO o "lintingSupport") in
  fsDo (WriteJSON (fixFileNames X "src/manifest/manifest.json" o)
          (GeneratedManifest (getO o "manifestVersion") o));;
  forEach templateFiles
    (fun t => fsDo (CopyTpl (templatePath X t) (fixFileNames X t o) o));;
  when_ unitTests
    (fsDo (AddAdditionalDevDeps unitTestDevDeps);;
     fsDo (AddScript "test" "jest");;
     fsDo (AddScript "coverage" "jest --coverage");;
     fsDo (AddNode "jest" ["src/client/jest.config.js"; "src/server/jest.config.js"]));;
  when_ linting
    (fsDo (AddAdditionalDevDeps lintDevDeps);;
     fsDo (AddScript "lint" "eslint ./src --ext .js,.jsx,.ts,.tsx"));;
  forEach (staticFiles
           ++ (if unitTests then unitTestFiles else [])
           ++ (if linting then lintFiles else []))%list
    (fun t => fsDo (Copy (templatePath X t) (fixFileNames X t o))).

Definition updateBuildSystem : Run unit :=
  currentVersion ← config_get "generator-version";
  (if negb (truthy currentVersion) then
     log "Nothing to update";;
     tel ← option_ "telemetry";
     when_ (truthy tel)
       (trackEvent "update-core-files-empty" [("generatorVersion", JStr (pkgVersion X))]);;
     process_exit 3
   else ret tt);;
  match createCoreFilesUpdater X currentVersion with
  | Some coreFilesUpdater =>
      w ← get;
      let '(result, ops, messages) := updateCoreFiles coreFilesUpdater (options w) in
      modify (withFsOps (fun l => (l ++ ops)%list));;
      modify (withLogged (fun l => (l ++ messages)%list));;
      tel ← option_ "telemetry";
      when_ (truthy tel)
        (trackEvent "update-core-files"
           [("result", JStr (if result then "true" else "false"))]);;
      when_ (negb result) (process_exit 4)
  | None =>
      log "WARNING: Unable to update build system automatically. See https://github.com/pnp/generator-teams/blob/master/docs/docs/upgrading-projects.md";;
      tel ← option_ "telemetry";
      when_ (truthy tel)
        (trackEvent "update-core-files-failed"
           [("currentVersion", currentVersion); ("generatorVersion", JStr (pkgVersion X))]);;
      process_exit 2
  end.

Definition writeExistingProject : Run unit :=
  ubs ← option_ "updateBuildSystem";
  when_ (truthy ubs) updateBuildSystem;;
  umv ← option_ "updateManifestVersion";
  when_ (truthy umv)
    (w ← get;
     let o := options w in
     fsDo (WriteJSON (fixFileNames X "src/manifest/manifest.json" o)
             (UpdatedManifest (getO o "manifestVersion") (getO o "existingManifest")))).

Definition writing : Run unit :=
  em ← option_ "existingManifest";
  (if negb (truthy em) then writeNewProject else writeExistingProject);;
  react ← option_ "reactComponents";
  when_ (truthy react)
    (fsDo (AddAdditionalDeps [("msteams-react-base-component", "^4.0.1")]));;
  insights ← option_ "useAzureAppInsights";
  when_ (truthy insights)
    (fsDo (AddAdditionalDeps [("applicationinsights", "^1.3.1")]));;
  config_set "generator-version" (JStr (pkgVersion X)).

(** *** Usage reporting *)

Definition yesNo (v : JsVal) : JsVal :=
  JStr (if truthy v then "true" else "false").

(** [ctx ? ctx.join(";") : ""] *)
Definition joinContext (ctx : JsVal) : Run JsVal :=
  match ctx with
  | JArr items => ret (JStr (Js.join ";" items))
  | _ => if truthy ctx
         then throw (TypeError "join is not a function")
         else ret (JStr "")
  end.

Definition install : Run unit :=
  tel ← option_ "telemetry";
  when_ (truthy tel)
    (w ← get;
     let o := options w in
     when_ (truthy (getO o "existingManifest")) (trackEvent "rerun-generator" []);;
     trackEvent "end-generator" [];;
     when_ (truthy (getO o "bot"))
       (trackEvent "bot" [("type", getO o "botType");
                          ("files", yesNo (getO o "botFilesEnabled"))];;
        if strictEqStr (getO o "botType") "existing"
        then trackEvent "bot-existing" []
        else trackEvent "bot-new" []);;
     when_ (truthy (getO o "messageExtension"))
       (ctx ← joinContext (getO o "messagingExtensionActionContext");
        trackEvent "messageExtension"
          [("type", getO o "messagingExtensionType");
           ("context", ctx);
           ("input", jsOr (getO o "messagingExtensionActionInputType") (JStr ""));
           ("response", jsOr (getO o "messagingExtensionActionResponseType") (JStr ""));
           ("canUpdateConfiguration", yesNo (getO o "messagingExtensionCanUpdateConfiguration"));
           ("inputConfig", yesNo (getO o "messagingExtensionActionResponseTypeConfig"))]);;
     when_ (truthy (getO o "connector")) (trackEvent "connector" []);;
     when_ (truthy (getO o "customBot")) (trackEvent "outgoingWebhook" []);;
     when_ (truthy (getO o "staticTab")) (trackEvent "staticTab" []);;
     when_ (truthy (getO o "tab")) (trackEvent "tab" []);;
     when_ (truthy (getO o "unitTestsEnabled")) (trackEvent "unitTests" []);;
     when_ (truthy (getO o "showLoadingIndicator")) (trackEvent "showLoadingIndicator" []);;
     when_ (truthy (getO o "isFullScreen")) (trackEvent "isFullScreen" []);;
     when_ (truthy (getO o "tabSSO")) (trackEvent "tabSSO" []);;
     when_ (truthy (getO o "updateManifestVersion"))
       (match getO o "existingManifest" with
        | JManifest m =>
            trackEvent "updateManifest"
              [("from", JStr (manifestVersion m)); ("to", getO o "manifestVersion")]
        | JUndefined =>
            throw (TypeError "Cannot read properties of undefined (reading 'manifestVersion')")
        | _ =>
            trackEvent "updateManifest"
              [("from", JUndefined); ("to", getO o "manifestVersion")]
        end);;
     when_ (truthy (getO o "localization"))
       (trackEvent "localization"
          [("defaultLanguage", jsOr (getO o "defaultLanguage") (JStr ""));
           ("additionalLanguage", jsOr (getO o "additionalLanguage") (JStr ""))]);;
     flush).

Definition end_ : Run unit :=
  log "Thanks for using the generator!";;
  log "Have fun and make great Microsoft Teams Apps...".

(** *** One run of the generator *)

(** The phases in the order of Yeoman's run loop. *)
Definition run (args : Options) (telemetry : bool) (answers : IAnswers.t) : Run unit :=
  constructor args telemetry;;
  initializing;;
  prompting answers;;
  writing;;
  install;;
  end_.

End Generator.

(** The world a fresh process starts from: the stored configuration of the
  project folder, nothing written or logged yet, no telemetry client.
  [drawn] counts the identifiers [uuid()] has handed out before. *)
Definition initialWorld (stored : Options) (drawn : nat) : World :=
{| options := ∅; config := stored; fsOps := []; logged := [];
   appInsights := {| defaultClient := None; tracked := []; flushes := 0 |};
   destinationRoot := []; uuidCalls := drawn |}.

End GeneratorTeamsApp.

(* ===================================================================== *)
(** ** Scaffolder: the editor command *)
(* ===================================================================== *)

Module Scaffolder.

Definition PROJECT_FILE : string := "project.pnp".

Definition dquote : string := String (ascii_of_nat 34) EmptyString.

(** What the command does to the outside, in order. *)
Inductive Effect :=
| LoggerInfo (msg : string)
| LoggerWarning (msg : string)
| LoggerError (msg : string)
| NotifyWarning (msg : string)
| NotifyErrorNoLog (msg : string)
| ExecuteCommand (cwd command : string)
| WriteFileSync (path content : string)
| OpenFolder (uri : string).

(** The operator's choice in the folder quick-pick. *)
Inductive QuickPick :=
| Browse (selected : list string)   (* "Browse...", then the open dialog's folders *)
| WorkspaceFolder                   (* the current workspace folder entry *)
| Dismissed.

Section Command.

Variable join : string -> string -> string.               (* path.join *)
Variable existsSync : string -> bool.                     (* fs.existsSync *)
Variable executeCommand : string -> string -> Z + string. (* exit status, or the error thrown *)
Variable platform : string.                               (* getPlatform() *)
Variable parseWinPath : string -> string.
Variable showOutputChannel : string.                      (* Commands.showOutputChannel *)

(** [validateInput] of the solution-name input box: [None] accepts. *)
Definition validateInput (folderPath value : string) : option string :=
  if String.eqb value "" then Some "Solution name is required"
  else
    let solutionPath := join folderPath value in
    if existsSync solutionPath
    then Some ("Folder with " +:+ dquote +:+ value +:+ dquote +:+ " already exists")
    else None.

(** [window.showInputBox]: the operator submits [entries] one after the
    other; the box hands back the first one its validator accepts, and
    undefined when the operator gives up. *)
Fixpoint showInputBox (validate : string -> option string) (entries : list string)
  : option string :=
  match entries with
  | [] => None
  | value :: later =>
      match validate value with
      | None => Some value
      | Some _ => showInputBox validate later
      end
  end.

Definition getSolutionName (folderPath : string) (entries : list string) : option string :=
  showInputBox (validateInput folderPath) entries.

(** [wsFolder] is the workspace folder as (name, fsPath). *)
Definition getFolderPath (wsFolder : option (string * string)) (pick : QuickPick)
  : option string :=
  match pick with
  | Browse (folder :: _) => Some folder
  | Browse [] => None
  | WorkspaceFolder => snd <$> wsFolder
  | Dismissed => None
  end.

Definition createProjectFileAndOpen (folderPath content : string) : list Effect :=
  [ WriteFileSync (join folderPath PROJECT_FILE) content;
    if String.eqb platform "windows"
    then OpenFolder (parseWinPath folderPath)
    else OpenFolder folderPath ].

Definition yoCommand : string := "yo teams --skip-install".

Definition outputWindowHint : string :=
  "Check [output window](command:" +:+ showOutputChannel +:+ ") for more details".

Definition falsy (o : option string) : bool :=
  match o with
  | None => true
  | Some s => String.eqb s ""
  end.

Definition createProject (wsFolder : option (string * string)) (pick : QuickPick)
    (entries : list string) : list Effect :=
  LoggerInfo "Start creating a new project" ::
  match getFolderPath wsFolder pick with
  | Some folderPath =>
    if falsy (Some folderPath)
    then [NotifyWarning "You must select the parent folder to create the project in"]
    else
      match getSolutionName folderPath entries with
      | Some solutionName =>
        if falsy (Some solutionName)
        then [LoggerWarning "Cancelled solution name input"]
        else
          [ LoggerInfo ("Creating a new project in " +:+ folderPath);
            LoggerInfo ("Command to execute: " +:+ yoCommand);
            ExecuteCommand folderPath yoCommand ]
          ++ match executeCommand folderPath yoCommand with
             | inl result =>
                 if negb (result =? 0)
                 then [NotifyErrorNoLog ("Failed to create the project. " +:+ outputWindowHint +:+ ".")]
                 else LoggerInfo "Command result: 0"
                      :: createProjectFileAndOpen (join folderPath solutionName) "init"
             | inr message =>
                 [ LoggerError message;
                   NotifyErrorNoLog ("Error creating the project. " +:+ outputWindowHint +:+ ".") ]
             end
      | None => [LoggerWarning "Cancelled solution name input"]
      end
  | None => [NotifyWarning "You must select the parent folder to create the project in"]
  end%list.

(** The solution name with which the subprocess was started, if it was. *)
Definition invokedWith (wsFolder : option (string * string)) (pick : QuickPick)
    (entries : list string) : option (string * string) :=
  match getFolderPath wsFolder pick with
  | Some folderPath =>
      if falsy (Some folderPath) then None
      else match getSolutionName folderPath entries with
           | Some solutionName =>
               if falsy (Some solutionName) then None else Some (folderPath, solutionName)
           | None => None
           end
  | None => None
  end.

End Command.
End Scaffolder.

(* ===================================================================== *)
(** ** Concrete collaborators for evaluating the flow *)
(* ===================================================================== *)

Module Sample.

Definition okUpdater : CoreFilesUpdater :=
  {| updateCoreFiles := fun _ => (true, [], []) |}.

Definition failingUpdater : CoreFilesUpdater :=
  {| updateCoreFiles := fun _ => (false, [], ["core files could not be updated"]) |}.

(** [n] marks: a stand-in for the n-th identifier of uuid v1. *)
Fixpoint marks (n : nat) : string :=
  match n with
  | O => EmptyString
  | S k => String "i" (marks k)
  end.

Definition supportedSchema : string :=
  "https://developer.microsoft.com/en-us/json-schemas/teams/v1.13/MicrosoftTeams.schema.json".

(** [camelCase] is taken on single lower-case words only, where lodash
    returns its argument; the updaters exist for two stored versions. *)
Definition collaborators : Collaborators :=
  {| pkgVersion := "4.1.0";
     camelCase := fun s => s;
     uuid := fun n => String "u" (marks n);
     isSchemaVersionValid := fun em =>
       match em with
       | JManifest m => String.eqb (schema m) supportedSchema
       | _ => true
       end;
     getManifestVersionFromValue := fun v => JStr ("v" +:+ v);
     supportedManifestVersions :=
       [ {| mv_manifestVersion := "v1.13"; mv_hide := false; mv_default := true;
            mv_comment := None |} ];
     supportsUpdateManifest := fun _ _ => false;
     createCoreFilesUpdater := fun v =>
       if strictEqStr v "4.0.0" then Some okUpdater
       else if strictEqStr v "3.5.0" then Some failingUpdater
       else None;
     fixFileNames := fun path _ => path;
     templatePath := fun t => "templates/" +:+ t |}.

Definition manifest : ExistingManifest :=
  {| schema := supportedSchema;
     manifestVersion := "1.13";
     name_short := "Contoso Tab";
     developer_name := "Contoso";
     developer_websiteUrl := "https://contoso.azurewebsites.net" |}.

Definition oldManifest : ExistingManifest :=
  {| schema := "https://developer.microsoft.com/en-us/json-schemas/teams/v1.2/MicrosoftTeams.schema.json";
     manifestVersion := "1.2";
     name_short := "Contoso Tab";
     developer_name := "Contoso";
     developer_websiteUrl := "https://contoso.azurewebsites.net" |}.

(** An empty folder, and a folder that holds a generated project. *)
Definition emptyFolder (optOut : option string) : Disk :=
  {| manifestJson := None; webpackLibraryName := JUndefined;
     packageJsonName := None; YOTEAMS_TELEMETRY_OPTOUT := optOut;
     nodeVersion := "v16.15.0" |}.

Definition projectFolder (m : ExistingManifest) (optOut : option string) : Disk :=
  {| manifestJson := Some m; webpackLibraryName := JStr "contosoTab";
     packageJsonName := Some (JStr "contosotab"); YOTEAMS_TELEMETRY_OPTOUT := optOut;
     nodeVersion := "v16.15.0" |}.

(** The answers of a new project with quick scaffolding. *)
Definition newAnswers (host : string) : IAnswers.t :=
  {| IAnswers.confirmedAdd := None;
     IAnswers.solutionName := Some "myapp";
     IAnswers.whichFolder := Some "current";
     IAnswers.name := Some "My App";
     IAnswers.developer := Some "Contoso";
     IAnswers.updateManifestVersion := None;
     IAnswers.manifestVersion := Some "v1.13";
     IAnswers.mpnId := None;
     IAnswers.parts := Some ["tab"];
     IAnswers.host := Some host;
     IAnswers.unitTestsEnabled := None;
     IAnswers.lintingSupport := None;
     IAnswers.useAzureAppInsights := None;
     IAnswers.azureAppInsightsKey := None;
     IAnswers.updateBuildSystem := None;
     IAnswers.showLoadingIndicator := Some false;
     IAnswers.isFullScreen := None;
     IAnswers.quickScaffolding := Some true |}.

(** The answers of a new project placed in a sub folder, with every
    question answered. *)
Definition fullAnswers (quick : bool) (mpn : string) (lint : bool) : IAnswers.t :=
  {| IAnswers.confirmedAdd := None;
     IAnswers.solutionName := Some "myapp";
     IAnswers.whichFolder := Some "subdir";
     IAnswers.name := Some "My App";
     IAnswers.developer := Some "Contoso";
     IAnswers.updateManifestVersion := None;
     IAnswers.manifestVersion := Some "v1.13";
     IAnswers.mpnId := Some mpn;
     IAnswers.parts := Some ["tab"; "localization"];
     IAnswers.host := Some "https://myapp.azurewebsites.net";
     IAnswers.unitTestsEnabled := Some false;
     IAnswers.lintingSupport := Some lint;
     IAnswers.useAzureAppInsights := Some false;
     IAnswers.azureAppInsightsKey := None;
     IAnswers.updateBuildSystem := None;
     IAnswers.showLoadingIndicator := Some false;
     IAnswers.isFullScreen := Some false;
     IAnswers.quickScaffolding := Some quick |}.

(** The answers of a re-run on an existing project. *)
Definition rerunAnswers (confirmed updateBuild : bool) : IAnswers.t :=
  {| IAnswers.confirmedAdd := Some confirmed;
     IAnswers.solutionName := None;
     IAnswers.whichFolder := None;
     IAnswers.name := None;
     IAnswers.developer := None;
     IAnswers.updateManifestVersion := None;
     IAnswers.manifestVersion := None;
     IAnswers.mpnId := None;
     IAnswers.parts := Some [];
     IAnswers.host := Some "https://contoso.azurewebsites.net";
     IAnswers.unitTestsEnabled := None;
     IAnswers.lintingSupport := None;
     IAnswers.useAzureAppInsights := None;
     IAnswers.azureAppInsightsKey := None;
     IAnswers.updateBuildSystem := if confirmed then Some updateBuild else None;
     IAnswers.showLoadingIndicator := Some false;
     IAnswers.isFullScreen := None;
     IAnswers.quickScaffolding := None |}.

Definition stored (version : string) : Options :=
  {[ "generator-version" := JStr version ]}.

End Sample.

(* ===================================================================== *)
(** ** Reasoning about runs *)
(* ===================================================================== *)

(** [wp m Q w]: running [m] from [w] ends in an outcome and a world that
    satisfy [Q].  Every run terminates, so this is total correctness. *)
Definition wp {A} (m : Run A) (Q : Outcome A -> World -> Prop) (w : World) : Prop :=
  Q (m w).1 (m w).2.

(** No telemetry client exists and nothing has been tracked. *)
Definition quiet (w : World) : Prop :=
  defaultClient (appInsights w) = None /\ tracked (appInsights w) = [].

(** A step that keeps a quiet world quiet, however it ends. *)
Definition silent {A} (m : Run A) : Prop :=
  forall w, quiet w -> quiet (m w).2.

(** The telemetry client exists whenever the telemetry option is on. *)
Definition clientReady (w : World) : Prop :=
  truthy (getO (options w) "telemetry") = true ->
  is_Some (defaultClient (appInsights w)).

(** A new project whose question series was answered: no manifest was
    found, the re-run was not declined, the host question (always asked
    then) has its answer, and a solution name is known, from the command
    line or from its question. *)
Definition answeredNew (o : Options) (answers : IAnswers.t) : Prop :=
  truthy (getO o "existingManifest") = false
  /\ IAnswers.confirmedAdd answers <> Some false
  /\ is_Some (IAnswers.host answers)
  /\ exists s, jsOr (getO o "solutionName") (ofStr (IAnswers.solutionName answers)) = JStr s.

(** The library name an existing project resolves to: the first truthy
    one of the three sources. *)
Definition firstLibraryName (webpack stored pkgName : JsVal) : JsVal :=
  if truthy webpack then webpack
  else if truthy stored then stored
  else pkgName.

(** Every string an existing manifest could supply for a host name: its
    members, and its website URL reduced the way a new project's host is. *)
Definition manifestStrings (m : ExistingManifest) : list JsVal :=
  [ JStr (schema m); JStr (manifestVersion m); JStr (name_short m);
    JStr (developer_name m); JStr (developer_websiteUrl m);
    JStr (GeneratorTeamsApp.afterScheme (developer_websiteUrl m));
    JStr (Js.toLocaleLowerCase (GeneratorTeamsApp.afterScheme (developer_websiteUrl m))) ].

(* ===================================================================== *)
(** ** The question series: the remaining questions *)
(* ===================================================================== *)

(** The [when], [validate], [default] and [choices] members of the
    question series that [GeneratorTeamsApp] above does not already
    hold.  [o] is [this.options] when the series starts. *)
Module PromptSeries.
Section Questions.

Variable X : Collaborators.
Variable o : Options.

(** [answers.confirmedAdd != false] *)
Definition notDeclined (answers : IAnswers.t) : bool :=
  match IAnswers.confirmedAdd answers with
  | Some false => false
  | _ => true
  end.

(** [versions.length > 0] *)
Definition versionsOffered : bool :=
  (0 <? List.length (GeneratorTeamsApp.versions X o))%nat.

Definition when_whichFolder : bool :=
  negb (truthy (jsOr (getO o "solutionName") (getO o "existingManifest"))).

Definition when_name : bool :=
  negb (truthy (jsOr (getO o "name") (getO o "existingManifest"))).

Definition when_developer : bool :=
  negb (truthy (jsOr (getO o "developer") (getO o "existingManifest"))).

Definition when_updateManifestVersion (answers : IAnswers.t) : bool :=
  truthy (getO o "existingManifest") && versionsOffered && notDeclined answers.

Definition when_manifestVersion (answers : IAnswers.t) : bool :=
  (truthy (getO o "existingManifest")
   && truthy (ofBool (IAnswers.updateManifestVersion answers))
   && versionsOffered)
  || negb (truthy (jsOr (getO o "manifestVersion") (getO o "existingManifest"))).

Definition when_parts (answers : IAnswers.t) : bool :=
  notDeclined answers || negb (truthy (getO o "tab")).

Definition when_showLoadingIndicator : bool :=
  negb (truthy (getO o "existingManifest"))
  || negb (truthy (getO o "showLoadingIndicator")).

Definition when_isFullScreen (answers : IAnswers.t) : bool :=
  negb (truthy (ofBool (IAnswers.quickScaffolding answers)))
  && negb (truthy (getO o "existingManifest")).

Definition when_unitTestsEnabled (answers : IAnswers.t) : bool :=
  negb (truthy (getO o "existingManifest"))
  && negb (truthy (ofBool (IAnswers.quickScaffolding answers))).

Definition when_useAzureAppInsights (answers : IAnswers.t) : bool :=
  negb (truthy (getO o "existingManifest"))
  && negb (truthy (ofBool (IAnswers.quickScaffolding answers))).

Definition when_azureAppInsightsKey (answers : IAnswers.t) : bool :=
  truthy (ofBool (IAnswers.useAzureAppInsights answers)).

(** [validate] of the developer question: 1 to 32 characters. *)
Definition validate_developer (input : string) : bool :=
  (0 <? Js.len input) && (Js.len input <=? 32).

(** [validate] of the partner-id question: at most 10 characters. *)
Definition validate_mpnId (input : string) : bool :=
  Js.len input <=? 10.

(** [default] of the host question. *)
Definition default_host (answers : IAnswers.t) : string :=
  "https://"
  +:+ Js.toLocaleLowerCase
        (camelCase X (lodashToString (ofStr (IAnswers.solutionName answers))))
  +:+ ".azurewebsites.net".

(** One entry of [choices] of the manifest-version question. *)
Record Choice := {
  choice_name : string;
  choice_value : string;
  choice_default : bool      (* extra.default *)
}.

Definition toChoice (version : ManifestVersionEntry) : Choice :=
  {| choice_name :=
       mv_manifestVersion version
       +:+ match mv_comment version with
           | Some comment =>
               if truthy (JStr comment) then " (" +:+ comment +:+ ")" else ""
           | None => ""
           end;
     choice_value := mv_manifestVersion version;
     choice_default := mv_default version |}.

(** [choices] of the manifest-version question. *)
Definition versionChoices : list Choice :=
  map toChoice (GeneratorTeamsApp.versions X o).

(** [default] of the manifest-version question: the first choice marked
    as default, else the first choice, else the empty string. *)
Definition default_manifestVersion : string :=
  match find choice_default versionChoices with
  | Some v => choice_value v
  | None =>
      match versionChoices with
      | first :: _ => choice_value first
      | [] => ""
      end
  end.

End Questions.
End PromptSeries.

(* ===================================================================== *)
(** ** More notions for reasoning about runs *)
(* ===================================================================== *)

(** A step that leaves one view of the world as it was, however it ends. *)
Definition keeps {A T} (view : World -> T) (m : Run A) : Prop :=
  forall w, view (m w).2 = view w.

(** A step that returns and whose only effect is to append file
    operations. *)
Definition appends {A} (m : Run A) (a : A) (ops : list FsOp) : Prop :=
  forall w, m w = (Returned a, withFsOps (fun l => (l ++ ops)%list) w).

(** The character occurs in the string. *)
Fixpoint hasChar (c : ascii) (s : string) : bool :=
  match s with
  | EmptyString => false
  | String d rest => Ascii.eqb d c || hasChar c rest
  end.

(** The package scripts a list of file operations adds, in order. *)
Definition scriptsAdded (ops : list FsOp) : list (string * string) :=
  omap (fun op => match op with AddScript name command => Some (name, command) | _ => None end)
       ops.

(** The templates a list of file operations copies without rendering. *)
Definition copiedFrom (ops : list FsOp) : list string :=
  omap (fun op => match op with Copy from _ => Some from | _ => None end) ops.

(** The templates a list of file operations renders. *)
Definition renderedFrom (ops : list FsOp) : list string :=
  omap (fun op => match op with CopyTpl from _ _ => Some from | _ => None end) ops.

(** The dependencies and development dependencies it records. *)
Definition depsAdded (ops : list FsOp) : list (string * string) :=
  mbind (fun op => match op with AddAdditionalDeps deps => deps | _ => [] end) ops.

Definition devDepsAdded (ops : list FsOp) : list (string * string) :=
  mbind (fun op => match op with AddAdditionalDevDeps deps => deps | _ => [] end) ops.




(** The properties of [this.options] that option resolution assigns on
    a new project, the feature flags and [reactComponents] included. *)
Definition newProjectOptionNames : list string :=
  [ "title"; "description"; "solutionName"; "shouldUseSubDir"; "libraryName";
    "packageName"; "developer"; "host"; "hostname"; "manifestVersion"; "mpnId";
    "namespace"; "id"; "websitePrefix"; "showLoadingIndicator"; "isFullScreen";
    "unitTestsEnabled"; "lintingSupport"; "useAzureAppInsights"; "azureAppInsightsKey";
    "bot"; "tab"; "connector"; "customBot"; "messageExtension"; "localization";
    "reactComponents" ].

(** The same for an existing project. *)
Definition existingProjectOptionNames : list string :=
  [ "developer"; "title"; "hostname"; "useAzureAppInsights"; "unitTestsEnabled";
    "libraryName"; "host"; "updateManifestVersion"; "manifestVersion";
    "updateBuildSystem";
    "bot"; "tab"; "connector"; "customBot"; "messageExtension"; "localization";
    "reactComponents" ].

(** The feature flags and the part identifier each one stands for. *)
Definition partFlags : list (string * string) :=
  [ ("bot", "bot"); ("tab", "tab"); ("connector", "connector");
    ("customBot", "custombot"); ("messageExtension", "messageextension");
    ("localization", "localization") ].

(* ===================================================================== *)
(** ** Worlds reached on the concrete collaborators *)
(* ===================================================================== *)

Module Fixtures.

(** A fresh process in an empty folder with nothing stored. *)
Definition fresh : World := GeneratorTeamsApp.initialWorld ∅ 0.

(** The world after the constructor. *)
Definition started (disk : Disk) (telemetry : bool) (stored : Options) : World :=
  (GeneratorTeamsApp.constructor Sample.collaborators disk ∅ telemetry
     (GeneratorTeamsApp.initialWorld stored 0)).2.

(** The world after the constructor, [initializing] and [prompting]. *)
Definition prompted (disk : Disk) (telemetry : bool) (answers : IAnswers.t)
    (stored : Options) : World :=
  ((GeneratorTeamsApp.constructor Sample.collaborators disk ∅ telemetry;;
    GeneratorTeamsApp.initializing Sample.collaborators;;
    GeneratorTeamsApp.prompting Sample.collaborators disk answers)
     (GeneratorTeamsApp.initialWorld stored 0)).2.

(** A generated project whose library name can be read nowhere. *)
Definition bareProject : Disk :=
  {| manifestJson := Some Sample.manifest; webpackLibraryName := JUndefined;
     packageJsonName := None; YOTEAMS_TELEMETRY_OPTOUT := None;
     nodeVersion := "v16.15.0" |}.

(** The workspace [/work], which already holds the folder [taken]. *)
Definition join (a b : string) : string := a +:+ "/" +:+ b.

Definition existsSync (path : string) : bool := String.eqb path "/work/taken".

End Fixtures.

(* ===================================================================== *)
(** ** String primitives, on examples *)
(* ===================================================================== *)

Example indexOf_scheme : Js.indexOf "https://Foo.azurewebsites.net" "://" = 5.
Proof. reflexivity. Qed.

Example indexOf_missing : Js.indexOf "localhost" "://" = -1.
Proof. reflexivity. Qed.

Example substring_swaps : Js.substring2 "abcdef" 4 1 = "bcd".
Proof. reflexivity. Qed.

Example substr_drop_last : Js.substr "abc/" 0 (Js.len "abc/" - 1) = "abc".
Proof. reflexivity. Qed.

Example split_trailing : Js.split "." "a.b." = ["a"; "b"; ""].
Proof. reflexivity. Qed.

Example lower_mixed : Js.toLocaleLowerCase "Foo.Azure-9Z" = "foo.azure-9z".
Proof. reflexivity. Qed.

Example stripTrailingSlash_once :
  GeneratorTeamsApp.stripTrailingSlash "https://a.b//" = "https://a.b/".
Proof. reflexivity. Qed.

Example websitePrefix_placeholder :
  GeneratorTeamsApp.websitePrefixOf "https://example.org" = "[your Azure web app name]".
Proof. reflexivity. Qed.

(* ===================================================================== *)
(** ** Rules for [wp] *)
(* ===================================================================== *)

Import GeneratorTeamsApp.

Lemma getO_setO k k' v o :
  getO (setO k v o) k' = if String.eqb k k' then v else getO o k'.
Proof.
  unfold getO, setO. destruct (String.eqb_spec k k') as [->|Hne].
  - by rewrite lookup_insert_eq.
  - by rewrite lookup_insert_ne.
Qed.

Section WpRules.
Context {A B : Type}.
Implicit Types (Q : Outcome A -> World -> Prop) (w : World).

Lemma wp_bind (m : Run B) (k : B -> Run A) Q w :
  wp m (fun o w' =>
          match o with
          | Returned b => wp (k b) Q w'
          | Exited c => Q (Exited c) w'
          | Threw e => Q (Threw e) w'
          end) w ->
  wp (m ≫= k) Q w.
Proof.
  unfold wp, mbind, Run_bind, bind.
  destruct (m w) as [[b|c|e] w']; simpl; auto.
Qed.

Lemma wp_ret (a : A) Q w : Q (Returned a) w -> wp (ret a) Q w.
Proof. exact id. Qed.

Lemma wp_exit c Q w : Q (Exited c) w -> wp (process_exit c) Q w.
Proof. exact id. Qed.

Lemma wp_throw e Q w : Q (Threw e) w -> wp (throw e) Q w.
Proof. exact id. Qed.

Lemma wp_elim (m : Run A) Q w : wp m Q w -> Q (m w).1 (m w).2.
Proof. exact id. Qed.

End WpRules.

Lemma wp_get Q w : Q (Returned w) w -> wp get Q w.
Proof. exact id. Qed.

Lemma wp_modify f Q w : Q (Returned tt) (f w) -> wp (modify f) Q w.
Proof. exact id. Qed.

Lemma wp_setOption k v Q w :
  Q (Returned tt) (withOptions (setO k v) w) -> wp (setOption k v) Q w.
Proof. exact id. Qed.

Lemma wp_option_ k Q w :
  Q (Returned (getO (options w) k)) w -> wp (option_ k) Q w.
Proof. exact id. Qed.

Lemma wp_config_set k v Q w :
  Q (Returned tt) (withConfig (setO k v) w) -> wp (config_set k v) Q w.
Proof. exact id. Qed.

Lemma wp_config_get k Q w :
  Q (Returned (getO (config w) k)) w -> wp (config_get k) Q w.
Proof. exact id. Qed.

Lemma wp_log msg Q w :
  Q (Returned tt) (withLogged (fun l => (l ++ [msg])%list) w) -> wp (log msg) Q w.
Proof. exact id. Qed.

Lemma wp_fsDo op Q w :
  Q (Returned tt) (withFsOps (fun l => (l ++ [op])%list) w) -> wp (fsDo op) Q w.
Proof. exact id. Qed.

Lemma wp_when_true (m : Run unit) Q w : wp m Q w -> wp (when_ true m) Q w.
Proof. exact id. Qed.

Lemma wp_when_false (m : Run unit) Q w : Q (Returned tt) w -> wp (when_ false m) Q w.
Proof. exact id. Qed.

(** A telemetry call with a client tracks; without one it throws. *)
Lemma wp_onDefaultClient_some member f Q w :
  is_Some (defaultClient (appInsights w)) ->
  Q (Returned tt) (withAppInsights f w) ->
  wp (onDefaultClient member f) Q w.
Proof.
  intros [c Hc] HQ. unfold wp, onDefaultClient, mbind, Run_bind, bind, get.
  rewrite Hc. exact HQ.
Qed.

Lemma wp_onDefaultClient_none member f Q w :
  defaultClient (appInsights w) = None ->
  Q (Threw (TypeError ("Cannot read properties of undefined (reading '" +:+ member +:+ "')"))) w ->
  wp (onDefaultClient member f) Q w.
Proof.
  intros Hc HQ. unfold wp, onDefaultClient, mbind, Run_bind, bind, get.
  rewrite Hc. exact HQ.
Qed.

(** Reading a property through a chain of assignments: one step per
    assignment, decided by comparing the two names. *)
Lemma getO_setO_hit k v o rhs : v = rhs -> getO (setO k v o) k = rhs.
Proof. intros <-. rewrite getO_setO, String.eqb_refl. reflexivity. Qed.

Lemma getO_setO_miss k k' v o rhs :
  String.eqb k k' = false -> getO o k' = rhs -> getO (setO k v o) k' = rhs.
Proof. intros Hne <-. rewrite getO_setO, Hne. reflexivity. Qed.

Ltac lookup :=
  lazymatch goal with
  | |- getO (setO _ _ _) _ = _ =>
      first [ apply getO_setO_hit; reflexivity
            | apply getO_setO_miss; [reflexivity | lookup] ]
  | |- getO _ _ = _ => reflexivity
  end.

Ltac norm_reads :=
  repeat match goal with
         | |- context [getO (setO ?k ?v ?o) ?k'] =>
             let H := fresh "Hread" in
             eassert (H : getO (setO k v o) k' = _) by lookup;
             rewrite H; clear H
         end.

Ltac project_world :=
  cbn [options config fsOps logged appInsights destinationRoot uuidCalls
       withOptions withConfig withFsOps withLogged withAppInsights
       withDestinationRoot withUuidCalls].

Ltac wp_simpl :=
  cbn beta iota; project_world; norm_reads; cbn [negb andb orb].

Ltac wp_step :=
  lazymatch goal with
  | |- wp (mbind _ _) _ _ => apply wp_bind
  | |- wp (ret _) _ _ => apply wp_ret
  | |- wp (mret _) _ _ => apply wp_ret
  | |- wp (process_exit _) _ _ => apply wp_exit
  | |- wp (throw _) _ _ => apply wp_throw
  | |- wp get _ _ => apply wp_get
  | |- wp (modify _) _ _ => apply wp_modify
  | |- wp (setOption _ _) _ _ => apply wp_setOption
  | |- wp (option_ _) _ _ => apply wp_option_
  | |- wp (config_set _ _) _ _ => apply wp_config_set
  | |- wp (config_get _) _ _ => apply wp_config_get
  | |- wp (log _) _ _ => apply wp_log
  | |- wp (fsDo _) _ _ => apply wp_fsDo
  | |- wp (when_ true _) _ _ => apply wp_when_true
  | |- wp (when_ false _) _ _ => apply wp_when_false
  end.

Ltac wp_run := try wp_simpl; repeat (wp_step; wp_simpl).

(** Case split on the condition the run is stuck on. *)
Ltac wp_case :=
  lazymatch goal with
  | |- wp (when_ ?b _) _ _ => destruct b eqn:?
  | |- wp (if ?b then _ else _) _ _ => destruct b eqn:?
  end; wp_simpl.

(* ===================================================================== *)
(** ** Option resolution for a new project *)
(* ===================================================================== *)

(** The guard in front of the partner-id reset never fires on an answer:
    a string that is truthy is not of length zero. *)
Lemma mpnIdIsBlank_ofStr (answer : option string) :
  mpnIdIsBlank (ofStr answer) = false.
Proof. destruct answer as [[|c s]|]; reflexivity. Qed.

(** [prompting] does not depend on the confirmation unless it is a "no". *)
Lemma wp_prompting_confirmed X disk answers Q w :
  IAnswers.confirmedAdd answers <> Some false ->
  wp (em ← option_ "existingManifest";
      (if negb (truthy em) then newProject X answers
       else match em with
            | JManifest m => existingProject X disk m answers
            | _ => throw (TypeError "Cannot read properties of undefined (reading 'name')")
            end);;
      projectParts answers;;
      setOption "reactComponents" (JBool false)) Q w ->
  wp (prompting X disk answers) Q w.
Proof.
  intros Hconf HQ. unfold prompting.
  destruct (IAnswers.confirmedAdd answers) as [[|]|]; [exact HQ|congruence|exact HQ].
Qed.

(** What a new project's options are resolved to. *)
Lemma prompting_new_project X disk answers w h s :
  truthy (getO (options w) "existingManifest") = false ->
  IAnswers.confirmedAdd answers <> Some false ->
  IAnswers.host answers = Some h ->
  jsOr (getO (options w) "solutionName") (ofStr (IAnswers.solutionName answers)) = JStr s ->
  wp (prompting X disk answers)
     (fun o w' =>
        o = Returned tt /\
        let host := stripTrailingSlash h in
        let o' := options w' in
        getO o' "host" = JStr host
        /\ getO o' "hostname" = JStr (Js.toLocaleLowerCase (afterScheme host))
        /\ getO o' "namespace" = JStr (reverseDomain (afterScheme host))
        /\ getO o' "websitePrefix" = JStr (websitePrefixOf host)
        /\ getO o' "solutionName" = JStr s
        /\ getO o' "libraryName" = JStr (camelCase X s)
        /\ getO o' "packageName" = JStr (Js.toLocaleLowerCase (camelCase X s))
        /\ getO o' "mpnId" = ofStr (IAnswers.mpnId answers)
        /\ getO o' "lintingSupport"
           = jsOr (ofBool (IAnswers.quickScaffolding answers))
                  (ofBool (IAnswers.lintingSupport answers))
        /\ getO o' "id" = JStr (uuid X (uuidCalls w))
        /\ uuidCalls w' = S (uuidCalls w)) w.
Proof.
  intros Hnew Hconf Hh Hs.
  apply wp_prompting_confirmed; [exact Hconf|].
  wp_run. rewrite Hnew. wp_simpl.
  unfold newProject. rewrite Hh. wp_run.
  rewrite mpnIdIsBlank_ofStr. wp_run. rewrite Hs. cbn [lodashToString].
  wp_case; wp_run.
  all: unfold projectParts; destruct (IAnswers.parts answers); wp_run.
  all: repeat split; reflexivity.
Qed.

(** C10.  In a new project whose quick-scaffolding answer is "yes", the
    resolved [lintingSupport] option is [true], whatever the linting
    answer holds; and the linting question is not asked at all. *)
Theorem C10_quick_scaffolding_forces_linting X disk answers w :
  answeredNew (options w) answers ->
  IAnswers.quickScaffolding answers = Some true ->
  (prompting X disk answers w).1 = Returned tt
  /\ getO (options (prompting X disk answers w).2) "lintingSupport" = JBool true
  /\ when_lintingSupport (options w) answers = false.
Proof.
  intros (Hnew & Hconf & [h Hh] & [s Hs]) Hquick.
  pose proof (wp_elim _ _ _ (prompting_new_project X disk answers w h s Hnew Hconf Hh Hs)) as H.
  cbn beta in H. destruct H as (Hret & _ & _ & _ & _ & _ & _ & _ & _ & Hlint & _).
  split; [exact Hret|]. split.
  - rewrite Hlint, Hquick. reflexivity.
  - unfold when_lintingSupport. rewrite Hquick. apply andb_false_r.
Qed.

Lemma C10_witness :
  let w := initialWorld ∅ 0 in
  let answers := Sample.fullAnswers true "" false in
  answeredNew (options w) answers
  /\ IAnswers.quickScaffolding answers = Some true
  /\ IAnswers.lintingSupport answers = Some false
  /\ getO (options (prompting Sample.collaborators (Sample.emptyFolder None) answers w).2)
       "lintingSupport" = JBool true.
Proof.
  intros w answers.
  assert (Hnew : answeredNew (options w) answers).
  { split; [reflexivity|]. split; [discriminate|].
    split; [eexists; reflexivity|]. exists "myapp". reflexivity. }
  split; [exact Hnew|]. split; [reflexivity|]. split; [reflexivity|].
  exact (proj1 (proj2 (C10_quick_scaffolding_forces_linting
                         Sample.collaborators (Sample.emptyFolder None) answers w
                         Hnew eq_refl))).
Defined.

(** C6.  The library name of a new project is the camel-cased solution
    name and the package name is the lower-cased library name.  This
    holds for every solution name, path-unsafe characters or not. *)
Theorem C6_library_and_package_name X disk answers w :
  answeredNew (options w) answers ->
  exists solutionName libraryName,
    (prompting X disk answers w).1 = Returned tt
    /\ getO (options (prompting X disk answers w).2) "solutionName" = JStr solutionName
    /\ getO (options (prompting X disk answers w).2) "libraryName" = JStr libraryName
    /\ libraryName = camelCase X solutionName
    /\ getO (options (prompting X disk answers w).2) "packageName"
       = JStr (Js.toLocaleLowerCase libraryName).
Proof.
  intros (Hnew & Hconf & [h Hh] & [s Hs]).
  pose proof (wp_elim _ _ _ (prompting_new_project X disk answers w h s Hnew Hconf Hh Hs)) as H.
  cbn beta in H. destruct H as (Hret & _ & _ & _ & _ & Hsol & Hlib & Hpkg & _).
  exists s, (camelCase X s). repeat split; assumption.
Qed.

Lemma C6_witness :
  let w := initialWorld ∅ 0 in
  let answers := Sample.newAnswers "https://myapp.azurewebsites.net" in
  answeredNew (options w) answers
  /\ exists solutionName libraryName,
       (prompting Sample.collaborators (Sample.emptyFolder None) answers w).1 = Returned tt
       /\ getO (options (prompting Sample.collaborators (Sample.emptyFolder None) answers w).2)
            "solutionName" = JStr solutionName
       /\ getO (options (prompting Sample.collaborators (Sample.emptyFolder None) answers w).2)
            "libraryName" = JStr libraryName
       /\ libraryName = camelCase Sample.collaborators solutionName
       /\ getO (options (prompting Sample.collaborators (Sample.emptyFolder None) answers w).2)
            "packageName" = JStr (Js.toLocaleLowerCase libraryName).
Proof.
  intros w answers.
  assert (Hnew : answeredNew (options w) answers).
  { split; [reflexivity|]. split; [discriminate|].
    split; [eexists; reflexivity|]. exists "myapp". reflexivity. }
  split; [exact Hnew|].
  exact (C6_library_and_package_name Sample.collaborators (Sample.emptyFolder None)
           answers w Hnew).
Defined.

(** The partner id is stored as answered: the reset to [undefined] is
    never reached. *)
Lemma mpnId_resolved_as_answered X disk answers w :
  answeredNew (options w) answers ->
  (prompting X disk answers w).1 = Returned tt
  /\ getO (options (prompting X disk answers w).2) "mpnId" = ofStr (IAnswers.mpnId answers).
Proof.
  intros (Hnew & Hconf & [h Hh] & [s Hs]).
  pose proof (wp_elim _ _ _ (prompting_new_project X disk answers w h s Hnew Hconf Hh Hs)) as H.
  cbn beta in H. destruct H as (Hret & _ & _ & _ & _ & _ & _ & _ & Hmpn & _).
  split; assumption.
Qed.

(** C2.  The new-project answers with the partner-id question left blank:
    the resolved [mpnId] is the empty string, not [undefined]. *)
Theorem C2_blank_mpnId_stays_empty_string :
  let answers := Sample.fullAnswers false "" true in
  let r := prompting Sample.collaborators (Sample.emptyFolder None) answers (initialWorld ∅ 0) in
  IAnswers.mpnId answers = Some ""
  /\ r.1 = Returned tt
  /\ getO (options r.2) "mpnId" = JStr ""
  /\ getO (options r.2) "mpnId" <> JUndefined.
Proof.
  intros answers r.
  assert (Hnew : answeredNew (options (initialWorld ∅ 0)) answers).
  { split; [reflexivity|]. split; [discriminate|].
    split; [eexists; reflexivity|]. exists "myapp". reflexivity. }
  destruct (mpnId_resolved_as_answered Sample.collaborators (Sample.emptyFolder None)
              answers (initialWorld ∅ 0) Hnew) as [Hret Hmpn].
  fold r in Hret, Hmpn. split; [reflexivity|]. split; [exact Hret|].
  rewrite Hmpn. split; [reflexivity|discriminate].
Qed.

(** C3, as stated, fails: the website prefix of
    [https://Foo.azurewebsites.net/] is not lower-cased. *)
Lemma C3_counterexample :
  let r := prompting Sample.collaborators (Sample.emptyFolder None)
             (Sample.newAnswers "https://Foo.azurewebsites.net/") (initialWorld ∅ 0) in
  ~ (getO (options r.2) "host" = JStr "https://Foo.azurewebsites.net"
     /\ getO (options r.2) "hostname" = JStr "foo.azurewebsites.net"
     /\ getO (options r.2) "namespace" = JStr "net.azurewebsites.foo"
     /\ getO (options r.2) "websitePrefix" = JStr "foo").
Proof.
  intros r (_ & _ & _ & Hprefix).
  vm_compute in Hprefix. discriminate Hprefix.
Qed.

(** C3, amended.  For the host answer [https://Foo.azurewebsites.net/]
    a new project resolves host [https://Foo.azurewebsites.net],
    hostname [foo.azurewebsites.net], namespace [net.azurewebsites.foo]
    and website prefix [Foo], its letters as typed. *)
Theorem C3_host_derivations X disk answers w :
  answeredNew (options w) answers ->
  IAnswers.host answers = Some "https://Foo.azurewebsites.net/" ->
  let r := prompting X disk answers w in
  r.1 = Returned tt
  /\ getO (options r.2) "host" = JStr "https://Foo.azurewebsites.net"
  /\ getO (options r.2) "hostname" = JStr "foo.azurewebsites.net"
  /\ getO (options r.2) "namespace" = JStr "net.azurewebsites.foo"
  /\ getO (options r.2) "websitePrefix" = JStr "Foo".
Proof.
  intros (Hnew & Hconf & _ & [s Hs]) Hh r.
  pose proof (wp_elim _ _ _ (prompting_new_project X disk answers w _ s Hnew Hconf Hh Hs)) as H.
  cbn beta in H. fold r in H.
  destruct H as (Hret & Hhost & Hname & Hns & Hprefix & _).
  split; [exact Hret|].
  rewrite Hhost, Hname, Hns, Hprefix. repeat split; reflexivity.
Qed.

Lemma C3_witness :
  let w := initialWorld ∅ 0 in
  let answers := Sample.newAnswers "https://Foo.azurewebsites.net/" in
  let r := prompting Sample.collaborators (Sample.emptyFolder None) answers w in
  answeredNew (options w) answers
  /\ IAnswers.host answers = Some "https://Foo.azurewebsites.net/"
  /\ r.1 = Returned tt
  /\ getO (options r.2) "host" = JStr "https://Foo.azurewebsites.net"
  /\ getO (options r.2) "hostname" = JStr "foo.azurewebsites.net"
  /\ getO (options r.2) "namespace" = JStr "net.azurewebsites.foo"
  /\ getO (options r.2) "websitePrefix" = JStr "Foo".
Proof.
  intros w answers r.
  assert (Hnew : answeredNew (options w) answers).
  { split; [reflexivity|]. split; [discriminate|].
    split; [eexists; reflexivity|]. exists "myapp". reflexivity. }
  split; [exact Hnew|]. split; [reflexivity|].
  exact (C3_host_derivations Sample.collaborators (Sample.emptyFolder None)
           answers w Hnew eq_refl).
Defined.

(* ===================================================================== *)
(** ** Two runs with the same answers *)
(* ===================================================================== *)

Lemma delete_setO_layer k k' v (m1 m2 : Options) :
  delete k m1 = delete k m2 ->
  delete k (setO k' v m1) = delete k (setO k' v m2).
Proof.
  intros H. unfold setO. rewrite !delete_insert.
  destruct (decide (k = k')); [exact H | by rewrite H].
Qed.

Lemma delete_setO_own k v1 v2 (m1 m2 : Options) :
  delete k m1 = delete k m2 ->
  delete k (setO k v1 m1) = delete k (setO k v2 m2).
Proof. intros H. unfold setO. by rewrite !delete_insert_eq. Qed.

Ltac same_but k :=
  repeat first [ apply (delete_setO_layer k) | apply (delete_setO_own k) ];
  try reflexivity.

(** Two resolutions from worlds with the same options end with the same
    options, up to the [id] property. *)
Lemma prompting_new_project_twice X disk answers w1 w2 h s :
  options w1 = options w2 ->
  truthy (getO (options w1) "existingManifest") = false ->
  IAnswers.confirmedAdd answers <> Some false ->
  IAnswers.host answers = Some h ->
  jsOr (getO (options w1) "solutionName") (ofStr (IAnswers.solutionName answers)) = JStr s ->
  wp (prompting X disk answers)
     (fun _ w1' =>
        wp (prompting X disk answers)
           (fun _ w2' => delete "id" (options w1') = delete "id" (options w2')) w2) w1.
Proof.
  intros Hopt Hnew Hconf Hh Hs.
  destruct (strictEqStr (ofStr (IAnswers.whichFolder answers)) "subdir") eqn:Hsub;
    destruct (IAnswers.parts answers) as [parts|] eqn:Hparts.
  all: apply wp_prompting_confirmed; [exact Hconf|].
  all: wp_run; rewrite Hnew; wp_simpl.
  all: unfold newProject; rewrite Hh; wp_run.
  all: rewrite mpnIdIsBlank_ofStr; wp_run; rewrite Hsub, Hs; cbn [lodashToString]; wp_run.
  all: unfold projectParts; rewrite Hparts; wp_run.
  all: apply wp_prompting_confirmed; [exact Hconf|].
  all: wp_run; rewrite <- Hopt, Hnew; wp_simpl.
  all: unfold newProject; rewrite Hh; wp_run.
  all: rewrite mpnIdIsBlank_ofStr; wp_run; rewrite Hsub, <- Hopt, Hs; cbn [lodashToString]; wp_run.
  all: unfold projectParts; rewrite Hparts; wp_run.
  all: rewrite <- Hopt; same_but "id".
Qed.

(** C8.  Resolving the options of a new project twice with the same
    answers gives the same options except for [id], and the two ids
    differ, the generator of unique identifiers never repeating itself. *)
Theorem C8_two_runs_agree_except_id X disk answers w1 w2 :
  (forall i j, i <> j -> uuid X i <> uuid X j) ->
  options w1 = options w2 ->
  uuidCalls w1 <> uuidCalls w2 ->
  answeredNew (options w1) answers ->
  let r1 := prompting X disk answers w1 in
  let r2 := prompting X disk answers w2 in
  r1.1 = Returned tt /\ r2.1 = Returned tt
  /\ delete "id" (options r1.2) = delete "id" (options r2.2)
  /\ getO (options r1.2) "id" <> getO (options r2.2) "id".
Proof.
  intros Hfresh Hopt Hdrawn (Hnew & Hconf & [h Hh] & [s Hs]) r1 r2.
  pose proof (wp_elim _ _ _ (prompting_new_project X disk answers w1 h s Hnew Hconf Hh Hs)) as H1.
  assert (Hnew2 := Hnew). assert (Hs2 := Hs). rewrite Hopt in Hnew2, Hs2.
  pose proof (wp_elim _ _ _ (prompting_new_project X disk answers w2 h s Hnew2 Hconf Hh Hs2)) as H2.
  pose proof (wp_elim _ _ _
    (prompting_new_project_twice X disk answers w1 w2 h s Hopt Hnew Hconf Hh Hs)) as H12.
  cbn beta in H1, H2, H12. apply wp_elim in H12.
  fold r1 in H1, H12. fold r2 in H2, H12.
  destruct H1 as (Hret1 & _ & _ & _ & _ & _ & _ & _ & _ & _ & Hid1 & _).
  destruct H2 as (Hret2 & _ & _ & _ & _ & _ & _ & _ & _ & _ & Hid2 & _).
  repeat split; [exact Hret1 | exact Hret2 | exact H12 |].
  rewrite Hid1, Hid2. intros Heq. injection Heq as Heq.
  exact (Hfresh _ _ Hdrawn Heq).
Qed.

Lemma marks_length n : String.length (Sample.marks n) = n.
Proof. induction n as [|n IH]; simpl; congruence. Qed.

Lemma sample_uuid_fresh i j :
  i <> j -> uuid Sample.collaborators i <> uuid Sample.collaborators j.
Proof.
  intros Hij Heq. injection Heq as Heq.
  apply Hij. rewrite <- (marks_length i), <- (marks_length j). by rewrite Heq.
Qed.

Lemma C8_witness :
  let w1 := initialWorld ∅ 0 in
  let w2 := initialWorld ∅ 1 in
  let answers := Sample.fullAnswers false "" true in
  let r1 := prompting Sample.collaborators (Sample.emptyFolder None) answers w1 in
  let r2 := prompting Sample.collaborators (Sample.emptyFolder None) answers w2 in
  (forall i j, i <> j -> uuid Sample.collaborators i <> uuid Sample.collaborators j)
  /\ options w1 = options w2
  /\ uuidCalls w1 <> uuidCalls w2
  /\ answeredNew (options w1) answers
  /\ r1.1 = Returned tt /\ r2.1 = Returned tt
  /\ delete "id" (options r1.2) = delete "id" (options r2.2)
  /\ getO (options r1.2) "id" <> getO (options r2.2) "id".
Proof.
  intros w1 w2 answers r1 r2.
  assert (Hnew : answeredNew (options w1) answers).
  { split; [reflexivity|]. split; [discriminate|].
    split; [eexists; reflexivity|]. exists "myapp". reflexivity. }
  assert (Hdrawn : uuidCalls w1 <> uuidCalls w2) by discriminate.
  split; [exact sample_uuid_fresh|]. split; [reflexivity|].
  split; [exact Hdrawn|]. split; [exact Hnew|].
  exact (C8_two_runs_agree_except_id Sample.collaborators (Sample.emptyFolder None)
           answers w1 w2 sample_uuid_fresh eq_refl Hdrawn Hnew).
Defined.

Example two_runs_ids :
  let answers := Sample.fullAnswers false "" true in
  getO (options (prompting Sample.collaborators (Sample.emptyFolder None) answers
                   (initialWorld ∅ 0)).2) "id" = JStr "u"
  /\ getO (options (prompting Sample.collaborators (Sample.emptyFolder None) answers
                      (initialWorld ∅ 1)).2) "id" = JStr "ui".
Proof. split; vm_compute; reflexivity. Qed.

(* ===================================================================== *)
(** ** Option resolution for an existing project *)
(* ===================================================================== *)

(** What an existing project's options are resolved to, when one of the
    three sources of the library name is there to be read. *)
Lemma prompting_existing_project X disk answers w m :
  getO (options w) "existingManifest" = JManifest m ->
  IAnswers.confirmedAdd answers <> Some false ->
  truthy (webpackLibraryName disk) = true
  \/ truthy (getO (config w) "libraryName") = true
  \/ is_Some (packageJsonName disk) ->
  wp (prompting X disk answers)
     (fun o w' =>
        o = Returned tt /\
        let o' := options w' in
        getO o' "developer" = JStr (developer_name m)
        /\ getO o' "title" = JStr (name_short m)
        /\ getO o' "host" = JStr (developer_websiteUrl m)
        /\ getO o' "hostname" = JStr ""
        /\ getO o' "libraryName"
           = firstLibraryName (webpackLibraryName disk)
               (getO (config w) "libraryName")
               (default JUndefined (packageJsonName disk))) w.
Proof.
  intros Hem Hconf Hsource.
  apply wp_prompting_confirmed; [exact Hconf|].
  wp_run. rewrite Hem. wp_simpl. cbn [truthy negb].
  unfold existingProject. wp_run.
  unfold probeLibraryName, firstLibraryName.
  destruct (truthy (webpackLibraryName disk)) eqn:Hwebpack.
  - wp_run. unfold projectParts. destruct (IAnswers.parts answers); wp_run.
    all: repeat split; reflexivity.
  - wp_run. destruct (truthy (getO (config w) "libraryName")) eqn:Hstored.
    + wp_run. unfold projectParts. destruct (IAnswers.parts answers); wp_run.
      all: repeat split; reflexivity.
    + destruct Hsource as [Hw | [Hs | [pkgName Hpkg]]]; [congruence | congruence |].
      rewrite Hpkg. wp_run.
      unfold projectParts. destruct (IAnswers.parts answers); wp_run.
      all: repeat split; reflexivity.
Qed.

(** C5, as stated, fails: the host name of an existing project is not
    any string of its manifest. *)
Lemma C5_counterexample :
  let disk := Sample.projectFolder Sample.manifest None in
  let w := (constructor Sample.collaborators disk ∅ true (initialWorld ∅ 0)).2 in
  let r := prompting Sample.collaborators disk (Sample.rerunAnswers true false) w in
  ~ (getO (options r.2) "developer" = JStr (developer_name Sample.manifest)
     /\ getO (options r.2) "title" = JStr (name_short Sample.manifest)
     /\ In (getO (options r.2) "hostname") (manifestStrings Sample.manifest)).
Proof.
  intros disk w r (_ & _ & Hin).
  vm_compute in Hin.
  repeat (destruct Hin as [Hin | Hin]; [discriminate Hin|]).
  exact Hin.
Qed.

(** C5, amended.  On an existing project the developer name, the title
    and the host URL are taken from the existing manifest and the host
    name is set to the empty string; the library name is the first one
    found among the webpack build config, the stored [libraryName] entry
    and the package.json name. *)
Theorem C5_existing_project_options X disk answers w m :
  getO (options w) "existingManifest" = JManifest m ->
  IAnswers.confirmedAdd answers <> Some false ->
  truthy (webpackLibraryName disk) = true
  \/ truthy (getO (config w) "libraryName") = true
  \/ is_Some (packageJsonName disk) ->
  let r := prompting X disk answers w in
  r.1 = Returned tt
  /\ getO (options r.2) "developer" = JStr (developer_name m)
  /\ getO (options r.2) "title" = JStr (name_short m)
  /\ getO (options r.2) "host" = JStr (developer_websiteUrl m)
  /\ getO (options r.2) "hostname" = JStr ""
  /\ getO (options r.2) "libraryName"
     = (if truthy (webpackLibraryName disk) then webpackLibraryName disk
        else if truthy (getO (config w) "libraryName") then getO (config w) "libraryName"
        else default JUndefined (packageJsonName disk)).
Proof.
  intros Hem Hconf Hsource r.
  exact (wp_elim _ _ _ (prompting_existing_project X disk answers w m Hem Hconf Hsource)).
Qed.

Lemma C5_witness :
  let disk :=
    {| manifestJson := Some Sample.manifest; webpackLibraryName := JUndefined;
       packageJsonName := Some (JStr "contosotab"); YOTEAMS_TELEMETRY_OPTOUT := None;
       nodeVersion := "v16.15.0" |} in
  let w := (constructor Sample.collaborators disk ∅ true
              (initialWorld {[ "libraryName" := JStr "contosoTab" ]} 0)).2 in
  let r := prompting Sample.collaborators disk (Sample.rerunAnswers true false) w in
  getO (options w) "existingManifest" = JManifest Sample.manifest
  /\ IAnswers.confirmedAdd (Sample.rerunAnswers true false) <> Some false
  /\ (truthy (webpackLibraryName disk) = true
      \/ truthy (getO (config w) "libraryName") = true
      \/ is_Some (packageJsonName disk))
  /\ r.1 = Returned tt
  /\ getO (options r.2) "hostname" = JStr ""
  /\ getO (options r.2) "libraryName" = JStr "contosoTab".
Proof.
  intros disk w r.
  assert (Hem : getO (options w) "existingManifest" = JManifest Sample.manifest)
    by (vm_compute; reflexivity).
  assert (Hconf : IAnswers.confirmedAdd (Sample.rerunAnswers true false) <> Some false)
    by discriminate.
  assert (Hsource : truthy (webpackLibraryName disk) = true
                    \/ truthy (getO (config w) "libraryName") = true
                    \/ is_Some (packageJsonName disk))
    by (right; left; vm_compute; reflexivity).
  split; [exact Hem|]. split; [exact Hconf|]. split; [exact Hsource|].
  destruct (C5_existing_project_options Sample.collaborators disk
              (Sample.rerunAnswers true false) w Sample.manifest Hem Hconf Hsource)
    as (Hret & _ & _ & _ & Hname & Hlib).
  split; [exact Hret|]. split; [exact Hname|].
  unfold r. rewrite Hlib. vm_compute. reflexivity.
Defined.

(* ===================================================================== *)
(** ** Telemetry under the environment opt-out *)
(* ===================================================================== *)

Section SilentRules.
Context {A B : Type}.

Lemma silent_ret (a : A) : silent (ret a).
Proof. intros w Hq. exact Hq. Qed.

Lemma silent_exit c : silent (@process_exit A c).
Proof. intros w Hq. exact Hq. Qed.

Lemma silent_throw e : silent (@throw A e).
Proof. intros w Hq. exact Hq. Qed.

Lemma silent_bind (m : Run B) (k : B -> Run A) :
  silent m -> (forall b, silent (k b)) -> silent (m ≫= k).
Proof.
  intros Hm Hk w Hq. specialize (Hm w Hq).
  unfold mbind, Run_bind, bind. destruct (m w) as [[b|c|e] w']; simpl in *.
  - apply Hk, Hm.
  - exact Hm.
  - exact Hm.
Qed.

End SilentRules.

Lemma silent_get : silent get.
Proof. intros w Hq. exact Hq. Qed.

Lemma silent_modify f :
  (forall w, appInsights (f w) = appInsights w) -> silent (modify f).
Proof. intros Hf w [Hc Ht]. unfold quiet. simpl. rewrite Hf. by split. Qed.

Lemma silent_setOption k v : silent (setOption k v).
Proof. apply silent_modify. reflexivity. Qed.

Lemma silent_option_ k : silent (option_ k).
Proof. intros w Hq. exact Hq. Qed.

Lemma silent_config_set k v : silent (config_set k v).
Proof. apply silent_modify. reflexivity. Qed.

Lemma silent_config_get k : silent (config_get k).
Proof. intros w Hq. exact Hq. Qed.

Lemma silent_log msg : silent (log msg).
Proof. apply silent_modify. reflexivity. Qed.

Lemma silent_fsDo op : silent (fsDo op).
Proof. apply silent_modify. reflexivity. Qed.

Lemma silent_when_ b (m : Run unit) : (b = true -> silent m) -> silent (when_ b m).
Proof. destruct b; intros Hm; [apply Hm; reflexivity | apply silent_ret]. Qed.

Lemma silent_forEach {A} (l : list A) (f : A -> Run unit) :
  (forall x, silent (f x)) -> silent (forEach l f).
Proof.
  intros Hf. induction l as [|x l IH]; simpl.
  - apply silent_ret.
  - apply silent_bind; [apply Hf | intros _; exact IH].
Qed.

(** Without a client every telemetry call throws and tracks nothing. *)
Lemma silent_onDefaultClient member f : silent (onDefaultClient member f).
Proof.
  intros w [Hc Ht]. unfold onDefaultClient, mbind, Run_bind, bind, get.
  rewrite Hc. by split.
Qed.

Lemma silent_trackEvent name properties : silent (trackEvent name properties).
Proof. apply silent_onDefaultClient. Qed.

Lemma silent_trackException name message : silent (trackException name message).
Proof. apply silent_onDefaultClient. Qed.

Lemma silent_flush : silent flush.
Proof. apply silent_onDefaultClient. Qed.

Ltac silent_step :=
  lazymatch goal with
  | |- silent (mbind _ _) => apply silent_bind; [|intros ?]
  | |- silent (ret _) => apply silent_ret
  | |- silent (mret _) => apply silent_ret
  | |- silent (process_exit _) => apply silent_exit
  | |- silent (throw _) => apply silent_throw
  | |- silent get => apply silent_get
  | |- silent (setOption _ _) => apply silent_setOption
  | |- silent (option_ _) => apply silent_option_
  | |- silent (config_set _ _) => apply silent_config_set
  | |- silent (config_get _) => apply silent_config_get
  | |- silent (log _) => apply silent_log
  | |- silent (fsDo _) => apply silent_fsDo
  | |- silent (modify _) => apply silent_modify; reflexivity
  | |- silent (trackEvent _ _) => apply silent_trackEvent
  | |- silent (trackException _ _) => apply silent_trackException
  | |- silent flush => apply silent_flush
  | |- silent (forEach _ _) => apply silent_forEach; intros ?
  | |- silent (when_ _ _) => apply silent_when_; intros ?
  | |- silent (if ?b then _ else _) => destruct b
  | |- silent (match ?x with _ => _ end) => destruct x
  | |- silent (let (_, _) := ?x in _) => destruct x
  end.

Ltac silent_run := repeat silent_step.

Lemma silent_constructor X disk args telemetry :
  telemetryOptOut disk = true -> silent (constructor X disk args telemetry).
Proof.
  intros Hout. unfold constructor. rewrite Hout.
  silent_step; [silent_run|]. silent_step; [silent_run|].
  silent_step; [|silent_run].
  rewrite andb_false_r. apply silent_ret.
Qed.

Lemma silent_initializing X : silent (initializing X).
Proof. unfold initializing, readSchema. silent_run. Qed.

Lemma silent_prompting X disk answers : silent (prompting X disk answers).
Proof.
  unfold prompting, newProject, existingProject, probeLibraryName, projectParts.
  silent_run.
Qed.

Lemma silent_writing X : silent (writing X).
Proof.
  unfold writing, writeNewProject, writeExistingProject, updateBuildSystem.
  silent_run.
Qed.

Lemma silent_install : silent install.
Proof. unfold install, joinContext. silent_run. Qed.

Lemma silent_end_ : silent end_.
Proof. unfold end_. silent_run. Qed.

Lemma silent_run_generator X disk args telemetry answers :
  telemetryOptOut disk = true -> silent (run X disk args telemetry answers).
Proof.
  intros Hout. unfold run.
  apply silent_bind; [by apply silent_constructor | intros _].
  apply silent_bind; [apply silent_initializing | intros _].
  apply silent_bind; [apply silent_prompting | intros _].
  apply silent_bind; [apply silent_writing | intros _].
  apply silent_bind; [apply silent_install | intros _].
  apply silent_end_.
Qed.

(** C7.  With [YOTEAMS_TELEMETRY_OPTOUT] set to [1] or [true], a run
    hands no telemetry item to the client, whatever the telemetry option
    is: the client is never set up. *)
Theorem C7_opt_out_tracks_nothing X disk args telemetry answers stored drawn :
  YOTEAMS_TELEMETRY_OPTOUT disk = Some "1"
  \/ YOTEAMS_TELEMETRY_OPTOUT disk = Some "true" ->
  let w := (run X disk args telemetry answers (initialWorld stored drawn)).2 in
  tracked (appInsights w) = [] /\ defaultClient (appInsights w) = None.
Proof.
  intros Henv w.
  assert (Hout : telemetryOptOut disk = true).
  { unfold telemetryOptOut. destruct Henv as [-> | ->]; reflexivity. }
  destruct (silent_run_generator X disk args telemetry answers Hout
              (initialWorld stored drawn)) as [Hc Ht].
  - split; reflexivity.
  - split; assumption.
Qed.

Lemma C7_witness :
  let disk := Sample.emptyFolder (Some "1") in
  let answers := Sample.newAnswers "https://myapp.azurewebsites.net" in
  (YOTEAMS_TELEMETRY_OPTOUT disk = Some "1"
   \/ YOTEAMS_TELEMETRY_OPTOUT disk = Some "true")
  /\ tracked (appInsights
       (run Sample.collaborators disk ∅ true answers (initialWorld ∅ 0)).2) = []
  /\ tracked (appInsights
       (run Sample.collaborators disk ∅ false answers (initialWorld ∅ 0)).2) = [].
Proof.
  intros disk answers.
  split; [left; reflexivity|]. split.
  - exact (proj1 (C7_opt_out_tracks_nothing Sample.collaborators disk ∅ true answers
                    ∅ 0 (or_introl eq_refl))).
  - exact (proj1 (C7_opt_out_tracks_nothing Sample.collaborators disk ∅ false answers
                    ∅ 0 (or_introl eq_refl))).
Defined.

(** The same new project under the four settings of flag and variable. *)
Example telemetry_settings :
  let answers := Sample.newAnswers "https://myapp.azurewebsites.net" in
  let go optOut telemetry :=
    run Sample.collaborators (Sample.emptyFolder optOut) ∅ telemetry answers
      (initialWorld ∅ 0) in
  ((go None true).1 = Returned tt
   /\ tracked (appInsights (go None true).2)
      = [Event "start-generator" []; Event "end-generator" []; Event "tab" []])
  /\ ((go None false).1 = Returned tt /\ tracked (appInsights (go None false).2) = [])
  /\ ((go (Some "1") false).1 = Returned tt
      /\ tracked (appInsights (go (Some "1") false).2) = [])
  /\ (go (Some "1") true).1
     = Threw (TypeError "Cannot read properties of undefined (reading 'trackEvent')").
Proof. repeat split; vm_compute; reflexivity. Qed.

(* ===================================================================== *)
(** ** The fatal paths and their exit codes *)
(* ===================================================================== *)

Lemma wp_trackEvent_ready name properties Q w :
  is_Some (defaultClient (appInsights w)) ->
  Q (Returned tt) (withAppInsights (track (Event name properties)) w) ->
  wp (trackEvent name properties) Q w.
Proof. apply wp_onDefaultClient_some. Qed.

(** Telemetry that is switched on and has its client: the guarded call
    tracks one event and goes on. *)
Lemma wp_when_telemetry (tel : bool) name properties Q w :
  (tel = true -> is_Some (defaultClient (appInsights w))) ->
  (forall w', options w' = options w -> config w' = config w -> fsOps w' = fsOps w ->
              logged w' = logged w -> Q (Returned tt) w') ->
  wp (when_ tel (trackEvent name properties)) Q w.
Proof.
  intros Hready HQ. destruct tel.
  - apply wp_when_true, wp_trackEvent_ready; [by apply Hready|].
    by apply HQ.
  - apply wp_when_false. by apply HQ.
Qed.

(** Declining the re-run ends the process with status 0 and leaves the
    world as it was. *)
Lemma prompting_declined X disk answers w :
  IAnswers.confirmedAdd answers = Some false ->
  prompting X disk answers w = (Exited 0, w).
Proof. intros H. unfold prompting. rewrite H. reflexivity. Qed.

(** A build-system update with no stored generator version: status 3,
    nothing written, provided telemetry has its client. *)
Lemma writing_nothing_to_update X w :
  truthy (getO (options w) "existingManifest") = true ->
  truthy (getO (options w) "updateBuildSystem") = true ->
  truthy (getO (config w) "generator-version") = false ->
  clientReady w ->
  wp (writing X)
     (fun o w' => o = Exited 3 /\ fsOps w' = fsOps w /\ config w' = config w
                  /\ options w' = options w) w.
Proof.
  intros Hem Hubs Hnone Hready.
  unfold writing. wp_run. rewrite Hem. cbn [negb].
  unfold writeExistingProject. wp_run. rewrite Hubs. wp_run.
  unfold updateBuildSystem. wp_run. rewrite Hnone. wp_run.
  apply wp_when_telemetry.
  - exact Hready.
  - intros w' Ho Hc Hf Hl. wp_run. repeat split; assumption.
Qed.

(** The same request when the telemetry option is on and no client was
    set up: the telemetry call in front of [process.exit(3)] throws. *)
Lemma writing_nothing_to_update_without_client X w :
  truthy (getO (options w) "existingManifest") = true ->
  truthy (getO (options w) "updateBuildSystem") = true ->
  truthy (getO (config w) "generator-version") = false ->
  truthy (getO (options w) "telemetry") = true ->
  defaultClient (appInsights w) = None ->
  wp (writing X)
     (fun o w' =>
        o = Threw (TypeError "Cannot read properties of undefined (reading 'trackEvent')")
        /\ fsOps w' = fsOps w /\ config w' = config w) w.
Proof.
  intros Hem Hubs Hnone Htel Hclient.
  unfold writing. wp_run. rewrite Hem. cbn [negb].
  unfold writeExistingProject. wp_run. rewrite Hubs. wp_run.
  unfold updateBuildSystem. wp_run. rewrite Hnone. wp_run. rewrite Htel. wp_run.
  apply wp_onDefaultClient_none; [exact Hclient|].
  repeat split; reflexivity.
Qed.

(** No updater for the stored version: status 2. *)
Lemma writing_no_updater X w :
  truthy (getO (options w) "existingManifest") = true ->
  truthy (getO (options w) "updateBuildSystem") = true ->
  truthy (getO (config w) "generator-version") = true ->
  createCoreFilesUpdater X (getO (config w) "generator-version") = None ->
  clientReady w ->
  wp (writing X) (fun o w' => o = Exited 2 /\ fsOps w' = fsOps w /\ config w' = config w) w.
Proof.
  intros Hem Hubs Hsome Hnone Hready.
  unfold writing. wp_run. rewrite Hem. cbn [negb].
  unfold writeExistingProject. wp_run. rewrite Hubs. wp_run.
  unfold updateBuildSystem. wp_run. rewrite Hsome. wp_run. rewrite Hnone. wp_run.
  apply wp_when_telemetry.
  - exact Hready.
  - intros w' Ho Hc Hf Hl. wp_run. repeat split; assumption.
Qed.

(** The updater reports failure: status 4. *)
Lemma writing_updater_failed X w updater ops messages :
  truthy (getO (options w) "existingManifest") = true ->
  truthy (getO (options w) "updateBuildSystem") = true ->
  truthy (getO (config w) "generator-version") = true ->
  createCoreFilesUpdater X (getO (config w) "generator-version") = Some updater ->
  updateCoreFiles updater (options w) = (false, ops, messages) ->
  clientReady w ->
  wp (writing X) (fun o w' => o = Exited 4 /\ config w' = config w) w.
Proof.
  intros Hem Hubs Hsome Hupd Hres Hready.
  unfold writing. wp_run. rewrite Hem. cbn [negb].
  unfold writeExistingProject. wp_run. rewrite Hubs. wp_run.
  unfold updateBuildSystem. wp_run. rewrite Hsome. wp_run. rewrite Hupd. wp_run.
  rewrite Hres. wp_run.
  destruct (truthy (getO (options w) "telemetry")) eqn:Htel.
  - wp_run. apply wp_trackEvent_ready; [by apply Hready|]. wp_run. by split.
  - wp_run. by split.
Qed.

(** An unsupported schema: status 1, before the prompt or any write. *)
Lemma initializing_unsupported_schema X w m :
  getO (options w) "existingManifest" = JManifest m ->
  isSchemaVersionValid X (JManifest m) = false ->
  clientReady w ->
  wp (initializing X)
     (fun o w' => o = Exited 1 /\ fsOps w' = fsOps w /\ config w' = config w) w.
Proof.
  intros Hem Hbad Hready.
  unfold initializing. wp_run. rewrite Hem, Hbad. cbn [negb]. wp_run.
  destruct (truthy (getO (options w) "telemetry")) eqn:Htel.
  - pose proof (Hready Htel) as Hclient.
    wp_run. apply wp_trackEvent_ready; [exact Hclient|]. wp_run.
    unfold readSchema. wp_run.
    apply wp_onDefaultClient_some; [exact Hclient|]. wp_run.
    apply wp_onDefaultClient_some; [exact Hclient|]. wp_run.
    repeat split; reflexivity.
  - wp_run. repeat split; reflexivity.
Qed.

(** The contract of exit codes on six runs with telemetry at its
    default and no opt-out variable: success, declined re-run,
    unsupported schema, no updater, nothing to update, failed updater. *)
Example exit_codes_without_opt_out :
  let X := Sample.collaborators in
  let project := Sample.projectFolder Sample.manifest None in
  exitCode (run X (Sample.emptyFolder None) ∅ true
              (Sample.newAnswers "https://myapp.azurewebsites.net") (initialWorld ∅ 0)).1
    = Some 0
  /\ exitCode (run X project ∅ true (Sample.rerunAnswers false false)
                 (initialWorld (Sample.stored "4.0.0") 0)).1 = Some 0
  /\ exitCode (run X (Sample.projectFolder Sample.oldManifest None) ∅ true
                 (Sample.rerunAnswers true false) (initialWorld ∅ 0)).1 = Some 1
  /\ exitCode (run X project ∅ true (Sample.rerunAnswers true true)
                 (initialWorld (Sample.stored "3.0.1") 0)).1 = Some 2
  /\ exitCode (run X project ∅ true (Sample.rerunAnswers true true)
                 (initialWorld ∅ 0)).1 = Some 3
  /\ exitCode (run X project ∅ true (Sample.rerunAnswers true true)
                 (initialWorld (Sample.stored "3.5.0") 0)).1 = Some 4.
Proof. repeat split; vm_compute; reflexivity. Qed.

(** C4.  A re-run with [YOTEAMS_TELEMETRY_OPTOUT=1] and the telemetry
    option at its default, on a project with no stored generator version,
    answering "yes" to the build-system update: the write phase writes
    nothing, but it does not reach [process.exit(3)]; the telemetry call
    in front of it throws. *)
Theorem C4_opt_out_run_throws_before_exit_3 :
  let disk := Sample.projectFolder Sample.manifest (Some "1") in
  let r := run Sample.collaborators disk ∅ true (Sample.rerunAnswers true true)
             (initialWorld ∅ 0) in
  getO (options r.2) "updateBuildSystem" = JBool true
  /\ getO (config r.2) "generator-version" = JUndefined
  /\ r.1 = Threw (TypeError "Cannot read properties of undefined (reading 'trackEvent')")
  /\ exitCode r.1 <> Some 3
  /\ fsOps r.2 = [] /\ config r.2 = ∅
  /\ logged r.2
     = ["Welcome to the Microsoft Teams App generator (4.1.0)"; "Nothing to update"].
Proof.
  intros disk r.
  assert (Hr : r.1 = Threw (TypeError "Cannot read properties of undefined (reading 'trackEvent')"))
    by (vm_compute; reflexivity).
  repeat split; try (vm_compute; reflexivity).
  rewrite Hr. discriminate.
Qed.

(** C1.  Runs with [YOTEAMS_TELEMETRY_OPTOUT=1] and the telemetry option
    at its default: on an unsupported schema, with no updater for the
    stored version, with a failing updater, and on a plain new project,
    the run throws at its first telemetry call instead of ending with
    status 1, 2, 4 and 0; a declined re-run still ends with status 0. *)
Theorem C1_opt_out_runs_miss_their_exit_codes :
  let X := Sample.collaborators in
  let project := Sample.projectFolder Sample.manifest (Some "1") in
  let thrown := Threw (TypeError "Cannot read properties of undefined (reading 'trackEvent')") in
  (run X (Sample.projectFolder Sample.oldManifest (Some "1")) ∅ true
     (Sample.rerunAnswers true false) (initialWorld ∅ 0)).1 = thrown
  /\ (run X project ∅ true (Sample.rerunAnswers true true)
        (initialWorld (Sample.stored "3.0.1") 0)).1 = thrown
  /\ (run X project ∅ true (Sample.rerunAnswers true true)
        (initialWorld (Sample.stored "3.5.0") 0)).1 = thrown
  /\ (run X (Sample.emptyFolder (Some "1")) ∅ true
        (Sample.newAnswers "https://myapp.azurewebsites.net") (initialWorld ∅ 0)).1 = thrown
  /\ exitCode (A := unit) thrown = None
  /\ (run X project ∅ true (Sample.rerunAnswers false false)
        (initialWorld (Sample.stored "4.0.0") 0)).1 = Exited 0.
Proof. repeat split; vm_compute; reflexivity. Qed.

(* ===================================================================== *)
(** ** The trigger command *)
(* ===================================================================== *)

Section ScaffolderFacts.

Variable join : string -> string -> string.
Variable existsSync : string -> bool.
Variable executeCommand : string -> string -> Z + string.
Variable platform : string.
Variable parseWinPath : string -> string.
Variable showOutputChannel : string.

(** The validator accepts exactly the non-empty names whose folder does
    not exist. *)
Lemma validateInput_accepts folderPath value :
  Scaffolder.validateInput join existsSync folderPath value = None <->
  value <> "" /\ existsSync (join folderPath value) = false.
Proof.
  unfold Scaffolder.validateInput.
  destruct (String.eqb_spec value "") as [->|Hne].
  - split; [discriminate | intros [H _]; congruence].
  - destruct (existsSync (join folderPath value)); split; try discriminate.
    + intros [_ H]. discriminate H.
    + intros _. by split.
    + reflexivity.
Qed.

(** The input box only hands back an entry its validator accepted. *)
Lemma showInputBox_accepted validate entries value :
  Scaffolder.showInputBox validate entries = Some value ->
  validate value = None /\ In value entries.
Proof.
  induction entries as [|entry later IH]; simpl; [discriminate|].
  destruct (validate entry) eqn:Hentry.
  - intros H. destruct (IH H) as [Hv Hin]. split; [exact Hv | right; exact Hin].
  - intros [= <-]. split; [exact Hentry | left; reflexivity].
Qed.

Lemma createProjectFileAndOpen_no_command folderPath content cwd command :
  ~ In (Scaffolder.ExecuteCommand cwd command)
       (Scaffolder.createProjectFileAndOpen join platform parseWinPath folderPath content).
Proof.
  unfold Scaffolder.createProjectFileAndOpen.
  destruct (String.eqb platform "windows"); simpl; intros [H|[H|[]]]; discriminate H.
Qed.

(** The subprocess is started only for the name [invokedWith] reports. *)
Lemma createProject_command wsFolder pick entries cwd command :
  In (Scaffolder.ExecuteCommand cwd command)
     (Scaffolder.createProject join existsSync executeCommand platform parseWinPath
        showOutputChannel wsFolder pick entries) ->
  exists solutionName,
    Scaffolder.invokedWith join existsSync wsFolder pick entries = Some (cwd, solutionName).
Proof.
  unfold Scaffolder.createProject, Scaffolder.invokedWith.
  intros [H|H]; [discriminate H|].
  destruct (Scaffolder.getFolderPath wsFolder pick) as [folderPath|];
    [|destruct H as [H|[]]; discriminate H].
  destruct (Scaffolder.falsy (Some folderPath));
    [destruct H as [H|[]]; discriminate H|].
  destruct (Scaffolder.getSolutionName join existsSync folderPath entries) as [solutionName|];
    [|destruct H as [H|[]]; discriminate H].
  destruct (Scaffolder.falsy (Some solutionName));
    [destruct H as [H|[]]; discriminate H|].
  exists solutionName.
  destruct H as [H|[H|[H|H]]]; try discriminate H.
  - injection H as <- _. reflexivity.
  - exfalso.
    destruct (executeCommand folderPath Scaffolder.yoCommand) as [result|message].
    + destruct (negb (result =? 0)).
      * destruct H as [H|[]]; discriminate H.
      * destruct H as [H|H]; [discriminate H|].
        exact (createProjectFileAndOpen_no_command _ _ _ _ H).
    + destruct H as [H|[H|[]]]; discriminate H.
Qed.

(** C9.  The validator of the solution-name input rejects every name
    whose folder exists under the chosen parent folder, and the scaffold
    subprocess is started only after the input box handed back a name
    that is not empty and whose folder does not exist. *)
Theorem C9_subprocess_only_after_fresh_name wsFolder pick entries :
  (forall folderPath value,
     existsSync (join folderPath value) = true ->
     is_Some (Scaffolder.validateInput join existsSync folderPath value))
  /\ (forall cwd command,
        In (Scaffolder.ExecuteCommand cwd command)
           (Scaffolder.createProject join existsSync executeCommand platform parseWinPath
              showOutputChannel wsFolder pick entries) ->
        exists solutionName,
          Scaffolder.getFolderPath wsFolder pick = Some cwd
          /\ Scaffolder.getSolutionName join existsSync cwd entries = Some solutionName
          /\ In solutionName entries
          /\ solutionName <> ""
          /\ existsSync (join cwd solutionName) = false).
Proof.
  split.
  - intros folderPath value Hexists.
    destruct (Scaffolder.validateInput join existsSync folderPath value) eqn:Hv; [by eexists|].
    apply validateInput_accepts in Hv as [_ Hfree]. congruence.
  - intros cwd command Hin.
    destruct (createProject_command _ _ _ _ _ Hin) as [solutionName Hinv].
    exists solutionName. unfold Scaffolder.invokedWith in Hinv.
    destruct (Scaffolder.getFolderPath wsFolder pick) as [folderPath|]; [|discriminate].
    destruct (Scaffolder.falsy (Some folderPath)); [discriminate|].
    destruct (Scaffolder.getSolutionName join existsSync folderPath entries)
      as [accepted|] eqn:Hname; [|discriminate].
    destruct (Scaffolder.falsy (Some accepted)); [discriminate|].
    injection Hinv as -> ->.
    unfold Scaffolder.getSolutionName in Hname.
    apply showInputBox_accepted in Hname as Hacc. destruct Hacc as [Hvalid Hentry].
    apply validateInput_accepts in Hvalid as [Hne Hfree].
    repeat split; assumption.
Qed.

End ScaffolderFacts.

(** A workspace folder [/work] that already holds [taken]: the operator
    first submits [taken], then [fresh]. *)
Example createProject_after_collision :
  let join := fun a b => a +:+ "/" +:+ b in
  let existsSync := fun p => String.eqb p "/work/taken" in
  Scaffolder.createProject join existsSync (fun _ _ => inl 0) "linux" (fun p => p)
    "yoteams.showOutputChannel" (Some ("work", "/work")) Scaffolder.WorkspaceFolder
    ["taken"; "fresh"]
  = [ Scaffolder.LoggerInfo "Start creating a new project";
      Scaffolder.LoggerInfo "Creating a new project in /work";
      Scaffolder.LoggerInfo "Command to execute: yo teams --skip-install";
      Scaffolder.ExecuteCommand "/work" "yo teams --skip-install";
      Scaffolder.LoggerInfo "Command result: 0";
      Scaffolder.WriteFileSync "/work/fresh/project.pnp" "init";
      Scaffolder.OpenFolder "/work/fresh" ]
  /\ Scaffolder.createProject join existsSync (fun _ _ => inl 0) "linux" (fun p => p)
       "yoteams.showOutputChannel" (Some ("work", "/work")) Scaffolder.WorkspaceFolder
       ["taken"; ""]
     = [ Scaffolder.LoggerInfo "Start creating a new project";
         Scaffolder.LoggerWarning "Cancelled solution name input" ].
Proof. split; vm_compute; reflexivity. Qed.

Lemma C9_witness :
  let join := fun a b => a +:+ "/" +:+ b in
  let existsSync := fun p => String.eqb p "/work/taken" in
  let trace :=
    Scaffolder.createProject join existsSync (fun _ _ => inl 0) "linux" (fun p => p)
      "yoteams.showOutputChannel" (Some ("work", "/work")) Scaffolder.WorkspaceFolder
      ["taken"; "fresh"] in
  In (Scaffolder.ExecuteCommand "/work" Scaffolder.yoCommand) trace
  /\ is_Some (Scaffolder.validateInput join existsSync "/work" "taken")
  /\ exists solutionName,
       Scaffolder.getFolderPath (Some ("work", "/work")) Scaffolder.WorkspaceFolder
       = Some "/work"
       /\ Scaffolder.getSolutionName join existsSync "/work" ["taken"; "fresh"]
          = Some solutionName
       /\ In solutionName ["taken"; "fresh"]
       /\ solutionName <> ""
       /\ existsSync (join "/work" solutionName) = false.
Proof.
  intros join existsSync trace.
  assert (Hin : In (Scaffolder.ExecuteCommand "/work" Scaffolder.yoCommand) trace)
    by (right; right; right; left; reflexivity).
  pose proof (C9_subprocess_only_after_fresh_name join existsSync (fun _ _ => inl 0)
                "linux" (fun p => p) "yoteams.showOutputChannel"
                (Some ("work", "/work")) Scaffolder.WorkspaceFolder ["taken"; "fresh"])
    as [Hreject Hinvoke].
  split; [exact Hin|]. split.
  - exact (Hreject "/work" "taken" eq_refl).
  - exact (Hinvoke "/work" Scaffolder.yoCommand Hin).
Defined.

(* ===================================================================== *)
(** ** Host strings: lower-casing, splitting and joining *)
(* ===================================================================== *)

Lemma app_cons c s t : String c s +:+ t = String c (s +:+ t).
Proof. reflexivity. Qed.

Lemma lowerAscii_idem c : Js.lowerAscii (Js.lowerAscii c) = Js.lowerAscii c.
Proof. destruct c as [[] [] [] [] [] [] [] []]; reflexivity. Qed.

Lemma lowerAscii_dot c : Ascii.eqb (Js.lowerAscii c) "." = Ascii.eqb c ".".
Proof. destruct c as [[] [] [] [] [] [] [] []]; reflexivity. Qed.

Lemma toLocaleLowerCase_idem s :
  Js.toLocaleLowerCase (Js.toLocaleLowerCase s) = Js.toLocaleLowerCase s.
Proof. induction s as [|c s IH]; simpl; [reflexivity|]. by rewrite lowerAscii_idem, IH. Qed.

Lemma split_not_nil sep s : Js.split sep s <> [].
Proof.
  destruct s as [|c s]; simpl; [discriminate|].
  destruct (Ascii.eqb c sep); [discriminate|].
  destruct (Js.split sep s); discriminate.
Qed.

Lemma join_cons sep x y l : Js.join sep (x :: y :: l) = x +:+ sep +:+ Js.join sep (y :: l).
Proof. reflexivity. Qed.

Lemma join_split s : Js.join "." (Js.split "." s) = s.
Proof.
  induction s as [|c s IH]; [reflexivity|].
  simpl. destruct (Ascii.eqb_spec c ".") as [->|Hc].
  - pose proof (split_not_nil "." s) as Hne.
    destruct (Js.split "." s) as [|w ws]; [done|].
    rewrite join_cons, IH. reflexivity.
  - pose proof (split_not_nil "." s) as Hne.
    destruct (Js.split "." s) as [|w ws]; [done|].
    destruct ws as [|w' ws].
    + simpl in *. by rewrite IH.
    + rewrite join_cons. rewrite join_cons in IH. rewrite app_cons. by rewrite IH.
Qed.

Lemma lower_append a b :
  Js.toLocaleLowerCase (a +:+ b) = Js.toLocaleLowerCase a +:+ Js.toLocaleLowerCase b.
Proof. induction a as [|c a IH]; [reflexivity|]. rewrite app_cons. simpl. by rewrite IH. Qed.

Lemma lower_join l :
  Js.toLocaleLowerCase (Js.join "." l) = Js.join "." (map Js.toLocaleLowerCase l).
Proof.
  induction l as [|x [|y l] IH]; [reflexivity|reflexivity|].
  rewrite join_cons. cbn [map]. rewrite join_cons. cbn [map] in IH.
  rewrite !lower_append, IH. reflexivity.
Qed.

Lemma split_lower s :
  Js.split "." (Js.toLocaleLowerCase s) = map Js.toLocaleLowerCase (Js.split "." s).
Proof.
  induction s as [|c s IH]; [reflexivity|].
  simpl. rewrite lowerAscii_dot, IH.
  destruct (Ascii.eqb c "."); [reflexivity|].
  destruct (Js.split "." s); reflexivity.
Qed.

Lemma hasChar_lower_dot s : hasChar "." (Js.toLocaleLowerCase s) = hasChar "." s.
Proof. induction s as [|c s IH]; [reflexivity|]. simpl. by rewrite lowerAscii_dot, IH. Qed.

Lemma split_labels_dot_free s :
  Forall (fun w => hasChar "." w = false) (Js.split "." s).
Proof.
  induction s as [|c s IH]; simpl; [by repeat constructor|].
  destruct (Ascii.eqb c ".") eqn:Hc; [by constructor|].
  destruct (Js.split "." s) as [|w ws].
  { constructor; [simpl; by rewrite Hc | constructor]. }
  inversion IH as [|? ? Hw Hws]; subst. constructor; [|done].
  simpl. by rewrite Hc, Hw.
Qed.

Lemma split_append_dot x rest :
  hasChar "." x = false ->
  Js.split "." (x +:+ String "." rest) = x :: Js.split "." rest.
Proof.
  induction x as [|c x IH]; intros Hx; [reflexivity|].
  simpl in Hx. apply orb_false_iff in Hx as [Hc Hx].
  rewrite app_cons. simpl. rewrite Hc, (IH Hx). reflexivity.
Qed.

Lemma split_dot_free x : hasChar "." x = false -> Js.split "." x = [x].
Proof.
  induction x as [|c x IH]; intros Hx; [reflexivity|].
  simpl in Hx. apply orb_false_iff in Hx as [Hc Hx].
  simpl. rewrite Hc, (IH Hx). reflexivity.
Qed.

Lemma split_join l :
  l <> [] -> Forall (fun w => hasChar "." w = false) l ->
  Js.split "." (Js.join "." l) = l.
Proof.
  induction l as [|x [|y l] IH]; intros Hne Hl; [done| |].
  - inversion Hl; subst. by apply split_dot_free.
  - inversion Hl as [|? ? Hx Hrest]; subst.
    rewrite join_cons. change ("." +:+ Js.join "." (y :: l)) with (String "." (Js.join "." (y :: l))).
    rewrite split_append_dot by done. by rewrite IH.
Qed.

Lemma reverseDomain_twice s :
  reverseDomain (reverseDomain s) = Js.toLocaleLowerCase s.
Proof.
  unfold reverseDomain.
  rewrite (lower_join (rev (Js.split "." s))).
  rewrite split_join.
  - rewrite <- map_rev, rev_involutive, <- lower_join, join_split.
    apply toLocaleLowerCase_idem.
  - intros Hnil. apply (f_equal (@List.length _)) in Hnil.
    rewrite length_map, length_rev in Hnil.
    pose proof (split_not_nil "." s). destruct (Js.split "." s); [done|discriminate].
  - apply Forall_map, Forall_rev.
    eapply Forall_impl; [apply split_labels_dot_free|].
    intros w Hw. simpl. by rewrite hasChar_lower_dot.
Qed.

Lemma length_append a b : String.length (a +:+ b) = (String.length a + String.length b)%nat.
Proof. induction a as [|c a IH]; [reflexivity|]. rewrite app_cons. simpl. by rewrite IH. Qed.

Lemma substring_prefix a b : String.substring 0 (String.length a) (a +:+ b) = a.
Proof.
  induction a as [|c a IH]; [by destruct b|]. rewrite app_cons. simpl. by rewrite IH.
Qed.

Lemma substring_skip a b k n :
  String.substring (String.length a + k) n (a +:+ b) = String.substring k n b.
Proof. induction a as [|c a IH]; [reflexivity|]. rewrite app_cons. simpl. exact IH. Qed.

Lemma substring_take_cons n c s :
  String.substring 0 (S n) (String c s) = String c (String.substring 0 n s).
Proof. reflexivity. Qed.

Lemma substring_drop_cons k n c s :
  String.substring (S k) n (String c s) = String.substring k n s.
Proof. reflexivity. Qed.

Lemma split_last_char c t :
  String.substring 0 (String.length t) (String c t)
  +:+ String.substring (String.length t) 1 (String c t) = String c t.
Proof.
  revert c. induction t as [|d t IH]; intros c; [reflexivity|].
  cbn [String.length]. rewrite substring_take_cons, substring_drop_cons, app_cons.
  by rewrite IH.
Qed.

Lemma split_last h :
  h <> "" ->
  String.substring 0 (String.length h - 1) h
  +:+ String.substring (String.length h - 1) 1 h = h.
Proof.
  destruct h as [|c t]; intros Hne; [done|].
  cbn [String.length]. rewrite Nat.sub_succ, Nat.sub_0_r. apply split_last_char.
Qed.

Lemma substr_all_but_last h :
  Js.substr h 0 (Js.len h - 1) = String.substring 0 (String.length h - 1) h.
Proof.
  unfold Js.substr, Js.len. cbn [Z.ltb Z.compare].
  replace (Z.to_nat (Z.min 0 (Z.of_nat (String.length h)))) with 0%nat by lia.
  f_equal. lia.
Qed.

(** X1.  The host answer of a new project loses exactly one trailing
    slash: when it ends with [/], the stripped host followed by [/] is the
    answer again and is one character shorter; an answer that does not end
    with [/] is kept as it is. *)
Lemma stripTrailingSlash_spec h :
  (Js.endsWith h "/" = true ->
   stripTrailingSlash h +:+ "/" = h
   /\ String.length (stripTrailingSlash h) = (String.length h - 1)%nat)
  /\ (Js.endsWith h "/" = false -> stripTrailingSlash h = h).
Proof.
  unfold stripTrailingSlash. split; intros Hends; rewrite Hends; [|reflexivity].
  unfold Js.endsWith in Hends. apply andb_true_iff in Hends as [Hlen Hlast].
  apply Nat.leb_le in Hlen. apply String.eqb_eq in Hlast.
  assert (Hne : h <> "") by (intros ->; simpl in Hlen; lia).
  rewrite substr_all_but_last. split.
  - cbn [String.length] in Hlast. rewrite <- Hlast. by apply split_last.
  - pose proof (split_last h Hne) as Hsplit.
    apply (f_equal String.length) in Hsplit. rewrite length_append in Hsplit.
    cbn [String.length] in Hlast. rewrite Hlast in Hsplit. simpl in Hsplit. lia.
Qed.

Lemma prefix_nil s : String.prefix "" s = true.
Proof. by destruct s. Qed.

Lemma index_dot name rest :
  hasChar "." name = false ->
  String.index 0 "." (name +:+ String "." rest) = Some (String.length name).
Proof.
  induction name as [|c name IH]; intros Hname.
  - change ("" +:+ String "." rest) with (String "." rest).
    cbn. by rewrite prefix_nil.
  - simpl in Hname. apply orb_false_iff in Hname as [Hc Hname].
    rewrite app_cons. cbn [String.index String.prefix].
    destruct (ascii_dec "." c) as [<-|_]; [discriminate Hc|].
    by rewrite (IH Hname).
Qed.

Lemma index_finds pattern s m :
  pattern <> "" ->
  String.substring m (String.length pattern) s = pattern ->
  exists k, String.index 0 pattern s = Some k.
Proof.
  intros Hne Hocc. destruct (String.index 0 pattern s) as [k|] eqn:Hidx; [by eexists|].
  exfalso. apply (String.index_correct3 0 m pattern s Hidx Hne); [lia | exact Hocc].
Qed.

Lemma https_cons rest :
  "https://" +:+ rest
  = String "h" (String "t" (String "t" (String "p" (String "s"
      (String ":" (String "/" (String "/" rest))))))).
Proof. reflexivity. Qed.

Lemma websitePrefix_of_azure_host name :
  hasChar "." name = false ->
  websitePrefixOf ("https://" +:+ name +:+ ".azurewebsites.net") = name.
Proof.
  intros Hname. unfold websitePrefixOf.
  set (host := "https://" +:+ name +:+ ".azurewebsites.net").
  assert (Hazure : (0 <=? Js.indexOf host "azurewebsites.net") = true).
  { destruct (index_finds "azurewebsites.net" host (8 + (String.length name + 1))%nat)
      as [k Hk]; [discriminate| |].
    - unfold host.
      rewrite (substring_skip "https://" _ (String.length name + 1)).
      rewrite (substring_skip name _ 1). reflexivity.
    - unfold Js.indexOf. rewrite Hk. apply Z.leb_le. lia. }
  rewrite Hazure.
  assert (Hscheme : Js.indexOf host "://" = 5).
  { unfold Js.indexOf, host. rewrite https_cons. cbn. by rewrite prefix_nil. }
  assert (Hdot : Js.indexOf host "." = Z.of_nat (8 + String.length name)).
  { unfold Js.indexOf, host. rewrite https_cons. cbn.
    change (".azurewebsites.net") with (String "." "azurewebsites.net").
    by rewrite (index_dot name _ Hname). }
  rewrite Hscheme, Hdot. unfold Js.substring2, Js.clampIndex, Js.len.
  assert (Hlen : String.length host = (8 + (String.length name + 18))%nat).
  { unfold host. by rewrite !length_append. }
  rewrite Hlen.
  replace (Z.to_nat (Z.max 0 (Z.min (5 + 3) (Z.of_nat (8 + (String.length name + 18))))))
    with 8%nat by lia.
  replace (Z.to_nat (Z.max 0 (Z.min (Z.of_nat (8 + String.length name))
                                (Z.of_nat (8 + (String.length name + 18))))))
    with (8 + String.length name)%nat by lia.
  replace (Nat.min 8 (8 + String.length name)) with 8%nat by lia.
  replace (Nat.max 8 (8 + String.length name) - 8)%nat with (String.length name) by lia.
  unfold host. change 8%nat with (String.length "https://" + 0)%nat.
  rewrite substring_skip. apply substring_prefix.
Qed.

(* ===================================================================== *)
(** ** Frames: what a phase leaves alone *)
(* ===================================================================== *)

Section KeepsRules.
Context {A B T : Type} (view : World -> T).

Lemma keeps_ret (a : A) : keeps view (ret a).
Proof. intros w. reflexivity. Qed.

Lemma keeps_exit c : keeps view (@process_exit A c).
Proof. intros w. reflexivity. Qed.

Lemma keeps_throw e : keeps view (@throw A e).
Proof. intros w. reflexivity. Qed.

Lemma keeps_bind (m : Run B) (k : B -> Run A) :
  keeps view m -> (forall b, keeps view (k b)) -> keeps view (m ≫= k).
Proof.
  intros Hm Hk w. specialize (Hm w).
  unfold mbind, Run_bind, bind. destruct (m w) as [[b|c|e] w']; simpl in *.
  - by rewrite Hk.
  - exact Hm.
  - exact Hm.
Qed.

End KeepsRules.

Section KeepsSteps.
Context {T : Type} (view : World -> T).

Lemma keeps_get : keeps view get.
Proof. intros w. reflexivity. Qed.

Lemma keeps_option_ k : keeps view (option_ k).
Proof. intros w. reflexivity. Qed.

Lemma keeps_config_get k : keeps view (config_get k).
Proof. intros w. reflexivity. Qed.

Lemma keeps_modify f : (forall w, view (f w) = view w) -> keeps view (modify f).
Proof. intros Hf w. apply Hf. Qed.

Lemma keeps_when_ b (m : Run unit) : keeps view m -> keeps view (when_ b m).
Proof. destruct b; [done | intros _; apply keeps_ret]. Qed.

Lemma keeps_forEach {A} (l : list A) (f : A -> Run unit) :
  (forall x, keeps view (f x)) -> keeps view (forEach l f).
Proof.
  intros Hf. induction l as [|x l IH]; simpl.
  - apply keeps_ret.
  - apply keeps_bind; [apply Hf | intros _; exact IH].
Qed.

Lemma keeps_onDefaultClient member f :
  (forall g w, view (withAppInsights g w) = view w) ->
  keeps view (onDefaultClient member f).
Proof.
  intros Hview w. unfold onDefaultClient, mbind, Run_bind, bind, get.
  destruct (defaultClient (appInsights w)); [apply Hview | reflexivity].
Qed.

End KeepsSteps.

Ltac keeps_step :=
  lazymatch goal with
  | |- keeps _ (mbind _ _) => apply keeps_bind; [|intros ?]
  | |- keeps _ (ret _) => apply keeps_ret
  | |- keeps _ (mret _) => apply keeps_ret
  | |- keeps _ (process_exit _) => apply keeps_exit
  | |- keeps _ (throw _) => apply keeps_throw
  | |- keeps _ get => apply keeps_get
  | |- keeps _ (option_ _) => apply keeps_option_
  | |- keeps _ (config_get _) => apply keeps_config_get
  | |- keeps _ (setOption _ _) => apply keeps_modify; intros ?
  | |- keeps _ (config_set _ _) => apply keeps_modify; intros ?
  | |- keeps _ (log _) => apply keeps_modify; intros ?
  | |- keeps _ (fsDo _) => apply keeps_modify; intros ?
  | |- keeps _ (modify _) => apply keeps_modify; intros ?
  | |- keeps _ (trackEvent _ _) => apply keeps_onDefaultClient; intros ? ?
  | |- keeps _ (trackException _ _) => apply keeps_onDefaultClient; intros ? ?
  | |- keeps _ flush => apply keeps_onDefaultClient; intros ? ?
  | |- keeps _ (forEach _ _) => apply keeps_forEach; intros ?
  | |- keeps _ (when_ _ _) => apply keeps_when_
  | |- keeps _ (if ?b then _ else _) => destruct b
  | |- keeps _ (match ?x with _ => _ end) => destruct x
  | |- keeps _ (let (_, _) := ?x in _) => destruct x
  end.

Ltac keeps_run := repeat keeps_step; try reflexivity.

Lemma initializing_keeps X :
  keeps (fun w => (options w, config w, fsOps w, destinationRoot w, uuidCalls w))
        (initializing X).
Proof. unfold initializing, readSchema. keeps_run. Qed.

Lemma prompting_keeps X disk answers :
  keeps (fun w => (fsOps w, appInsights w)) (prompting X disk answers).
Proof.
  unfold prompting, newProject, existingProject, probeLibraryName, projectParts.
  keeps_run.
Qed.

Lemma getO_setO_other k k' v o : k <> k' -> getO (setO k v o) k' = getO o k'.
Proof.
  intros Hne. rewrite getO_setO. by destruct (String.eqb_spec k k').
Qed.


Lemma existing_prompting_keeps_config X disk m answers :
  keeps config (existingProject X disk m answers).
Proof. unfold existingProject, probeLibraryName. keeps_run. Qed.

Lemma install_keeps :
  keeps (fun w => (options w, config w, fsOps w, logged w, destinationRoot w, uuidCalls w))
        install.
Proof. unfold install, joinContext. keeps_run. Qed.



(* ===================================================================== *)
(** ** The question series *)
(* ===================================================================== *)

Lemma truthy_jsOr a b : truthy (jsOr a b) = truthy a || truthy b.
Proof. unfold jsOr. destruct (truthy a) eqn:Ha; [exact Ha | reflexivity]. Qed.

(** X2.  When a manifest was found, the confirmation question is asked and
    the questions for the solution name, the folder, the title, the
    developer, quick scaffolding, the partner id, full screen, unit tests,
    linting and Application Insights are not.  The instrumentation-key
    question is then not asked either when its switch has no answer, and
    the core-files question is asked only after the re-run was confirmed. *)
Theorem existing_project_skips_new_project_questions X o cfg answers :
  truthy (getO o "existingManifest") = true ->
  when_confirmedAdd o = true
  /\ when_solutionName o = false
  /\ PromptSeries.when_whichFolder o = false
  /\ PromptSeries.when_name o = false
  /\ PromptSeries.when_developer o = false
  /\ when_quickScaffolding o = false
  /\ when_mpnId o answers = false
  /\ PromptSeries.when_isFullScreen o answers = false
  /\ PromptSeries.when_unitTestsEnabled o answers = false
  /\ when_lintingSupport o answers = false
  /\ PromptSeries.when_useAzureAppInsights o answers = false
  /\ (IAnswers.useAzureAppInsights answers = None ->
      PromptSeries.when_azureAppInsightsKey answers = false)
  /\ (when_updateBuildSystem X o cfg answers = true ->
      IAnswers.confirmedAdd answers = Some true).
Proof.
  intros Hem.
  unfold when_confirmedAdd, when_solutionName, PromptSeries.when_whichFolder,
    PromptSeries.when_name, PromptSeries.when_developer, when_quickScaffolding,
    when_mpnId, PromptSeries.when_isFullScreen, PromptSeries.when_unitTestsEnabled,
    when_lintingSupport, PromptSeries.when_useAzureAppInsights,
    PromptSeries.when_azureAppInsightsKey, when_updateBuildSystem.
  rewrite !truthy_jsOr, Hem, !orb_true_r. cbn [negb andb].
  rewrite !andb_false_r.
  repeat split; try reflexivity.
  - intros ->. reflexivity.
  - destruct (IAnswers.confirmedAdd answers) as [[|]|]; rewrite ?andb_false_r; done.
Qed.

(** X3.  When no manifest was found, the confirmation, core-files and
    change-manifest-version questions are not asked; the host and
    loading-indicator questions are; the manifest-version question is asked
    exactly when no version came with the options; and a "yes" to quick
    scaffolding switches off the partner-id, full-screen, unit-test, linting
    and Application Insights questions. *)
Theorem new_project_skips_update_questions X o cfg answers :
  truthy (getO o "existingManifest") = false ->
  when_confirmedAdd o = false
  /\ when_updateBuildSystem X o cfg answers = false
  /\ PromptSeries.when_updateManifestVersion X o answers = false
  /\ when_host o = true
  /\ PromptSeries.when_showLoadingIndicator o = true
  /\ PromptSeries.when_manifestVersion X o answers
     = negb (truthy (getO o "manifestVersion"))
  /\ (IAnswers.quickScaffolding answers = Some true ->
      when_mpnId o answers = false
      /\ PromptSeries.when_isFullScreen o answers = false
      /\ PromptSeries.when_unitTestsEnabled o answers = false
      /\ when_lintingSupport o answers = false
      /\ PromptSeries.when_useAzureAppInsights o answers = false).
Proof.
  intros Hem.
  unfold when_confirmedAdd, when_updateBuildSystem, PromptSeries.when_updateManifestVersion,
    when_host, PromptSeries.when_showLoadingIndicator, PromptSeries.when_manifestVersion,
    when_mpnId, PromptSeries.when_isFullScreen, PromptSeries.when_unitTestsEnabled,
    when_lintingSupport, PromptSeries.when_useAzureAppInsights.
  rewrite !truthy_jsOr, Hem, orb_false_r. cbn [negb andb orb].
  repeat split; try reflexivity.
  all: rewrite H; reflexivity.
Qed.

(** X4.  After a "no" to the confirmation question, neither the
    core-files nor the change-manifest-version question is asked, the
    manifest-version question is not asked on an existing project, the
    features question is still asked unless the [tab] option is set, and
    the answers callback exits with code 0 in an unchanged world. *)
Theorem declined_rerun_asks_no_update_and_exits X disk o cfg answers w :
  IAnswers.confirmedAdd answers = Some false ->
  when_updateBuildSystem X o cfg answers = false
  /\ PromptSeries.when_updateManifestVersion X o answers = false
  /\ (IAnswers.updateManifestVersion answers = None ->
      truthy (getO o "existingManifest") = true ->
      PromptSeries.when_manifestVersion X o answers = false)
  /\ PromptSeries.when_parts o answers = negb (truthy (getO o "tab"))
  /\ prompting X disk answers w = (Exited 0, w).
Proof.
  intros Hno.
  unfold when_updateBuildSystem, PromptSeries.when_updateManifestVersion,
    PromptSeries.when_manifestVersion, PromptSeries.when_parts, PromptSeries.notDeclined.
  rewrite Hno, !andb_false_r.
  repeat split; try reflexivity.
  - intros -> Hem. rewrite truthy_jsOr, Hem, orb_true_r. reflexivity.
  - by apply prompting_declined.
Qed.

(** Version choices *)
Lemma versions_offered X o version :
  In version (versions X o) ->
  In version (supportedManifestVersions X)
  /\ (truthy (getO o "existingManifest") = false -> mv_hide version = false)
  /\ (forall m, getO o "existingManifest" = JManifest m ->
        supportsUpdateManifest X (mv_manifestVersion version) (manifestVersion m) = true).
Proof.
  unfold versions. rewrite <- list_elem_of_In, list_elem_of_filter, list_elem_of_In.
  intros [Hkeep Hin]. split; [exact Hin|]. split.
  - intros Hnew. apply negb_true_iff.
    destruct (getO o "existingManifest"); try discriminate Hnew;
      cbn beta iota in Hkeep; rewrite Hnew in Hkeep; exact Hkeep.
  - intros m Hem. rewrite Hem in Hkeep. exact Hkeep.
Qed.

(** X5.  Every manifest version offered for choice is one of the supported
    versions, carried as the choice's value; on a new project it is not a
    hidden one, and on an existing project it is one the manifest's version
    can be updated to. *)
Theorem manifest_version_choices X o choice :
  In choice (PromptSeries.versionChoices X o) ->
  exists version,
    In version (supportedManifestVersions X)
    /\ PromptSeries.choice_value choice = mv_manifestVersion version
    /\ (truthy (getO o "existingManifest") = false -> mv_hide version = false)
    /\ (forall m, getO o "existingManifest" = JManifest m ->
          supportsUpdateManifest X (PromptSeries.choice_value choice) (manifestVersion m)
          = true).
Proof.
  unfold PromptSeries.versionChoices. rewrite in_map_iff.
  intros (version & <- & Hin). exists version.
  destruct (versions_offered X o version Hin) as (Hsup & Hnew & Hupd).
  repeat split; assumption.
Qed.

(** X6.  The default of the manifest-version question is the empty string
    when nothing is offered; otherwise it is the value of an offered
    choice, and of one marked as default whenever some offered choice is
    marked. *)
Theorem default_manifest_version_is_offered X o :
  (PromptSeries.versionChoices X o = []
   /\ PromptSeries.default_manifestVersion X o = "")
  \/ (exists choice,
        In choice (PromptSeries.versionChoices X o)
        /\ PromptSeries.default_manifestVersion X o = PromptSeries.choice_value choice
        /\ ((exists marked, In marked (PromptSeries.versionChoices X o)
                            /\ PromptSeries.choice_default marked = true) ->
            PromptSeries.choice_default choice = true)).
Proof.
  unfold PromptSeries.default_manifestVersion.
  destruct (find PromptSeries.choice_default (PromptSeries.versionChoices X o))
    as [found|] eqn:Hfind.
  - right. exists found. apply find_some in Hfind as [Hin Hdef]. by repeat split.
  - destruct (PromptSeries.versionChoices X o) as [|first rest] eqn:Hchoices.
    + left. by split.
    + right. exists first. split; [by left|]. split; [reflexivity|].
      intros (marked & Hin & Hmarked).
      pose proof (find_none _ _ Hfind marked Hin) as Hnot. congruence.
Qed.


(* ===================================================================== *)
(** ** Option resolution of a new project *)
(* ===================================================================== *)

Lemma includes_In parts part : Js.includes parts part = true <-> In part parts.
Proof.
  unfold Js.includes. rewrite existsb_exists. split.
  - intros (x & Hin & Heq). apply String.eqb_eq in Heq. by subst.
  - intros Hin. exists part. split; [exact Hin | apply String.eqb_refl].
Qed.

Ltac untouched Hk :=
  repeat (etransitivity;
          [ apply getO_setO_other; intros ?; subst; apply Hk; cbn;
            repeat first [left; reflexivity | right]
          | ]);
  try reflexivity.

Lemma prompting_new_project_rest X disk answers w h s :
  truthy (getO (options w) "existingManifest") = false ->
  IAnswers.confirmedAdd answers <> Some false ->
  IAnswers.host answers = Some h ->
  jsOr (getO (options w) "solutionName") (ofStr (IAnswers.solutionName answers)) = JStr s ->
  wp (prompting X disk answers)
     (fun o w' =>
        o = Returned tt /\
        let o' := options w' in
        let subdir := strictEqStr (ofStr (IAnswers.whichFolder answers)) "subdir" in
        getO o' "shouldUseSubDir" = JBool subdir
        /\ destinationRoot w' = (destinationRoot w ++ if subdir then [s] else [])%list
        /\ config w' = setO "libraryName" (JStr (camelCase X s)) (config w)
        /\ logged w' = logged w
        /\ getO o' "reactComponents" = JBool false
        /\ match IAnswers.parts answers with
           | Some parts =>
               Forall (fun '(flag, part) => getO o' flag = JBool (Js.includes parts part))
                      partFlags
           | None =>
               Forall (fun '(flag, _) => getO o' flag = getO (options w) flag) partFlags
           end
        /\ getO o' "title" = ofStr (IAnswers.name answers)
        /\ getO o' "description" = JStr description
        /\ getO o' "developer" = ofStr (IAnswers.developer answers)
        /\ getO o' "manifestVersion" = ofStr (IAnswers.manifestVersion answers)
        /\ getO o' "unitTestsEnabled" = ofBool (IAnswers.unitTestsEnabled answers)
        /\ getO o' "useAzureAppInsights" = ofBool (IAnswers.useAzureAppInsights answers)
        /\ (forall k, ~ In k newProjectOptionNames -> getO o' k = getO (options w) k)) w.
Proof.
  intros Hnew Hconf Hh Hs.
  apply wp_prompting_confirmed; [exact Hconf|].
  wp_run. rewrite Hnew. wp_simpl.
  unfold newProject. rewrite Hh. wp_run.
  rewrite mpnIdIsBlank_ofStr. wp_run. rewrite Hs. cbn [lodashToString].
  wp_case; wp_run.
  all: unfold projectParts; destruct (IAnswers.parts answers); wp_run.
  all: repeat split; try reflexivity; try (by rewrite app_nil_r).
  all: try (repeat constructor; lookup).
  all: intros k Hk; untouched Hk.
Qed.

(** X7.  For a new project the resolved [hostname], [namespace] and
    [packageName] are strings that lower-casing leaves unchanged. *)
Theorem new_project_names_are_lower_case X disk answers w :
  answeredNew (options w) answers ->
  exists hostname namespace packageName,
    (prompting X disk answers w).1 = Returned tt
    /\ getO (options (prompting X disk answers w).2) "hostname" = JStr hostname
    /\ getO (options (prompting X disk answers w).2) "namespace" = JStr namespace
    /\ getO (options (prompting X disk answers w).2) "packageName" = JStr packageName
    /\ Js.toLocaleLowerCase hostname = hostname
    /\ Js.toLocaleLowerCase namespace = namespace
    /\ Js.toLocaleLowerCase packageName = packageName.
Proof.
  intros (Hnew & Hconf & [h Hh] & [s Hs]).
  pose proof (wp_elim _ _ _ (prompting_new_project X disk answers w h s Hnew Hconf Hh Hs)) as H.
  cbn beta in H. destruct H as (Hret & _ & Hname & Hns & _ & _ & _ & Hpkg & _).
  eexists _, _, _. split; [exact Hret|].
  split; [exact Hname|]. split; [exact Hns|]. split; [exact Hpkg|].
  unfold reverseDomain. repeat split; apply toLocaleLowerCase_idem.
Qed.

(** X8.  For a new project the resolved [namespace] is the resolved
    [hostname] with its dot-separated labels in reverse order, and
    reversing the labels of the namespace gives the hostname back. *)
Theorem namespace_reverses_hostname X disk answers w :
  answeredNew (options w) answers ->
  exists hostname namespace,
    (prompting X disk answers w).1 = Returned tt
    /\ getO (options (prompting X disk answers w).2) "hostname" = JStr hostname
    /\ getO (options (prompting X disk answers w).2) "namespace" = JStr namespace
    /\ reverseDomain namespace = hostname
    /\ reverseDomain hostname = namespace.
Proof.
  intros (Hnew & Hconf & [h Hh] & [s Hs]).
  pose proof (wp_elim _ _ _ (prompting_new_project X disk answers w h s Hnew Hconf Hh Hs)) as H.
  cbn beta in H. destruct H as (Hret & _ & Hname & Hns & _).
  eexists _, _. split; [exact Hret|]. split; [exact Hname|]. split; [exact Hns|].
  set (tmp := afterScheme (stripTrailingSlash h)).
  assert (Hrev : reverseDomain (Js.toLocaleLowerCase tmp) = reverseDomain tmp).
  { unfold reverseDomain. rewrite split_lower, <- map_rev, <- lower_join.
    apply toLocaleLowerCase_idem. }
  split; [apply reverseDomain_twice | exact Hrev].
Qed.


Lemma substring_all s : String.substring 0 (String.length s) s = s.
Proof. induction s as [|c s IH]; [reflexivity|]. simpl. by rewrite IH. Qed.

Lemma afterScheme_https rest : afterScheme ("https://" +:+ rest) = rest.
Proof.
  unfold afterScheme.
  assert (Hscheme : Js.indexOf ("https://" +:+ rest) "://" = 5).
  { unfold Js.indexOf. rewrite https_cons. cbn. by rewrite prefix_nil. }
  rewrite Hscheme. unfold Js.substring1, Js.substring2, Js.clampIndex, Js.len.
  rewrite length_append. cbn [String.length].
  replace (Z.to_nat (Z.max 0 (Z.min (5 + 3) (Z.of_nat (8 + String.length rest)))))
    with 8%nat by lia.
  replace (Z.to_nat (Z.max 0 (Z.min (Z.of_nat (8 + String.length rest))
                                (Z.of_nat (8 + String.length rest)))))
    with (8 + String.length rest)%nat by lia.
  replace (Nat.min 8 (8 + String.length rest)) with 8%nat by lia.
  replace (Nat.max 8 (8 + String.length rest) - 8)%nat with (String.length rest) by lia.
  rewrite (substring_skip "https://" rest 0). apply substring_all.
Qed.

Lemma azure_host_has_no_trailing_slash a :
  stripTrailingSlash (a +:+ ".azurewebsites.net") = a +:+ ".azurewebsites.net".
Proof.
  assert (Hends : Js.endsWith (a +:+ ".azurewebsites.net") "/" = false).
  { unfold Js.endsWith. rewrite length_append. cbn [String.length].
    replace (String.length a + 18 - 1)%nat with (String.length a + 17)%nat by lia.
    rewrite substring_skip. cbn. apply andb_false_r. }
  unfold stripTrailingSlash. by rewrite Hends.
Qed.

(** X9.  When the operator accepts the proposed host of a new project
    whose solution name was asked for and whose package name holds no dot,
    the resolved [websitePrefix] is the package name, the host is
    [https://<packageName>.azurewebsites.net] and the hostname is
    [<packageName>.azurewebsites.net]. *)
Theorem default_host_gives_package_name_as_prefix X disk answers w s :
  truthy (getO (options w) "existingManifest") = false ->
  truthy (getO (options w) "solutionName") = false ->
  IAnswers.confirmedAdd answers <> Some false ->
  IAnswers.solutionName answers = Some s ->
  IAnswers.host answers = Some (PromptSeries.default_host X answers) ->
  hasChar "." (Js.toLocaleLowerCase (camelCase X s)) = false ->
  let r := prompting X disk answers w in
  let packageName := Js.toLocaleLowerCase (camelCase X s) in
  r.1 = Returned tt
  /\ getO (options r.2) "packageName" = JStr packageName
  /\ getO (options r.2) "websitePrefix" = JStr packageName
  /\ getO (options r.2) "host" = JStr ("https://" +:+ packageName +:+ ".azurewebsites.net")
  /\ getO (options r.2) "hostname" = JStr (packageName +:+ ".azurewebsites.net").
Proof.
  intros Hnew Hcli Hconf Hname Hhost Hdot r packageName.
  assert (Hs : jsOr (getO (options w) "solutionName") (ofStr (IAnswers.solutionName answers))
               = JStr s).
  { unfold jsOr. by rewrite Hcli, Hname. }
  pose proof (wp_elim _ _ _ (prompting_new_project X disk answers w _ s Hnew Hconf Hhost Hs))
    as H.
  cbn beta in H. fold r in H.
  destruct H as (Hret & Hh & Hhn & _ & Hprefix & _ & _ & Hpkg & _).
  assert (Hdefault : PromptSeries.default_host X answers
                     = "https://" +:+ packageName +:+ ".azurewebsites.net").
  { unfold PromptSeries.default_host. by rewrite Hname. }
  rewrite Hdefault in Hh, Hhn, Hprefix.
  assert (Hstrip : stripTrailingSlash ("https://" +:+ packageName +:+ ".azurewebsites.net")
                   = "https://" +:+ packageName +:+ ".azurewebsites.net").
  { change ("https://" +:+ packageName +:+ ".azurewebsites.net")
      with ("https://" +:+ (packageName +:+ ".azurewebsites.net")).
    rewrite https_cons. rewrite <- !app_cons. apply azure_host_has_no_trailing_slash. }
  rewrite Hstrip in Hh, Hhn, Hprefix.
  rewrite websitePrefix_of_azure_host in Hprefix by exact Hdot.
  rewrite afterScheme_https, lower_append in Hhn.
  unfold packageName in Hhn at 1. rewrite toLocaleLowerCase_idem in Hhn.
  repeat split; assumption.
Qed.

(** X10.  For a new project with a features answer, each of the six
    feature options ([bot], [tab], [connector], [customBot],
    [messageExtension], [localization]) is [true] exactly when its part was
    ticked, and [reactComponents] is reset to [false]. *)
Theorem new_project_feature_flags X disk answers w parts :
  answeredNew (options w) answers ->
  IAnswers.parts answers = Some parts ->
  let r := prompting X disk answers w in
  r.1 = Returned tt
  /\ Forall (fun '(flag, part) =>
               (In part parts -> getO (options r.2) flag = JBool true)
               /\ (~ In part parts -> getO (options r.2) flag = JBool false))
            partFlags
  /\ getO (options r.2) "reactComponents" = JBool false.
Proof.
  intros (Hnew & Hconf & [h Hh] & [s Hs]) Hparts r.
  pose proof (wp_elim _ _ _
    (prompting_new_project_rest X disk answers w h s Hnew Hconf Hh Hs)) as H.
  cbn beta zeta in H. fold r in H. rewrite Hparts in H.
  destruct H as (Hret & _ & _ & _ & _ & Hreact & Hflags & _).
  split; [exact Hret|]. split; [|exact Hreact].
  eapply Forall_impl; [exact Hflags|].
  intros [flag part] Hflag. cbn beta iota in *. rewrite Hflag. split.
  - intros Hin. apply includes_In in Hin. by rewrite Hin.
  - intros Hnot. destruct (Js.includes parts part) eqn:Hinc; [|reflexivity].
    apply includes_In in Hinc. contradiction.
Qed.

(** Without a parts answer the flags stay. *)
Theorem new_project_without_parts_keeps_flags X disk answers w :
  answeredNew (options w) answers ->
  IAnswers.parts answers = None ->
  let r := prompting X disk answers w in
  r.1 = Returned tt
  /\ Forall (fun '(flag, _) => getO (options r.2) flag = getO (options w) flag) partFlags.
Proof.
  intros (Hnew & Hconf & [h Hh] & [s Hs]) Hparts r.
  pose proof (wp_elim _ _ _
    (prompting_new_project_rest X disk answers w h s Hnew Hconf Hh Hs)) as H.
  cbn beta zeta in H. fold r in H. rewrite Hparts in H.
  destruct H as (Hret & _ & _ & _ & _ & _ & Hflags & _).
  by split.
Qed.

(** X11.  For a new project the destination root moves into a folder named
    after the resolved solution name exactly when the folder answer is
    [subdir], and [shouldUseSubDir] records which of the two happened. *)
Theorem new_project_destination_folder X disk answers w :
  answeredNew (options w) answers ->
  let r := prompting X disk answers w in
  exists solutionName,
    r.1 = Returned tt
    /\ getO (options r.2) "solutionName" = JStr solutionName
    /\ (IAnswers.whichFolder answers = Some "subdir" ->
        destinationRoot r.2 = (destinationRoot w ++ [solutionName])%list
        /\ getO (options r.2) "shouldUseSubDir" = JBool true)
    /\ (IAnswers.whichFolder answers <> Some "subdir" ->
        destinationRoot r.2 = destinationRoot w
        /\ getO (options r.2) "shouldUseSubDir" = JBool false).
Proof.
  intros (Hnew & Hconf & [h Hh] & [s Hs]) r.
  pose proof (wp_elim _ _ _
    (prompting_new_project_rest X disk answers w h s Hnew Hconf Hh Hs)) as H.
  pose proof (wp_elim _ _ _
    (prompting_new_project X disk answers w h s Hnew Hconf Hh Hs)) as H'.
  cbn beta zeta in H, H'. fold r in H, H'.
  destruct H as (Hret & Hsub & Hroot & _).
  destruct H' as (_ & _ & _ & _ & _ & Hsol & _).
  exists s. split; [exact Hret|]. split; [exact Hsol|]. split.
  - intros Hwhich. rewrite Hwhich in Hsub, Hroot. by split.
  - intros Hwhich.
    assert (Hfalse : strictEqStr (ofStr (IAnswers.whichFolder answers)) "subdir" = false).
    { destruct (IAnswers.whichFolder answers) as [folder|]; [|reflexivity].
      cbn. apply String.eqb_neq. congruence. }
    rewrite Hfalse in Hsub, Hroot. rewrite app_nil_r in Hroot. by split.
Qed.


(* ===================================================================== *)
(** ** Option resolution of an existing project *)
(* ===================================================================== *)

Lemma prompting_existing_project_rest X disk answers w m :
  getO (options w) "existingManifest" = JManifest m ->
  IAnswers.confirmedAdd answers <> Some false ->
  truthy (webpackLibraryName disk) = true
  \/ truthy (getO (config w) "libraryName") = true
  \/ is_Some (packageJsonName disk) ->
  wp (prompting X disk answers)
     (fun o w' =>
        o = Returned tt /\
        let o' := options w' in
        getO o' "useAzureAppInsights"
        = jsOr (getO (config w) "useAzureAppInsights") (JBool false)
        /\ getO o' "unitTestsEnabled"
           = jsOr (getO (config w) "unitTestsEnabled") (JBool false)
        /\ getO o' "updateManifestVersion" = ofBool (IAnswers.updateManifestVersion answers)
        /\ getO o' "updateBuildSystem" = ofBool (IAnswers.updateBuildSystem answers)
        /\ getO o' "manifestVersion"
           = (if truthy (ofStr (IAnswers.manifestVersion answers))
              then ofStr (IAnswers.manifestVersion answers)
              else getManifestVersionFromValue X (manifestVersion m))
        /\ getO o' "reactComponents" = JBool false
        /\ config w' = config w
        /\ destinationRoot w' = destinationRoot w
        /\ uuidCalls w' = uuidCalls w
        /\ (forall k, ~ In k existingProjectOptionNames ->
              getO o' k = getO (options w) k)) w.
Proof.
  intros Hem Hconf Hsource.
  apply wp_prompting_confirmed; [exact Hconf|].
  wp_run. rewrite Hem. wp_simpl. cbn [truthy negb].
  unfold existingProject. wp_run.
  unfold probeLibraryName.
  destruct (truthy (webpackLibraryName disk)) eqn:Hwebpack.
  - wp_run. unfold projectParts. destruct (IAnswers.parts answers); wp_run.
    all: repeat split; try reflexivity.
    all: intros k Hk; untouched Hk.
  - wp_run. destruct (truthy (getO (config w) "libraryName")) eqn:Hstored.
    + wp_run. unfold projectParts. destruct (IAnswers.parts answers); wp_run.
      all: repeat split; try reflexivity.
      all: intros k Hk; untouched Hk.
    + destruct Hsource as [Hw | [Hs | [pkgName Hpkg]]]; [congruence | congruence |].
      rewrite Hpkg. wp_run.
      unfold projectParts. destruct (IAnswers.parts answers); wp_run.
      all: repeat split; try reflexivity.
      all: intros k Hk; untouched Hk.
Qed.

(** X13.  On an existing project whose library name can be read somewhere,
    [useAzureAppInsights] and [unitTestsEnabled] are the stored settings
    when those are truthy and [false] otherwise; without a version answer
    the manifest version is derived from the manifest; the configuration
    and the files are left alone, and so is every option outside the
    resolved names. *)
Theorem existing_project_stored_toggles X disk answers w m :
  getO (options w) "existingManifest" = JManifest m ->
  IAnswers.confirmedAdd answers <> Some false ->
  truthy (webpackLibraryName disk) = true
  \/ truthy (getO (config w) "libraryName") = true
  \/ is_Some (packageJsonName disk) ->
  let r := prompting X disk answers w in
  r.1 = Returned tt
  /\ (forall toggle, toggle = "useAzureAppInsights" \/ toggle = "unitTestsEnabled" ->
        (truthy (getO (config w) toggle) = true ->
         getO (options r.2) toggle = getO (config w) toggle)
        /\ (truthy (getO (config w) toggle) = false ->
            getO (options r.2) toggle = JBool false))
  /\ (IAnswers.manifestVersion answers = None ->
      getO (options r.2) "manifestVersion"
      = getManifestVersionFromValue X (manifestVersion m))
  /\ config r.2 = config w
  /\ fsOps r.2 = fsOps w
  /\ (forall k, ~ In k existingProjectOptionNames ->
        getO (options r.2) k = getO (options w) k).
Proof.
  intros Hem Hconf Hsource r.
  pose proof (wp_elim _ _ _
    (prompting_existing_project_rest X disk answers w m Hem Hconf Hsource)) as H.
  cbn beta zeta in H. fold r in H.
  destruct H as (Hret & Hai & Hut & _ & _ & Hmv & _ & Hcfg & _ & _ & Hframe).
  pose proof (prompting_keeps X disk answers w) as Hkeep. cbn beta in Hkeep. fold r in Hkeep.
  injection Hkeep as Hfs _.
  split; [exact Hret|]. split; [|split; [|repeat split; assumption]].
  - intros toggle [-> | ->].
    + rewrite Hai. unfold jsOr. split; intros ->; reflexivity.
    + rewrite Hut. unfold jsOr. split; intros ->; reflexivity.
  - intros Hnone. rewrite Hmv, Hnone. reflexivity.
Qed.

(** X14.  On an existing project where neither the webpack configuration
    nor the stored configuration gives a library name and no
    [package.json] can be read, resolution throws a [TypeError] at
    [pkg.name], before the library name or the host are assigned; nothing
    is stored or written. *)
Theorem existing_project_without_library_name_throws X disk answers w m :
  getO (options w) "existingManifest" = JManifest m ->
  IAnswers.confirmedAdd answers <> Some false ->
  truthy (webpackLibraryName disk) = false ->
  truthy (getO (config w) "libraryName") = false ->
  packageJsonName disk = None ->
  let r := prompting X disk answers w in
  r.1 = Threw (TypeError "Cannot read properties of undefined (reading 'name')")
  /\ getO (options r.2) "libraryName" = getO (options w) "libraryName"
  /\ getO (options r.2) "host" = getO (options w) "host"
  /\ config r.2 = config w
  /\ fsOps r.2 = fsOps w.
Proof.
  intros Hem Hconf Hwebpack Hstored Hpkg r.
  assert (H : wp (prompting X disk answers)
                (fun o w' =>
                   o = Threw (TypeError "Cannot read properties of undefined (reading 'name')")
                   /\ getO (options w') "libraryName" = getO (options w) "libraryName"
                   /\ getO (options w') "host" = getO (options w) "host"
                   /\ config w' = config w /\ fsOps w' = fsOps w) w).
  { apply wp_prompting_confirmed; [exact Hconf|].
    wp_run. rewrite Hem. wp_simpl. cbn [truthy negb].
    unfold existingProject. wp_run.
    unfold probeLibraryName. rewrite Hwebpack. wp_run. rewrite Hstored, Hpkg. wp_run.
    repeat split; reflexivity. }
  exact (wp_elim _ _ _ H).
Qed.


(* ===================================================================== *)
(** ** The phases around the questions *)
(* ===================================================================== *)

Lemma wp_always {A} (m : Run A) (Q : Outcome A -> World -> Prop) w :
  (forall o w', Q o w') -> wp m Q w.
Proof. intros HQ. apply HQ. Qed.

Lemma initializing_valid_schema X w :
  isSchemaVersionValid X (getO (options w) "existingManifest") = true ->
  (initializing X w).1 = Returned tt
  /\ appInsights (initializing X w).2 = appInsights w.
Proof.
  intros Hvalid.
  assert (H : wp (initializing X)
                (fun o w' => o = Returned tt /\ appInsights w' = appInsights w) w).
  { unfold initializing. wp_run. rewrite Hvalid. cbn [negb]. wp_run. by split. }
  exact (wp_elim _ _ _ H).
Qed.

Lemma install_without_telemetry w :
  truthy (getO (options w) "telemetry") = false -> install w = (Returned tt, w).
Proof.
  intros Hoff.
  assert (H : wp install (fun o w' => o = Returned tt /\ w' = w) w).
  { unfold install. wp_run. rewrite Hoff. wp_run. by split. }
  apply wp_elim in H. destruct (install w) as [o w']. cbn in H. destruct H. by subst.
Qed.

(** X16.  [initializing] never changes the options, the configuration or
    the files; with a supported schema it returns without a telemetry
    call, and with an unsupported one it never returns normally. *)
Theorem initializing_only_logs_and_reports X w :
  options (initializing X w).2 = options w
  /\ config (initializing X w).2 = config w
  /\ fsOps (initializing X w).2 = fsOps w
  /\ (isSchemaVersionValid X (getO (options w) "existingManifest") = true ->
      (initializing X w).1 = Returned tt
      /\ appInsights (initializing X w).2 = appInsights w)
  /\ (isSchemaVersionValid X (getO (options w) "existingManifest") = false ->
      (initializing X w).1 <> Returned tt).
Proof.
  pose proof (initializing_keeps X w) as Hkeep. cbn beta in Hkeep.
  injection Hkeep as Ho Hc Hf _ _.
  split; [exact Ho|]. split; [exact Hc|]. split; [exact Hf|]. split.
  - exact (initializing_valid_schema X w).
  - intros Hbad.
    assert (H : wp (initializing X) (fun o _ => o <> Returned tt) w).
    { unfold initializing. wp_run. rewrite Hbad. cbn [negb]. wp_run.
      apply wp_always. intros [[]|c|e] w'; [wp_run|..]; discriminate. }
    exact (wp_elim _ _ _ H).
Qed.

(** X17.  [install] only reports: options, configuration, files and log
    are as before, and with the telemetry option off it does nothing at
    all. *)
Theorem install_only_reports w :
  options (install w).2 = options w
  /\ config (install w).2 = config w
  /\ fsOps (install w).2 = fsOps w
  /\ logged (install w).2 = logged w
  /\ (truthy (getO (options w) "telemetry") = false -> install w = (Returned tt, w)).
Proof.
  pose proof (install_keeps w) as Hkeep. cbn beta in Hkeep.
  injection Hkeep as Ho Hc Hf Hl _ _.
  repeat split; try assumption.
  exact (install_without_telemetry w).
Qed.


(* ===================================================================== *)
(** ** The write phase, operation by operation *)
(* ===================================================================== *)

Ltac flatten_appends :=
  repeat rewrite <- app_assoc; cbn [app map templateFiles staticFiles unitTestFiles lintFiles].

Lemma forEach_fsDo {A} (l : list A) (f : A -> FsOp) w :
  forEach l (fun t => fsDo (f t)) w
  = (Returned tt, withFsOps (fun ops => (ops ++ map f l)%list) w).
Proof.
  revert w. induction l as [|x l IH]; intros w.
  - cbn. unfold ret, withFsOps. rewrite app_nil_r. by destruct w.
  - cbn [forEach]. unfold mbind, Run_bind, bind, fsDo, modify. rewrite IH.
    unfold withFsOps. cbn. by rewrite <- app_assoc.
Qed.

Lemma wp_forEach_fsDo {A} (l : list A) (f : A -> FsOp) Q w :
  Q (Returned tt) (withFsOps (fun ops => (ops ++ map f l)%list) w) ->
  wp (forEach l (fun t => fsDo (f t))) Q w.
Proof. intros HQ. unfold wp. rewrite forEach_fsDo. exact HQ. Qed.

Lemma writing_new_project X w :
  truthy (getO (options w) "existingManifest") = false ->
  let o := options w in
  let unitTests := truthy (getO o "unitTestsEnabled") in
  let linting := truthy (getO o "lintingSupport") in
  wp (writing X)
    (fun out w' =>
       exists added,
         out = Returned tt
         /\ fsOps w' = (fsOps w ++ added)%list
         /\ head added
            = Some (WriteJSON (fixFileNames X "src/manifest/manifest.json" o)
                      (GeneratedManifest (getO o "manifestVersion") o))
         /\ renderedFrom added = map (templatePath X) templateFiles
         /\ copiedFrom added
            = map (templatePath X)
                (staticFiles ++ (if unitTests then unitTestFiles else [])
                             ++ (if linting then lintFiles else []))%list
         /\ scriptsAdded added
            = ((if unitTests then [("test", "jest"); ("coverage", "jest --coverage")] else [])
               ++ (if linting then [("lint", "eslint ./src --ext .js,.jsx,.ts,.tsx")] else []))%list
         /\ devDepsAdded added
            = ((if unitTests then unitTestDevDeps else [])
               ++ (if linting then lintDevDeps else []))%list
         /\ depsAdded added
            = ((if truthy (getO o "reactComponents")
                then [("msteams-react-base-component", "^4.0.1")] else [])
               ++ (if truthy (getO o "useAzureAppInsights")
                   then [("applicationinsights", "^1.3.1")] else []))%list
         /\ config w' = setO "generator-version" (JStr (pkgVersion X)) (config w)
         /\ options w' = options w
         /\ appInsights w' = appInsights w
         /\ logged w' = logged w) w.
Proof.
  intros Hem o unitTests linting.
  subst o unitTests linting.
  destruct (truthy (getO (options w) "unitTestsEnabled")) eqn:Hunit;
    destruct (truthy (getO (options w) "lintingSupport")) eqn:Hlint;
    destruct (truthy (getO (options w) "reactComponents")) eqn:Hreact;
    destruct (truthy (getO (options w) "useAzureAppInsights")) eqn:Hins.
  all: unfold writing; wp_run; rewrite Hem; cbn [negb].
  all: unfold writeNewProject; wp_run.
  all: apply wp_forEach_fsDo; wp_run; rewrite ?Hunit, ?Hlint; wp_run.
  all: apply wp_forEach_fsDo; wp_run.
  all: rewrite ?Hreact; wp_run; rewrite ?Hins; wp_run.
  all: eexists; split; [reflexivity|]; split; [flatten_appends; reflexivity|].
  all: repeat split; reflexivity.
Qed.

(** X18.  For a new project [writing] returns, and its file operations
    start with the generated manifest, render every template file, copy
    the static files plus the unit-test and lint files of the enabled
    features, add the [test]/[coverage] and [lint] scripts and their
    development dependencies for the enabled features only, add the React
    and Application Insights dependencies when those options are set, and
    store the generator version; options, telemetry and log are
    untouched. *)
Theorem new_project_write_phase X w :
  truthy (getO (options w) "existingManifest") = false ->
  let o := options w in
  let unitTests := truthy (getO o "unitTestsEnabled") in
  let linting := truthy (getO o "lintingSupport") in
  let r := writing X w in
  exists added,
    r.1 = Returned tt
    /\ fsOps r.2 = (fsOps w ++ added)%list
    /\ head added
       = Some (WriteJSON (fixFileNames X "src/manifest/manifest.json" o)
                 (GeneratedManifest (getO o "manifestVersion") o))
    /\ renderedFrom added = map (templatePath X) templateFiles
    /\ copiedFrom added
       = map (templatePath X)
           (staticFiles ++ (if unitTests then unitTestFiles else [])
                        ++ (if linting then lintFiles else []))%list
    /\ scriptsAdded added
       = ((if unitTests then [("test", "jest"); ("coverage", "jest --coverage")] else [])
          ++ (if linting then [("lint", "eslint ./src --ext .js,.jsx,.ts,.tsx")] else []))%list
    /\ devDepsAdded added
       = ((if unitTests then unitTestDevDeps else [])
          ++ (if linting then lintDevDeps else []))%list
    /\ depsAdded added
       = ((if truthy (getO o "reactComponents")
           then [("msteams-react-base-component", "^4.0.1")] else [])
          ++ (if truthy (getO o "useAzureAppInsights")
              then [("applicationinsights", "^1.3.1")] else []))%list
    /\ config r.2 = setO "generator-version" (JStr (pkgVersion X)) (config w)
    /\ options r.2 = options w
    /\ appInsights r.2 = appInsights w
    /\ logged r.2 = logged w.
Proof.
  intros Hem o unitTests linting r.
  pose proof (writing_new_project X w Hem) as H. cbn zeta in H.
  exact (wp_elim _ _ _ H).
Qed.

(** X19.  On an existing project without a core-files update, [writing]
    returns and performs at most three file operations, in this order: the
    updated manifest when a version change was asked for, the React
    dependency, the Application Insights dependency; it stores the
    generator version and neither logs nor reports telemetry. *)
Theorem existing_project_write_without_core_update X w :
  truthy (getO (options w) "existingManifest") = true ->
  truthy (getO (options w) "updateBuildSystem") = false ->
  let o := options w in
  let r := writing X w in
  r.1 = Returned tt
  /\ fsOps r.2
     = (fsOps w
        ++ (if truthy (getO o "updateManifestVersion")
            then [WriteJSON (fixFileNames X "src/manifest/manifest.json" o)
                    (UpdatedManifest (getO o "manifestVersion") (getO o "existingManifest"))]
            else [])
        ++ (if truthy (getO o "reactComponents")
            then [AddAdditionalDeps [("msteams-react-base-component", "^4.0.1")]] else [])
        ++ (if truthy (getO o "useAzureAppInsights")
            then [AddAdditionalDeps [("applicationinsights", "^1.3.1")]] else []))%list
  /\ config r.2 = setO "generator-version" (JStr (pkgVersion X)) (config w)
  /\ logged r.2 = logged w
  /\ appInsights r.2 = appInsights w.
Proof.
  intros Hem Hubs o r.
  assert (H : wp (writing X)
    (fun out w' =>
       out = Returned tt
       /\ fsOps w'
          = (fsOps w
             ++ (if truthy (getO o "updateManifestVersion")
                 then [WriteJSON (fixFileNames X "src/manifest/manifest.json" o)
                         (UpdatedManifest (getO o "manifestVersion")
                            (getO o "existingManifest"))]
                 else [])
             ++ (if truthy (getO o "reactComponents")
                 then [AddAdditionalDeps [("msteams-react-base-component", "^4.0.1")]] else [])
             ++ (if truthy (getO o "useAzureAppInsights")
                 then [AddAdditionalDeps [("applicationinsights", "^1.3.1")]] else []))%list
       /\ config w' = setO "generator-version" (JStr (pkgVersion X)) (config w)
       /\ logged w' = logged w
       /\ appInsights w' = appInsights w) w).
  { subst o.
    destruct (truthy (getO (options w) "updateManifestVersion")) eqn:Humv;
      destruct (truthy (getO (options w) "reactComponents")) eqn:Hreact;
      destruct (truthy (getO (options w) "useAzureAppInsights")) eqn:Hins.
    all: unfold writing; wp_run; rewrite Hem; cbn [negb].
    all: unfold writeExistingProject; wp_run; rewrite Hubs; wp_run; rewrite Humv; wp_run.
    all: rewrite Hreact; wp_run; rewrite Hins; wp_run.
    all: repeat split; try reflexivity.
    all: repeat rewrite <- app_assoc; rewrite ?app_nil_r; reflexivity. }
  exact (wp_elim _ _ _ H).
Qed.

(** X20.  When the core-files update of an existing project succeeds,
    [writing] returns with the updater's file operations first and the
    manifest and dependency operations after them, logs the updater's
    messages, stores the generator version, and reports one
    [update-core-files] event with result [true] when telemetry is on. *)
Theorem core_files_update_succeeds X w updater ops messages :
  truthy (getO (options w) "existingManifest") = true ->
  truthy (getO (options w) "updateBuildSystem") = true ->
  truthy (getO (config w) "generator-version") = true ->
  createCoreFilesUpdater X (getO (config w) "generator-version") = Some updater ->
  updateCoreFiles updater (options w) = (true, ops, messages) ->
  clientReady w ->
  let o := options w in
  let r := writing X w in
  r.1 = Returned tt
  /\ fsOps r.2
     = (fsOps w ++ ops
        ++ (if truthy (getO o "updateManifestVersion")
            then [WriteJSON (fixFileNames X "src/manifest/manifest.json" o)
                    (UpdatedManifest (getO o "manifestVersion") (getO o "existingManifest"))]
            else [])
        ++ (if truthy (getO o "reactComponents")
            then [AddAdditionalDeps [("msteams-react-base-component", "^4.0.1")]] else [])
        ++ (if truthy (getO o "useAzureAppInsights")
            then [AddAdditionalDeps [("applicationinsights", "^1.3.1")]] else []))%list
  /\ logged r.2 = (logged w ++ messages)%list
  /\ config r.2 = setO "generator-version" (JStr (pkgVersion X)) (config w)
  /\ tracked (appInsights r.2)
     = (tracked (appInsights w)
        ++ if truthy (getO o "telemetry")
           then [Event "update-core-files" [("result", JStr "true")]] else [])%list.
Proof.
  intros Hem Hubs Hsome Hupd Hres Hready o r.
  assert (H : wp (writing X)
    (fun out w' =>
       out = Returned tt
       /\ fsOps w'
          = (fsOps w ++ ops
             ++ (if truthy (getO o "updateManifestVersion")
                 then [WriteJSON (fixFileNames X "src/manifest/manifest.json" o)
                         (UpdatedManifest (getO o "manifestVersion")
                            (getO o "existingManifest"))]
                 else [])
             ++ (if truthy (getO o "reactComponents")
                 then [AddAdditionalDeps [("msteams-react-base-component", "^4.0.1")]] else [])
             ++ (if truthy (getO o "useAzureAppInsights")
                 then [AddAdditionalDeps [("applicationinsights", "^1.3.1")]] else []))%list
       /\ logged w' = (logged w ++ messages)%list
       /\ config w' = setO "generator-version" (JStr (pkgVersion X)) (config w)
       /\ tracked (appInsights w')
          = (tracked (appInsights w)
             ++ if truthy (getO o "telemetry")
                then [Event "update-core-files" [("result", JStr "true")]] else [])%list) w).
  { subst o. unfold clientReady in Hready.
    destruct (truthy (getO (options w) "telemetry")) eqn:Htel;
      destruct (truthy (getO (options w) "updateManifestVersion")) eqn:Humv;
      destruct (truthy (getO (options w) "reactComponents")) eqn:Hreact;
      destruct (truthy (getO (options w) "useAzureAppInsights")) eqn:Hins.
    all: unfold writing; wp_run; rewrite Hem; cbn [negb].
    all: unfold writeExistingProject; wp_run; rewrite Hubs; wp_run.
    all: unfold updateBuildSystem; wp_run; rewrite Hsome; wp_run; rewrite Hupd; wp_run.
    all: rewrite Hres; wp_run; rewrite Htel; wp_run.
    all: try (apply wp_trackEvent_ready; [by apply Hready|]; wp_run).
    all: rewrite Humv; wp_run; rewrite Hreact; wp_run; rewrite Hins; wp_run.
    all: repeat split; try reflexivity.
    all: try (by rewrite app_nil_r).
    all: repeat rewrite <- app_assoc; rewrite ?app_nil_r; reflexivity. }
  exact (wp_elim _ _ _ H).
Qed.

(** X21.  A core-files update on a project with no stored generator
    version exits with code 3 when the telemetry client is usable, with
    files, configuration and options unchanged. *)
Theorem nothing_to_update_exits_3 X w :
  truthy (getO (options w) "existingManifest") = true ->
  truthy (getO (options w) "updateBuildSystem") = true ->
  truthy (getO (config w) "generator-version") = false ->
  clientReady w ->
  let r := writing X w in
  r.1 = Exited 3 /\ fsOps r.2 = fsOps w /\ config r.2 = config w
  /\ options r.2 = options w.
Proof.
  intros Hem Hubs Hnone Hready r.
  exact (wp_elim _ _ _ (writing_nothing_to_update X w Hem Hubs Hnone Hready)).
Qed.

(** X22.  A core-files update for which no updater exists for the stored
    generator version exits with code 2 when the telemetry client is
    usable, with files and configuration unchanged. *)
Theorem missing_updater_exits_2 X w :
  truthy (getO (options w) "existingManifest") = true ->
  truthy (getO (options w) "updateBuildSystem") = true ->
  truthy (getO (config w) "generator-version") = true ->
  createCoreFilesUpdater X (getO (config w) "generator-version") = None ->
  clientReady w ->
  let r := writing X w in
  r.1 = Exited 2 /\ fsOps r.2 = fsOps w /\ config r.2 = config w.
Proof.
  intros Hem Hubs Hsome Hnone Hready r.
  exact (wp_elim _ _ _ (writing_no_updater X w Hem Hubs Hsome Hnone Hready)).
Qed.

(** X23.  A core-files update whose updater reports failure exits with
    code 4 when the telemetry client is usable, and the stored generator
    version is not replaced. *)
Theorem failed_updater_exits_4 X w updater ops messages :
  truthy (getO (options w) "existingManifest") = true ->
  truthy (getO (options w) "updateBuildSystem") = true ->
  truthy (getO (config w) "generator-version") = true ->
  createCoreFilesUpdater X (getO (config w) "generator-version") = Some updater ->
  updateCoreFiles updater (options w) = (false, ops, messages) ->
  clientReady w ->
  let r := writing X w in
  r.1 = Exited 4 /\ config r.2 = config w.
Proof.
  intros Hem Hubs Hsome Hupd Hres Hready r.
  exact (wp_elim _ _ _
           (writing_updater_failed X w updater ops messages Hem Hubs Hsome Hupd Hres Hready)).
Qed.


(* ===================================================================== *)
(** ** Whole runs *)
(* ===================================================================== *)

Lemma bind_returned {A B} (m : Run A) (k : A -> Run B) w a :
  (m w).1 = Returned a -> (m ≫= k) w = k a (m w).2.
Proof.
  unfold mbind, Run_bind, bind. destruct (m w) as [o w']. cbn. by intros ->.
Qed.

Lemma bind_exited {A B} (m : Run A) (k : A -> Run B) w c :
  (m w).1 = Exited c -> (m ≫= k) w = (Exited c, (m w).2).
Proof.
  unfold mbind, Run_bind, bind. destruct (m w) as [o w']. cbn. by intros ->.
Qed.

Lemma getO_union_namespace (args : Options) v k :
  k <> "namespace" -> getO (args ∪ {[ "namespace" := v ]}) k = getO args k.
Proof.
  intros Hk. unfold getO. rewrite lookup_union, lookup_singleton_ne by done.
  by destruct (args !! k).
Qed.

(** What the constructor leaves behind. *)
Lemma constructor_spec X disk args telemetry w :
  wp (constructor X disk args telemetry)
     (fun o w' =>
        o = Returned tt
        /\ getO (options w') "existingManifest"
           = match manifestJson disk with Some m => JManifest m | None => JUndefined end
        /\ getO (options w') "telemetry" = JBool telemetry
        /\ (forall k, k <> "telemetry" -> k <> "existingManifest" -> k <> "namespace" ->
              getO (options w') k = getO args k)
        /\ config w' = config w /\ fsOps w' = fsOps w /\ uuidCalls w' = uuidCalls w
        /\ destinationRoot w' = destinationRoot w
        /\ (if telemetry && negb (telemetryOptOut disk)
            then is_Some (defaultClient (appInsights w'))
                 /\ tracked (appInsights w')
                    = (tracked (appInsights w) ++ [Event "start-generator" []])%list
            else appInsights w' = appInsights w)) w.
Proof.
  unfold constructor. wp_run. cbn [truthy].
  destruct (telemetry && negb (telemetryOptOut disk)).
  - wp_run. unfold AppInsights_setup. wp_run.
    apply wp_trackEvent_ready; [by eexists|]. wp_run.
    repeat split; try reflexivity; try (by eexists).
    intros k Ht He Hn. rewrite !getO_setO_other by done. by apply getO_union_namespace.
  - wp_run. repeat split; try reflexivity.
    intros k Ht He Hn. rewrite !getO_setO_other by done. by apply getO_union_namespace.
Qed.

(** X24.  A whole run on an existing project with a supported schema that
    is declined at the confirmation question exits with code 0 and has
    written no file, changed no configuration entry, drawn no identifier
    and not moved the destination root, whatever the telemetry settings
    are. *)
Theorem declined_run_changes_nothing X disk args telemetry answers stored drawn m :
  manifestJson disk = Some m ->
  isSchemaVersionValid X (JManifest m) = true ->
  IAnswers.confirmedAdd answers = Some false ->
  let r := run X disk args telemetry answers (initialWorld stored drawn) in
  r.1 = Exited 0
  /\ fsOps r.2 = []
  /\ config r.2 = stored
  /\ uuidCalls r.2 = drawn
  /\ destinationRoot r.2 = [].
Proof.
  intros Hm Hvalid Hno r.
  pose proof (wp_elim _ _ _ (constructor_spec X disk args telemetry (initialWorld stored drawn)))
    as Hc.
  cbn beta in Hc. rewrite Hm in Hc.
  set (w1 := (constructor X disk args telemetry (initialWorld stored drawn)).2) in *.
  destruct Hc as (Hret1 & Hem1 & _ & _ & Hcfg1 & Hfs1 & Hdrawn1 & Hroot1 & _).
  pose proof (initializing_valid_schema X w1) as Hok2.
  pose proof (initializing_keeps X w1) as Hkeep2. cbn beta in Hkeep2.
  injection Hkeep2 as Ho2 Hcfg2 Hfs2 Hroot2 Hdrawn2.
  rewrite Hem1 in Hok2. destruct (Hok2 Hvalid) as [Hret2 _].
  set (w2 := (initializing X w1).2) in *.
  subst r. unfold run.
  rewrite (bind_returned _ _ _ tt Hret1). fold w1.
  rewrite (bind_returned _ _ _ tt Hret2). fold w2.
  rewrite (bind_exited (prompting X disk answers) _ w2 0)
    by (by rewrite (prompting_declined X disk answers w2 Hno)).
  rewrite (prompting_declined X disk answers w2 Hno). cbn [fst snd].
  cbn in Hcfg1, Hfs1, Hdrawn1, Hroot1.
  repeat split; congruence.
Qed.



(** X26.  A whole run on a project whose manifest has an unsupported
    schema exits with code 1 before any question is resolved, unless the
    environment opt-out is combined with the telemetry option: no file is
    written, the configuration is unchanged, a title passed as option is
    not replaced and no identifier is drawn. *)
Theorem unsupported_schema_run_exits_1 X disk args telemetry answers stored drawn m :
  manifestJson disk = Some m ->
  isSchemaVersionValid X (JManifest m) = false ->
  telemetry = false \/ telemetryOptOut disk = false ->
  let r := run X disk args telemetry answers (initialWorld stored drawn) in
  r.1 = Exited 1
  /\ fsOps r.2 = []
  /\ config r.2 = stored
  /\ getO (options r.2) "title" = getO args "title"
  /\ uuidCalls r.2 = drawn.
Proof.
  intros Hm Hbad Htel r.
  set (w0 := initialWorld stored drawn).
  pose proof (wp_elim _ _ _ (constructor_spec X disk args telemetry w0)) as Hc.
  cbn beta in Hc. rewrite Hm in Hc.
  set (w1 := (constructor X disk args telemetry w0).2) in *.
  destruct Hc as (Hret1 & Hem1 & Htel1 & Hargs1 & Hcfg1 & Hfs1 & Hdrawn1 & _ & Hai1).
  assert (Hready : clientReady w1).
  { unfold clientReady. rewrite Htel1. cbn. intros ->.
    destruct Htel as [Hoff | Hout]; [discriminate|].
    rewrite Hout in Hai1. cbn in Hai1. by destruct Hai1. }
  pose proof (wp_elim _ _ _ (initializing_unsupported_schema X w1 m Hem1 Hbad Hready))
    as (Hret2 & Hfs2 & Hcfg2).
  pose proof (initializing_keeps X w1) as Hkeep2. cbn beta in Hkeep2.
  injection Hkeep2 as Ho2 _ _ _ Hdrawn2.
  subst r. unfold run.
  rewrite (bind_returned _ _ _ tt Hret1). fold w1.
  rewrite (bind_exited (initializing X) _ w1 1 Hret2). cbn [fst snd].
  change (config w0) with stored in Hcfg1.
  change (fsOps w0) with (@nil FsOp) in Hfs1.
  change (uuidCalls w0) with drawn in Hdrawn1.
  repeat split; try congruence.
  rewrite Ho2. by apply Hargs1.
Qed.


(* ===================================================================== *)
(** ** The scaffolding command, by outcome *)
(* ===================================================================== *)

Section ScaffolderMore.

Variable join : string -> string -> string.
Variable existsSync : string -> bool.
Variable executeCommand : string -> string -> Z + string.
Variable platform : string.
Variable parseWinPath : string -> string.
Variable showOutputChannel : string.

Lemma showInputBox_first validate entries :
  match Scaffolder.showInputBox validate entries with
  | Some value =>
      exists rejected later,
        entries = (rejected ++ value :: later)%list
        /\ validate value = None
        /\ Forall (fun entry => validate entry <> None) rejected
  | None => Forall (fun entry => validate entry <> None) entries
  end.
Proof.
  induction entries as [|entry later IH]; simpl; [constructor|].
  destruct (validate entry) eqn:Hentry.
  - destruct (Scaffolder.showInputBox validate later) as [value|].
    + destruct IH as (rejected & later' & -> & Hvalue & Hrej).
      exists (entry :: rejected), later'. repeat split; [done|].
      constructor; [by rewrite Hentry | exact Hrej].
    + constructor; [by rewrite Hentry | exact IH].
  - exists [], later. repeat split; [exact Hentry | constructor].
Qed.

(** X27.  The solution name returned by the input box is the first entry
    that is non-empty and names no existing folder under the parent; every
    entry before it was rejected for one of these two reasons, and no name
    is returned exactly when every entry is rejected. *)
Theorem getSolutionName_first_fresh_entry folderPath entries :
  match Scaffolder.getSolutionName join existsSync folderPath entries with
  | Some solutionName =>
      exists rejected later,
        entries = (rejected ++ solutionName :: later)%list
        /\ solutionName <> ""
        /\ existsSync (join folderPath solutionName) = false
        /\ Forall (fun entry => entry = "" \/ existsSync (join folderPath entry) = true)
                  rejected
  | None =>
      Forall (fun entry => entry = "" \/ existsSync (join folderPath entry) = true) entries
  end.
Proof.
  assert (Hrejects : forall entry,
    Scaffolder.validateInput join existsSync folderPath entry <> None ->
    entry = "" \/ existsSync (join folderPath entry) = true).
  { intros entry Hentry.
    destruct (String.eqb_spec entry "") as [->|Hne]; [by left|]. right.
    destruct (existsSync (join folderPath entry)) eqn:Hexists; [reflexivity|].
    exfalso. apply Hentry. by apply validateInput_accepts. }
  unfold Scaffolder.getSolutionName.
  pose proof (showInputBox_first
                (Scaffolder.validateInput join existsSync folderPath) entries) as H.
  destruct (Scaffolder.showInputBox _ entries) as [value|].
  - destruct H as (rejected & later & Hsplit & Hvalue & Hrej).
    apply validateInput_accepts in Hvalue as [Hne Hfree].
    exists rejected, later. repeat split; try assumption.
    eapply Forall_impl; [exact Hrej | exact Hrejects].
  - eapply Forall_impl; [exact H | exact Hrejects].
Qed.


(** No parent folder: a warning and nothing else. *)
Theorem createProject_without_parent_folder wsFolder pick entries :
  Scaffolder.falsy (Scaffolder.getFolderPath wsFolder pick) = true ->
  Scaffolder.createProject join existsSync executeCommand platform parseWinPath
    showOutputChannel wsFolder pick entries
  = [ Scaffolder.LoggerInfo "Start creating a new project";
      Scaffolder.NotifyWarning "You must select the parent folder to create the project in" ].
Proof.
  unfold Scaffolder.createProject.
  destruct (Scaffolder.getFolderPath wsFolder pick) as [folderPath|]; [|reflexivity].
  intros Hfalsy. by rewrite Hfalsy.
Qed.

End ScaffolderMore.


(* ===================================================================== *)
(** ** The properties above on the sample inputs *)
(* ===================================================================== *)

Lemma fresh_answeredNew answers h s :
  IAnswers.confirmedAdd answers = None ->
  IAnswers.host answers = Some h ->
  IAnswers.solutionName answers = Some s ->
  answeredNew (options Fixtures.fresh) answers.
Proof.
  intros Hc Hh Hs. split; [reflexivity|]. split; [by rewrite Hc|].
  split; [by eexists|]. exists s. by rewrite Hs.
Qed.

Lemma namespace_reverses_hostname_witness :
  let answers := Sample.newAnswers "https://Foo.azurewebsites.net/" in
  let r := prompting Sample.collaborators (Sample.emptyFolder None) answers Fixtures.fresh in
  answeredNew (options Fixtures.fresh) answers
  /\ exists hostname namespace,
       r.1 = Returned tt
       /\ getO (options r.2) "hostname" = JStr hostname
       /\ getO (options r.2) "namespace" = JStr namespace
       /\ reverseDomain namespace = hostname
       /\ reverseDomain hostname = namespace.
Proof.
  intros answers r.
  pose proof (fresh_answeredNew answers _ _ eq_refl eq_refl eq_refl) as Hnew.
  split; [exact Hnew|].
  exact (namespace_reverses_hostname Sample.collaborators (Sample.emptyFolder None)
           answers Fixtures.fresh Hnew).
Defined.

Lemma new_project_names_are_lower_case_witness :
  let answers := Sample.newAnswers "https://Foo.azurewebsites.net/" in
  let r := prompting Sample.collaborators (Sample.emptyFolder None) answers Fixtures.fresh in
  answeredNew (options Fixtures.fresh) answers
  /\ exists hostname namespace packageName,
       r.1 = Returned tt
       /\ getO (options r.2) "hostname" = JStr hostname
       /\ getO (options r.2) "namespace" = JStr namespace
       /\ getO (options r.2) "packageName" = JStr packageName
       /\ Js.toLocaleLowerCase hostname = hostname
       /\ Js.toLocaleLowerCase namespace = namespace
       /\ Js.toLocaleLowerCase packageName = packageName.
Proof.
  intros answers r.
  pose proof (fresh_answeredNew answers _ _ eq_refl eq_refl eq_refl) as Hnew.
  split; [exact Hnew|].
  exact (new_project_names_are_lower_case Sample.collaborators (Sample.emptyFolder None)
           answers Fixtures.fresh Hnew).
Defined.


Lemma default_host_witness :
  let answers := Sample.newAnswers "https://myapp.azurewebsites.net" in
  let r := prompting Sample.collaborators (Sample.emptyFolder None) answers Fixtures.fresh in
  IAnswers.host answers = Some (PromptSeries.default_host Sample.collaborators answers)
  /\ hasChar "." (Js.toLocaleLowerCase (camelCase Sample.collaborators "myapp")) = false
  /\ r.1 = Returned tt
  /\ getO (options r.2) "packageName" = JStr "myapp"
  /\ getO (options r.2) "websitePrefix" = JStr "myapp"
  /\ getO (options r.2) "host" = JStr "https://myapp.azurewebsites.net"
  /\ getO (options r.2) "hostname" = JStr "myapp.azurewebsites.net".
Proof.
  intros answers r.
  assert (Hconf : IAnswers.confirmedAdd answers <> Some false) by discriminate.
  split; [reflexivity|]. split; [reflexivity|].
  exact (default_host_gives_package_name_as_prefix Sample.collaborators
           (Sample.emptyFolder None) answers Fixtures.fresh "myapp"
           eq_refl eq_refl Hconf eq_refl eq_refl eq_refl).
Defined.

Lemma existing_project_questions_witness :
  let o : Options := {[ "existingManifest" := JManifest Sample.manifest ]} in
  let answers := Sample.rerunAnswers true true in
  truthy (getO o "existingManifest") = true
  /\ when_confirmedAdd o = true
  /\ when_solutionName o = false
  /\ when_quickScaffolding o = false
  /\ when_lintingSupport o answers = false.
Proof.
  intros o answers.
  assert (Hem : truthy (getO o "existingManifest") = true) by reflexivity.
  split; [exact Hem|].
  destruct (existing_project_skips_new_project_questions Sample.collaborators o ∅ answers Hem)
    as (H1 & H2 & _ & _ & _ & H6 & _ & _ & _ & H10 & _).
  by repeat split.
Defined.

Lemma new_project_questions_witness :
  let o : Options := ∅ in
  let answers := Sample.newAnswers "https://myapp.azurewebsites.net" in
  truthy (getO o "existingManifest") = false
  /\ when_confirmedAdd o = false
  /\ when_updateBuildSystem Sample.collaborators o ∅ answers = false
  /\ when_host o = true.
Proof.
  intros o answers.
  assert (Hem : truthy (getO o "existingManifest") = false) by reflexivity.
  split; [exact Hem|].
  destruct (new_project_skips_update_questions Sample.collaborators o ∅ answers Hem)
    as (H1 & H2 & _ & H4 & _).
  by repeat split.
Defined.

Lemma declined_rerun_witness :
  let answers := Sample.rerunAnswers false false in
  let w := Fixtures.started (Sample.projectFolder Sample.manifest None) true ∅ in
  IAnswers.confirmedAdd answers = Some false
  /\ when_updateBuildSystem Sample.collaborators (options w) (config w) answers = false
  /\ prompting Sample.collaborators (Sample.projectFolder Sample.manifest None) answers w
     = (Exited 0, w).
Proof.
  intros answers w.
  split; [reflexivity|].
  destruct (declined_rerun_asks_no_update_and_exits Sample.collaborators
              (Sample.projectFolder Sample.manifest None) (options w) (config w) answers w
              eq_refl) as (H1 & _ & _ & _ & H5).
  by split.
Defined.

Lemma manifest_version_choices_witness :
  let choice :=
    {| PromptSeries.choice_name := "v1.13"; PromptSeries.choice_value := "v1.13";
       PromptSeries.choice_default := true |} in
  In choice (PromptSeries.versionChoices Sample.collaborators ∅)
  /\ exists version,
       In version (supportedManifestVersions Sample.collaborators)
       /\ PromptSeries.choice_value choice = mv_manifestVersion version
       /\ (truthy (getO (∅ : Options) "existingManifest") = false -> mv_hide version = false)
       /\ (forall m, getO (∅ : Options) "existingManifest" = JManifest m ->
             supportsUpdateManifest Sample.collaborators (PromptSeries.choice_value choice)
               (manifestVersion m) = true).
Proof.
  intros choice.
  assert (Hin : In choice (PromptSeries.versionChoices Sample.collaborators ∅))
    by (left; reflexivity).
  split; [exact Hin|].
  exact (manifest_version_choices Sample.collaborators ∅ choice Hin).
Defined.

Lemma new_project_feature_flags_witness :
  let answers := Sample.fullAnswers false "" true in
  let r := prompting Sample.collaborators (Sample.emptyFolder None) answers Fixtures.fresh in
  answeredNew (options Fixtures.fresh) answers
  /\ IAnswers.parts answers = Some ["tab"; "localization"]
  /\ r.1 = Returned tt
  /\ Forall (fun '(flag, part) =>
               (In part ["tab"; "localization"] -> getO (options r.2) flag = JBool true)
               /\ (~ In part ["tab"; "localization"] -> getO (options r.2) flag = JBool false))
            partFlags
  /\ getO (options r.2) "reactComponents" = JBool false.
Proof.
  intros answers r.
  pose proof (fresh_answeredNew answers _ _ eq_refl eq_refl eq_refl) as Hnew.
  split; [exact Hnew|]. split; [reflexivity|].
  exact (new_project_feature_flags Sample.collaborators (Sample.emptyFolder None)
           answers Fixtures.fresh _ Hnew eq_refl).
Defined.

Lemma new_project_destination_folder_witness :
  let answers := Sample.fullAnswers false "" true in
  let r := prompting Sample.collaborators (Sample.emptyFolder None) answers Fixtures.fresh in
  answeredNew (options Fixtures.fresh) answers
  /\ IAnswers.whichFolder answers = Some "subdir"
  /\ destinationRoot r.2 = ["myapp"].
Proof.
  intros answers r.
  pose proof (fresh_answeredNew answers _ _ eq_refl eq_refl eq_refl) as Hnew.
  split; [exact Hnew|]. split; [reflexivity|].
  destruct (new_project_destination_folder Sample.collaborators (Sample.emptyFolder None)
              answers Fixtures.fresh Hnew) as (s & _ & Hs & Hsub & _).
  destruct (Hsub eq_refl) as [Hroot _].
  fold r in Hs, Hroot. rewrite Hroot.
  assert (Hname : getO (options r.2) "solutionName" = JStr "myapp") by (vm_compute; reflexivity).
  rewrite Hname in Hs. injection Hs as <-. reflexivity.
Defined.


Lemma existing_project_stored_toggles_witness :
  let disk := Sample.projectFolder Sample.manifest None in
  let answers := Sample.rerunAnswers true false in
  let w := Fixtures.started disk true {[ "unitTestsEnabled" := JBool true ]} in
  let r := prompting Sample.collaborators disk answers w in
  getO (options w) "existingManifest" = JManifest Sample.manifest
  /\ IAnswers.confirmedAdd answers <> Some false
  /\ (truthy (webpackLibraryName disk) = true
      \/ truthy (getO (config w) "libraryName") = true
      \/ is_Some (packageJsonName disk))
  /\ r.1 = Returned tt
  /\ getO (options r.2) "unitTestsEnabled" = JBool true
  /\ getO (options r.2) "useAzureAppInsights" = JBool false
  /\ config r.2 = config w.
Proof.
  intros disk answers w r.
  assert (Hem : getO (options w) "existingManifest" = JManifest Sample.manifest)
    by (vm_compute; reflexivity).
  assert (Hconf : IAnswers.confirmedAdd answers <> Some false) by discriminate.
  assert (Hsource : truthy (webpackLibraryName disk) = true
                    \/ truthy (getO (config w) "libraryName") = true
                    \/ is_Some (packageJsonName disk)) by (left; reflexivity).
  split; [exact Hem|]. split; [exact Hconf|]. split; [exact Hsource|].
  destruct (existing_project_stored_toggles Sample.collaborators disk answers w
              Sample.manifest Hem Hconf Hsource) as (Hret & Htoggle & _ & Hcfg & _).
  split; [exact Hret|].
  destruct (Htoggle "unitTestsEnabled" (or_intror eq_refl)) as [Hstored _].
  destruct (Htoggle "useAzureAppInsights" (or_introl eq_refl)) as [_ Hmissing].
  split; [|split; [|exact Hcfg]].
  - fold r in Hstored. rewrite Hstored; vm_compute; reflexivity.
  - apply Hmissing. vm_compute. reflexivity.
Defined.

Lemma existing_project_without_library_name_witness :
  let disk := Fixtures.bareProject in
  let answers := Sample.rerunAnswers true false in
  let w := Fixtures.started disk true ∅ in
  let r := prompting Sample.collaborators disk answers w in
  getO (options w) "existingManifest" = JManifest Sample.manifest
  /\ truthy (webpackLibraryName disk) = false
  /\ truthy (getO (config w) "libraryName") = false
  /\ packageJsonName disk = None
  /\ r.1 = Threw (TypeError "Cannot read properties of undefined (reading 'name')")
  /\ config r.2 = config w.
Proof.
  intros disk answers w r.
  assert (Hem : getO (options w) "existingManifest" = JManifest Sample.manifest)
    by (vm_compute; reflexivity).
  assert (Hconf : IAnswers.confirmedAdd answers <> Some false) by discriminate.
  assert (Hstored : truthy (getO (config w) "libraryName") = false)
    by (vm_compute; reflexivity).
  split; [exact Hem|]. split; [reflexivity|]. split; [exact Hstored|].
  split; [reflexivity|].
  destruct (existing_project_without_library_name_throws Sample.collaborators disk answers w
              Sample.manifest Hem Hconf eq_refl Hstored eq_refl)
    as (Hthrow & _ & _ & Hcfg & _).
  by split.
Defined.


Lemma new_project_write_phase_witness :
  let X := Sample.collaborators in
  let w := Fixtures.prompted (Sample.emptyFolder None) true (Sample.fullAnswers false "" true) ∅ in
  truthy (getO (options w) "existingManifest") = false
  /\ (writing X w).1 = Returned tt
  /\ scriptsAdded (fsOps (writing X w).2)
     = [("lint", "eslint ./src --ext .js,.jsx,.ts,.tsx")]
  /\ getO (config (writing X w).2) "generator-version" = JStr "4.1.0".
Proof.
  intros X w.
  assert (Hem : truthy (getO (options w) "existingManifest") = false)
    by (vm_compute; reflexivity).
  split; [exact Hem|].
  destruct (new_project_write_phase X w Hem)
    as (added & Hret & Hfs & _ & _ & _ & Hscripts & _ & _ & Hcfg & _).
  split; [exact Hret|]. split.
  - rewrite Hfs.
    assert (Hbefore : fsOps w = []) by (vm_compute; reflexivity).
    rewrite Hbefore. cbn [app]. rewrite Hscripts.
    assert (Hunit : truthy (getO (options w) "unitTestsEnabled") = false)
      by (vm_compute; reflexivity).
    assert (Hlint : truthy (getO (options w) "lintingSupport") = true)
      by (vm_compute; reflexivity).
    rewrite Hunit, Hlint. reflexivity.
  - rewrite Hcfg. reflexivity.
Defined.

Lemma existing_project_write_witness :
  let X := Sample.collaborators in
  let w := Fixtures.prompted (Sample.projectFolder Sample.manifest None) true
             (Sample.rerunAnswers true false) ∅ in
  truthy (getO (options w) "existingManifest") = true
  /\ truthy (getO (options w) "updateBuildSystem") = false
  /\ (writing X w).1 = Returned tt
  /\ getO (config (writing X w).2) "generator-version" = JStr "4.1.0"
  /\ logged (writing X w).2 = logged w.
Proof.
  intros X w.
  assert (Hem : truthy (getO (options w) "existingManifest") = true)
    by (vm_compute; reflexivity).
  assert (Hubs : truthy (getO (options w) "updateBuildSystem") = false)
    by (vm_compute; reflexivity).
  split; [exact Hem|]. split; [exact Hubs|].
  destruct (existing_project_write_without_core_update X w Hem Hubs)
    as (Hret & _ & Hcfg & Hlog & _).
  split; [exact Hret|]. split; [|exact Hlog].
  rewrite Hcfg. reflexivity.
Defined.

Lemma core_files_update_witness :
  let X := Sample.collaborators in
  let w := Fixtures.prompted (Sample.projectFolder Sample.manifest None) true
             (Sample.rerunAnswers true true) (Sample.stored "4.0.0") in
  truthy (getO (options w) "existingManifest") = true
  /\ truthy (getO (options w) "updateBuildSystem") = true
  /\ createCoreFilesUpdater X (getO (config w) "generator-version") = Some Sample.okUpdater
  /\ clientReady w
  /\ (writing X w).1 = Returned tt
  /\ getO (config (writing X w).2) "generator-version" = JStr "4.1.0".
Proof.
  intros X w.
  assert (Hem : truthy (getO (options w) "existingManifest") = true)
    by (vm_compute; reflexivity).
  assert (Hubs : truthy (getO (options w) "updateBuildSystem") = true)
    by (vm_compute; reflexivity).
  assert (Hstored : truthy (getO (config w) "generator-version") = true)
    by (vm_compute; reflexivity).
  assert (Hupd : createCoreFilesUpdater X (getO (config w) "generator-version")
                 = Some Sample.okUpdater) by (vm_compute; reflexivity).
  assert (Hready : clientReady w) by (intros _; vm_compute; eexists; reflexivity).
  split; [exact Hem|]. split; [exact Hubs|]. split; [exact Hupd|]. split; [exact Hready|].
  destruct (core_files_update_succeeds X w Sample.okUpdater [] [] Hem Hubs Hstored Hupd
              eq_refl Hready) as (Hret & _ & _ & Hcfg & _).
  split; [exact Hret|]. rewrite Hcfg. reflexivity.
Defined.

Lemma nothing_to_update_witness :
  let X := Sample.collaborators in
  let w := Fixtures.prompted (Sample.projectFolder Sample.manifest None) true
             (Sample.rerunAnswers true true) ∅ in
  truthy (getO (config w) "generator-version") = false
  /\ clientReady w
  /\ (writing X w).1 = Exited 3
  /\ fsOps (writing X w).2 = fsOps w.
Proof.
  intros X w.
  assert (Hem : truthy (getO (options w) "existingManifest") = true)
    by (vm_compute; reflexivity).
  assert (Hubs : truthy (getO (options w) "updateBuildSystem") = true)
    by (vm_compute; reflexivity).
  assert (Hstored : truthy (getO (config w) "generator-version") = false)
    by (vm_compute; reflexivity).
  assert (Hready : clientReady w) by (intros _; vm_compute; eexists; reflexivity).
  split; [exact Hstored|]. split; [exact Hready|].
  destruct (nothing_to_update_exits_3 X w Hem Hubs Hstored Hready) as (Hret & Hfs & _).
  by split.
Defined.

Lemma missing_updater_witness :
  let X := Sample.collaborators in
  let w := Fixtures.prompted (Sample.projectFolder Sample.manifest None) true
             (Sample.rerunAnswers true true) (Sample.stored "2.0.0") in
  createCoreFilesUpdater X (getO (config w) "generator-version") = None
  /\ clientReady w
  /\ (writing X w).1 = Exited 2
  /\ fsOps (writing X w).2 = fsOps w.
Proof.
  intros X w.
  assert (Hem : truthy (getO (options w) "existingManifest") = true)
    by (vm_compute; reflexivity).
  assert (Hubs : truthy (getO (options w) "updateBuildSystem") = true)
    by (vm_compute; reflexivity).
  assert (Hstored : truthy (getO (config w) "generator-version") = true)
    by (vm_compute; reflexivity).
  assert (Hupd : createCoreFilesUpdater X (getO (config w) "generator-version") = None)
    by (vm_compute; reflexivity).
  assert (Hready : clientReady w) by (intros _; vm_compute; eexists; reflexivity).
  split; [exact Hupd|]. split; [exact Hready|].
  destruct (missing_updater_exits_2 X w Hem Hubs Hstored Hupd Hready) as (Hret & Hfs & _).
  by split.
Defined.

Lemma failed_updater_witness :
  let X := Sample.collaborators in
  let w := Fixtures.prompted (Sample.projectFolder Sample.manifest None) true
             (Sample.rerunAnswers true true) (Sample.stored "3.5.0") in
  createCoreFilesUpdater X (getO (config w) "generator-version") = Some Sample.failingUpdater
  /\ clientReady w
  /\ (writing X w).1 = Exited 4
  /\ config (writing X w).2 = config w.
Proof.
  intros X w.
  assert (Hem : truthy (getO (options w) "existingManifest") = true)
    by (vm_compute; reflexivity).
  assert (Hubs : truthy (getO (options w) "updateBuildSystem") = true)
    by (vm_compute; reflexivity).
  assert (Hstored : truthy (getO (config w) "generator-version") = true)
    by (vm_compute; reflexivity).
  assert (Hupd : createCoreFilesUpdater X (getO (config w) "generator-version")
                 = Some Sample.failingUpdater) by (vm_compute; reflexivity).
  assert (Hready : clientReady w) by (intros _; vm_compute; eexists; reflexivity).
  split; [exact Hupd|]. split; [exact Hready|].
  exact (failed_updater_exits_4 X w Sample.failingUpdater []
           ["core files could not be updated"] Hem Hubs Hstored Hupd eq_refl Hready).
Defined.

Lemma declined_run_witness :
  let disk := Sample.projectFolder Sample.manifest None in
  let answers := Sample.rerunAnswers false false in
  let r := run Sample.collaborators disk ∅ true answers (initialWorld ∅ 0) in
  isSchemaVersionValid Sample.collaborators (JManifest Sample.manifest) = true
  /\ IAnswers.confirmedAdd answers = Some false
  /\ r.1 = Exited 0 /\ fsOps r.2 = [] /\ config r.2 = ∅.
Proof.
  intros disk answers r.
  split; [reflexivity|]. split; [reflexivity|].
  destruct (declined_run_changes_nothing Sample.collaborators disk ∅ true answers ∅ 0%nat
              Sample.manifest eq_refl eq_refl eq_refl) as (Hret & Hfs & Hcfg & _).
  by repeat split.
Defined.


Lemma unsupported_schema_run_witness :
  let disk := Sample.projectFolder Sample.oldManifest None in
  let answers := Sample.rerunAnswers true true in
  let r := run Sample.collaborators disk ∅ true answers (initialWorld ∅ 0) in
  isSchemaVersionValid Sample.collaborators (JManifest Sample.oldManifest) = false
  /\ telemetryOptOut disk = false
  /\ r.1 = Exited 1 /\ fsOps r.2 = [] /\ config r.2 = ∅.
Proof.
  intros disk answers r.
  split; [reflexivity|]. split; [reflexivity|].
  destruct (unsupported_schema_run_exits_1 Sample.collaborators disk ∅ true answers ∅ 0%nat
              Sample.oldManifest eq_refl eq_refl (or_intror eq_refl))
    as (Hret & Hfs & Hcfg & _).
  by repeat split.
Defined.

